(** * Sabak-Journal: the school gradebook, its schedule, lessons and attendance

    A shallow embedding of [school_app/models.py] and of the views of
    [school_app/views.py] that create, delete and edit schedules, lessons and
    attendance records.  The relational store is a record of tables (lists of
    rows in insertion order); a view is a function from the request and the
    store to a response and the store it leaves behind.

    Conventions of the embedding:
    - a primary or foreign key is the integer id ([BigAutoField]);
    - a [TimeField] value is the number of minutes after midnight, a
      [DateField] value is the proleptic Gregorian ordinal of the day
      ([date.toordinal()]);
    - a time that a form posts is its text together with the time that
      [TimeField.to_python] reads from the text: the views and [clean()]
      compare the texts as strings, the database compares and stores the
      times;
    - a nullable column is an [option];
    - a form field that the view parses is [Absent] (missing or empty),
      [Malformed] (the parser raises) or a [Value];
    - an exception that a view catches becomes the rejection
      [OperationFailed]; one that it does not catch leaves the view as
      [ServerError], or as [NotFound] for [Http404]. *)

From Stdlib Require Import ZArith List Bool String Lia Permutation Sorted.
Import ListNotations.
Local Open Scope Z_scope.

Set Implicit Arguments.

(** ** Exceptions and results *)

Inductive exn : Type :=
| ValidationError (msg : string)
| IntegrityError
| DoesNotExist
| Http404
| ValueError
| AttributeError
| IndexError
| OverflowError.

Inductive result (A : Type) : Type :=
| Ok (a : A)
| Raise (e : exn).

Arguments Ok {A} a.
Arguments Raise {A} e.

Definition bind {A B : Type} (c : result A) (k : A -> result B) : result B :=
  match c with
  | Ok a => k a
  | Raise e => Raise e
  end.

Notation "x <- c ;; k" := (bind c (fun x => k))
  (at level 61, c at next level, right associativity).
Notation "c ;;; k" := (bind c (fun _ => k))
  (at level 61, right associativity).

(** ** Scalars *)

Definition time := Z.
Definition date := Z.

(** [hm h m] is the time [h:m]. *)
Definition hm (h m : Z) : time := h * 60 + m.

(** [date.weekday()]: Monday is 0 and Sunday is 6. *)
Definition weekday (d : date) : Z := (d + 6) mod 7.

(** Truth value of a Python string: the empty string is false. *)
Definition truthy (s : string) : bool :=
  match s with
  | EmptyString => false
  | _ => true
  end.

(** Truth value of a nullable string column. *)
Definition truthy_opt (s : option string) : bool :=
  match s with
  | Some s => truthy s
  | None => false
  end.

Definition eqb_opt (a b : option Z) : bool :=
  match a, b with
  | Some x, Some y => x =? y
  | None, None => true
  | _, _ => false
  end.

(** Equality of two nullable values the way SQL compares them in a filter or
    a unique index: a NULL equals nothing. *)
Definition sql_eqb (a b : option Z) : bool :=
  match a, b with
  | Some x, Some y => x =? y
  | _, _ => false
  end.

(** A time as a form posts it.  [text] is the posted string; [value] is the
    time that [TimeField.to_python] reads from it when a query or an
    insertion prepares it, and [None] when that raises [ValidationError].
    The embedding does not fix the parser: what is proved of every form
    holds whatever it reads from the texts. *)
Module PostedTime.
Record t : Type := mk {
  text : string;
  value : option time
}.
End PostedTime.

(** [a >= b] on two Python strings: the order of the code points, which is
    the order of the bytes of their UTF-8 encoding. *)
Definition str_ge (a b : string) : bool := String.leb b a.

(** The time that the database makes of a posted time, and of a posted time
    or [None]. *)
Definition to_python (p : PostedTime.t) : result time :=
  match PostedTime.value p with
  | Some t => Ok t
  | None => Raise (ValidationError "invalid time format")
  end.

Definition to_python_opt (p : option PostedTime.t) : result (option time) :=
  match p with
  | None => Ok None
  | Some p => t <- to_python p ;; Ok (Some t)
  end.

(** [x if x else None] on a posted string. *)
Definition if_filled (p : option PostedTime.t) : option PostedTime.t :=
  match p with
  | Some p => if truthy (PostedTime.text p) then Some p else None
  | None => None
  end.

(** The integers that an integer column of the database holds (SQLite: 64
    bits, signed); a query or an insertion with another one raises
    [OverflowError]. *)
Definition in_int64 (n : Z) : bool :=
  (-9223372036854775808 <=? n) && (n <=? 9223372036854775807).

Inductive field (A : Type) : Type :=
| Absent
| Malformed
| Value (a : A).

Arguments Absent {A}.
Arguments Malformed {A}.
Arguments Value {A} a.

Inductive http_method : Type := GET | POST.

(** ** The models *)

Module User.
Record t : Type := mk {
  id : Z;
  is_superuser : bool
}.
End User.

Module Group.
Record t : Type := mk {
  id : Z;
  name : string;
  course : Z
}.
End Group.

Module Subject.
Record t : Type := mk {
  id : Z;
  name : string
}.
End Subject.

Module Student.
Record t : Type := mk {
  id : Z;
  user : Z;
  group : Z
}.
End Student.

Module Teacher.
Record t : Type := mk {
  id : Z;
  user : Z;
  main_group : Z;
  additional_groups : list Z;
  subjects : list Z
}.
End Teacher.

Module Parent.
Record t : Type := mk {
  id : Z;
  user : Z;
  children : list Z
}.
End Parent.

Module Schedule.
Record t : Type := mk {
  id : Z;
  group : Z;
  subject : Z;
  teacher : Z;
  weekday : Z;
  start_time : time;
  end_time : time;
  classroom : option string;
  is_active : bool
}.
End Schedule.

Module Lesson.
Record t : Type := mk {
  id : Z;
  schedule : option Z;
  subject : Z;
  date : date;
  group : Z;
  teacher : option Z;
  classroom : option string;
  start_time : option time;
  end_time : option time;
  is_from_schedule : bool;
  notes : string
}.
End Lesson.

Module Attendance.
Record t : Type := mk {
  id : Z;
  lesson : Z;
  student : Z;
  attended : bool;
  late : bool;
  grade : option Z
}.
End Attendance.

(** ** The store *)

Record Store : Type := mkStore {
  groups : list Group.t;
  subjects : list Subject.t;
  teachers : list Teacher.t;
  students : list Student.t;
  parents : list Parent.t;
  schedules : list Schedule.t;
  lessons : list Lesson.t;
  attendances : list Attendance.t;
  (* the next value of each table's id sequence *)
  schedule_seq : Z;
  lesson_seq : Z;
  attendance_seq : Z
}.

Definition with_schedules (st : Store) (l : list Schedule.t) (seq : Z) : Store :=
  mkStore (groups st) (subjects st) (teachers st) (students st) (parents st)
          l (lessons st) (attendances st)
          seq (lesson_seq st) (attendance_seq st).

Definition with_lessons (st : Store) (l : list Lesson.t) (seq : Z) : Store :=
  mkStore (groups st) (subjects st) (teachers st) (students st) (parents st)
          (schedules st) l (attendances st)
          (schedule_seq st) seq (attendance_seq st).

Definition with_attendances (st : Store) (l : list Attendance.t) (seq : Z) : Store :=
  mkStore (groups st) (subjects st) (teachers st) (students st) (parents st)
          (schedules st) (lessons st) l
          (schedule_seq st) (lesson_seq st) seq.

(** *** Queries *)

Definition mem (x : Z) (l : list Z) : bool := existsb (Z.eqb x) l.

(** [Model.objects.filter(...).first()]. *)
Definition first {A : Type} (l : list A) : option A :=
  match l with
  | [] => None
  | x :: _ => Some x
  end.

Definition get_group (st : Store) (i : Z) : option Group.t :=
  find (fun g => Group.id g =? i) (groups st).

Definition get_subject (st : Store) (i : Z) : option Subject.t :=
  find (fun s => Subject.id s =? i) (subjects st).

Definition get_teacher (st : Store) (i : Z) : option Teacher.t :=
  find (fun t => Teacher.id t =? i) (teachers st).

Definition get_student (st : Store) (i : Z) : option Student.t :=
  find (fun s => Student.id s =? i) (students st).

Definition get_schedule (st : Store) (i : Z) : option Schedule.t :=
  find (fun s => Schedule.id s =? i) (schedules st).

(** [Teacher.objects.get(user=request.user)], also [request.user.teacher]. *)
Definition teacher_of (st : Store) (u : User.t) : option Teacher.t :=
  find (fun t => Teacher.user t =? User.id u) (teachers st).

(** [request.user.parent]. *)
Definition parent_of (st : Store) (u : User.t) : option Parent.t :=
  find (fun p => Parent.user p =? User.id u) (parents st).

(** [Student.objects.filter(group=g)]. *)
Definition students_of_group (st : Store) (g : Z) : list Student.t :=
  filter (fun s => Student.group s =? g) (students st).

(** [teacher.main_group == g or teacher.additional_groups.filter(id=g).exists()]. *)
Definition works_with (t : Teacher.t) (g : Z) : bool :=
  (Teacher.main_group t =? g) || mem g (Teacher.additional_groups t).

(** ** Deleting a schedule

    [Lesson.schedule] and [Attendance.lesson] are declared with
    [on_delete=models.CASCADE]: deleting a row deletes the rows that
    reference it, and then the rows that reference those. *)

Definition references_schedule (i : Z) (l : Lesson.t) : bool :=
  sql_eqb (Lesson.schedule l) (Some i).

Definition lesson_deleted (i : Z) (ls : list Lesson.t) (a : Attendance.t) : bool :=
  existsb (fun l => references_schedule i l && (Lesson.id l =? Attendance.lesson a)) ls.

(** [schedule.delete()] *)
Definition Schedule_delete (s : Schedule.t) (st : Store) : Store :=
  let i := Schedule.id s in
  mkStore (groups st) (subjects st) (teachers st) (students st) (parents st)
          (filter (fun s' => negb (Schedule.id s' =? i)) (schedules st))
          (filter (fun l => negb (references_schedule i l)) (lessons st))
          (filter (fun a => negb (lesson_deleted i (lessons st) a)) (attendances st))
          (schedule_seq st) (lesson_seq st) (attendance_seq st).

(** ** Responses of the views *)

Inductive Rejection : Type :=
| NoPermission
| MissingDate
| MissingSchedule
| MissingSubjectOrGroup
| MissingFields
| NotAuthorizedForGroup
| OnlyOwnSchedule
| WeekdayMismatch
| DuplicateLesson
| InvalidTimeRange
| TeacherNotQualified
| TeacherNotAssignedToGroup
| GroupTimeConflict
| TeacherTimeConflict
| OperationFailed (e : exn).

Inductive Response : Type :=
| Rendered (template : string)
| NotFound
| ServerError (e : exn)
| Rejected (r : Rejection)
| ScheduleDeleted
| LessonCreated (l : Lesson.t) (records : nat)
| AttendanceUpdated (changes_made : bool)
| RecordsCreated (created_count : nat).

(** ** [Schedule]: validation and saving *)

Definition Schedule_clean (st : Store) (s : Schedule.t) : result unit :=
  if Schedule.start_time s >=? Schedule.end_time s
  then Raise (ValidationError "end time must be after start time")
  else
    match get_teacher st (Schedule.teacher s), get_subject st (Schedule.subject s) with
    | Some t, Some _ =>
        if negb (mem (Schedule.subject s) (Teacher.subjects t))
        then Raise (ValidationError "teacher does not teach the subject")
        else
          match get_group st (Schedule.group s) with
          | Some _ =>
              if negb (works_with t (Schedule.group s))
              then Raise (ValidationError "teacher does not work with the group")
              else Ok tt
          | None => Raise DoesNotExist
          end
    | _, _ => Raise DoesNotExist
    end.

(** [unique_together = ('group', 'weekday', 'start_time')] *)
Definition Schedule_same_key (a b : Schedule.t) : bool :=
  (Schedule.group a =? Schedule.group b)
  && (Schedule.weekday a =? Schedule.weekday b)
  && (Schedule.start_time a =? Schedule.start_time b).

(** [clean()] of the instance that [add_schedule] builds.  Its times are
    still the posted strings [start_time] and [end_time], and Python compares
    them as strings. *)
Definition Schedule_clean_posted (st : Store) (start_time end_time : string)
    (group subject teacher : Z) : result unit :=
  if truthy start_time && truthy end_time && str_ge start_time end_time
  then Raise (ValidationError "end time must be after start time")
  else
    match get_teacher st teacher, get_subject st subject with
    | Some t, Some _ =>
        if negb (mem subject (Teacher.subjects t))
        then Raise (ValidationError "teacher does not teach the subject")
        else
          match get_group st group with
          | Some _ =>
              if negb (works_with t group)
              then Raise (ValidationError "teacher does not work with the group")
              else Ok tt
          | None => Raise DoesNotExist
          end
    | _, _ => Raise DoesNotExist
    end.

(** [Schedule.objects.create(...)] as [add_schedule] calls it: [save()] of a
    new instance whose times are the posted strings.  [clean()] sees the
    strings; the insertion reads the times from them, and the row it writes
    holds these times. *)
Definition Schedule_create (st : Store) (group subject teacher weekday : Z)
    (start_time end_time : PostedTime.t) (classroom : string)
  : result (Schedule.t * Store) :=
  Schedule_clean_posted st (PostedTime.text start_time) (PostedTime.text end_time)
                        group subject teacher ;;;
  b <- to_python start_time ;;
  e <- to_python end_time ;;
  let s := Schedule.mk (schedule_seq st) group subject teacher weekday b e
                       (Some classroom) true in
  if existsb (Schedule_same_key s) (schedules st)
  then Raise IntegrityError
  else Ok (s, with_schedules st (schedules st ++ [s]) (schedule_seq st + 1)).

(** [save()] of an instance that has a row already: the row is rewritten. *)
Definition Schedule_save (st : Store) (s : Schedule.t) : result Store :=
  Schedule_clean st s ;;;
  if existsb (fun r => negb (Schedule.id r =? Schedule.id s) && Schedule_same_key s r)
             (schedules st)
  then Raise IntegrityError
  else
    Ok (with_schedules st
          (map (fun r => if Schedule.id r =? Schedule.id s then s else r) (schedules st))
          (schedule_seq st)).

(** ** [Lesson]: validation and saving *)

Definition Lesson_clean (l : Lesson.t) : result unit :=
  match Lesson.start_time l, Lesson.end_time l with
  | Some s, Some e =>
      if s >=? e
      then Raise (ValidationError "end time must be after start time")
      else Ok tt
  | _, _ => Ok tt
  end.

(** The assignments at the head of [Lesson.save]: the lesson takes the
    subject, group, teacher and times of the schedule, and its classroom if
    the lesson has none. *)
Definition take_schedule_fields (l : Lesson.t) (s : Schedule.t) : Lesson.t :=
  Lesson.mk (Lesson.id l) (Lesson.schedule l)
            (Schedule.subject s) (Lesson.date l) (Schedule.group s)
            (Some (Schedule.teacher s))
            (if negb (truthy_opt (Lesson.classroom l))
             then Schedule.classroom s else Lesson.classroom l)
            (Some (Schedule.start_time s)) (Some (Schedule.end_time s))
            (Lesson.is_from_schedule l) (Lesson.notes l).

(** [if self.schedule and self.is_from_schedule: ...]; [self.schedule] reads
    the row of the schedule as it is in the store. *)
Definition Lesson_copy_schedule (st : Store) (l : Lesson.t) : result Lesson.t :=
  match Lesson.schedule l with
  | Some sid =>
      match get_schedule st sid with
      | Some s =>
          if Lesson.is_from_schedule l
          then Ok (take_schedule_fields l s)
          else Ok l
      | None => Raise DoesNotExist
      end
  | None => Ok l
  end.

(** [unique_together = ('subject', 'date', 'group', 'start_time')]; rows
    whose [start_time] is NULL never collide. *)
Definition Lesson_same_key (a b : Lesson.t) : bool :=
  (Lesson.subject a =? Lesson.subject b)
  && (Lesson.date a =? Lesson.date b)
  && (Lesson.group a =? Lesson.group b)
  && sql_eqb (Lesson.start_time a) (Lesson.start_time b).

Definition Lesson_with_id (i : Z) (l : Lesson.t) : Lesson.t :=
  Lesson.mk i (Lesson.schedule l) (Lesson.subject l) (Lesson.date l) (Lesson.group l)
            (Lesson.teacher l) (Lesson.classroom l) (Lesson.start_time l)
            (Lesson.end_time l) (Lesson.is_from_schedule l) (Lesson.notes l).

(** [Lesson.objects.create(...)]: [save()] of a new instance. *)
Definition Lesson_create (st : Store) (l : Lesson.t) : result (Lesson.t * Store) :=
  l1 <- Lesson_copy_schedule st l ;;
  Lesson_clean l1 ;;;
  if existsb (Lesson_same_key l1) (lessons st)
  then Raise IntegrityError
  else
    let l2 := Lesson_with_id (lesson_seq st) l1 in
    Ok (l2, with_lessons st (lessons st ++ [l2]) (lesson_seq st + 1)).

(** [save()] of a lesson that has a row already. *)
Definition Lesson_save (st : Store) (l : Lesson.t) : result Store :=
  l1 <- Lesson_copy_schedule st l ;;
  Lesson_clean l1 ;;;
  if existsb (fun r => negb (Lesson.id r =? Lesson.id l1) && Lesson_same_key l1 r)
             (lessons st)
  then Raise IntegrityError
  else
    Ok (with_lessons st
          (map (fun r => if Lesson.id r =? Lesson.id l1 then l1 else r) (lessons st))
          (lesson_seq st)).

(** [Lesson.objects.create(...)] as the manual path of [add_lesson] calls
    it.  [l] is the instance without its times; [start_time] and [end_time]
    are the posted strings, or [None].  The lesson has no schedule, so
    [save()] copies nothing; [clean()] compares the strings; the insertion
    reads the times from them, and the row it writes holds these times. *)
Definition Lesson_with_times (l : Lesson.t) (start_time end_time : option time)
  : Lesson.t :=
  Lesson.mk (Lesson.id l) (Lesson.schedule l) (Lesson.subject l) (Lesson.date l)
            (Lesson.group l) (Lesson.teacher l) (Lesson.classroom l)
            start_time end_time (Lesson.is_from_schedule l) (Lesson.notes l).

Definition Lesson_clean_posted (start_time end_time : option PostedTime.t) : result unit :=
  match start_time, end_time with
  | Some s, Some e =>
      if truthy (PostedTime.text s) && truthy (PostedTime.text e)
         && str_ge (PostedTime.text s) (PostedTime.text e)
      then Raise (ValidationError "end time must be after start time")
      else Ok tt
  | _, _ => Ok tt
  end.

Definition Lesson_create_posted (st : Store) (l : Lesson.t)
    (start_time end_time : option PostedTime.t) : result (Lesson.t * Store) :=
  Lesson_clean_posted start_time end_time ;;;
  b <- to_python_opt start_time ;;
  e <- to_python_opt end_time ;;
  let l1 := Lesson_with_times l b e in
  if existsb (Lesson_same_key l1) (lessons st)
  then Raise IntegrityError
  else
    let l2 := Lesson_with_id (lesson_seq st) l1 in
    Ok (l2, with_lessons st (lessons st ++ [l2]) (lesson_seq st + 1)).

(** ** [Attendance]: validation and saving *)

Definition Attendance_clean (a : Attendance.t) : result unit :=
  match Attendance.grade a with
  | Some g =>
      if (g <? 2) || (g >? 5)
      then Raise (ValidationError "grade must be between 2 and 5")
      else
        if negb (Attendance.attended a) && Attendance.late a
        then Raise (ValidationError "a student who was absent cannot be late")
        else Ok tt
  | None =>
      if negb (Attendance.attended a) && Attendance.late a
      then Raise (ValidationError "a student who was absent cannot be late")
      else Ok tt
  end.

(** [unique_together = ('lesson', 'student')] *)
Definition Attendance_same_key (a b : Attendance.t) : bool :=
  (Attendance.lesson a =? Attendance.lesson b)
  && (Attendance.student a =? Attendance.student b).

Definition Attendance_with_id (i : Z) (a : Attendance.t) : Attendance.t :=
  Attendance.mk i (Attendance.lesson a) (Attendance.student a)
                (Attendance.attended a) (Attendance.late a) (Attendance.grade a).

(** An instance that has no row yet; its id is given on insertion. *)
Definition new_Attendance (lesson student : Z) (attended late : bool) (grade : option Z)
  : Attendance.t :=
  Attendance.mk 0 lesson student attended late grade.

(** [Attendance.objects.create(...)]: [save()] of a new instance. *)
Definition Attendance_create (st : Store) (a : Attendance.t) : result Store :=
  Attendance_clean a ;;;
  if existsb (Attendance_same_key a) (attendances st)
  then Raise IntegrityError
  else
    Ok (with_attendances st
          (attendances st ++ [Attendance_with_id (attendance_seq st) a])
          (attendance_seq st + 1)).

(** [save()] of a record that has a row already. *)
Definition Attendance_save (st : Store) (a : Attendance.t) : result Store :=
  Attendance_clean a ;;;
  if existsb (fun r => negb (Attendance.id r =? Attendance.id a) && Attendance_same_key a r)
             (attendances st)
  then Raise IntegrityError
  else
    Ok (with_attendances st
          (map (fun r => if Attendance.id r =? Attendance.id a then a else r)
               (attendances st))
          (attendance_seq st)).

(** The rows of a batch, numbered from [seq]. *)
Fixpoint number_from (seq : Z) (batch : list Attendance.t) : list Attendance.t :=
  match batch with
  | [] => []
  | a :: rest => Attendance_with_id seq a :: number_from (seq + 1) rest
  end.

(** No two rows of the batch, and no row of the batch and row of the table,
    have the same (lesson, student). *)
Fixpoint batch_unique (table batch : list Attendance.t) : bool :=
  match batch with
  | [] => true
  | a :: rest =>
      negb (existsb (Attendance_same_key a) table)
      && negb (existsb (Attendance_same_key a) rest)
      && batch_unique table rest
  end.

(** [Attendance.objects.bulk_create(batch)]: one insertion of all the rows,
    without [save()] and so without [clean()]. *)
Definition bulk_create (st : Store) (batch : list Attendance.t) : result Store :=
  match batch with
  | [] => Ok st
  | _ :: _ =>
      if batch_unique (attendances st) batch
      then Ok (with_attendances st
                 (attendances st ++ number_from (attendance_seq st) batch)
                 (attendance_seq st + Z.of_nat (List.length batch)))
      else Raise IntegrityError
  end.

(** One default record per student of the list. *)
Definition default_records (lesson : Z) (sts : list Student.t) : list Attendance.t :=
  map (fun s => new_Attendance lesson (Student.id s) false false None) sts.

(** ** The views *)

(** [get_object_or_404(Model, id=i)] on a posted id.  An id that is not a
    number makes the lookup raise [ValueError]. *)
Definition get_object_or_404 {A : Type} (get : Z -> option A) (i : field Z) : result A :=
  match i with
  | Value i =>
      match get i with
      | Some a => Ok a
      | None => Raise Http404
      end
  | _ => Raise ValueError
  end.

Definition is_absent {A : Type} (f : field A) : bool :=
  match f with
  | Absent => true
  | _ => false
  end.

(** *** [delete_schedule] *)

Definition delete_schedule (user : User.t) (method : http_method) (schedule_id : Z)
    (st : Store) : Response * Store :=
  match get_schedule st schedule_id with
  | None => (NotFound, st)
  | Some schedule =>
      let own :=
        match teacher_of st user with
        | Some teacher => Teacher.id teacher =? Schedule.teacher schedule
        | None => false
        end in
      if negb (User.is_superuser user || own)
      then (Rejected NoPermission, st)
      else
        match method with
        | POST => (ScheduleDeleted, Schedule_delete schedule st)
        | GET => (Rendered "confirm_delete_schedule.html", st)
        end
  end.

(** *** [add_schedule] *)

Module ScheduleForm.
Record t : Type := mk {
  group : field Z;
  subject : field Z;
  teacher : field Z;
  weekday : field Z;
  start_time : option PostedTime.t;
  end_time : option PostedTime.t;
  classroom : string
}.
End ScheduleForm.

(** [rows.exclude(end_time__lte=start_time).exclude(start_time__gte=end_time)] *)
Definition time_conflicts (rows : list Schedule.t) (start_time end_time : time)
  : list Schedule.t :=
  filter (fun r => negb (Schedule.start_time r >=? end_time))
         (filter (fun r => negb (Schedule.end_time r <=? start_time)) rows).

(** [Schedule.objects.filter(group=g, weekday=w, is_active=True)] *)
Definition active_of_group (st : Store) (g w : Z) : list Schedule.t :=
  filter (fun r => (Schedule.group r =? g) && (Schedule.weekday r =? w)
                   && Schedule.is_active r)
         (schedules st).

(** [Schedule.objects.filter(teacher=t, weekday=w, is_active=True)] *)
Definition active_of_teacher (st : Store) (t w : Z) : list Schedule.t :=
  filter (fun r => (Schedule.teacher r =? t) && (Schedule.weekday r =? w)
                   && Schedule.is_active r)
         (schedules st).

(** The checks of [add_schedule] once the three objects are fetched.
    Whether [.first()] finds a row does not depend on the order of the rows.
    The view compares the two posted strings; the queries read the times
    from them.  After the row is created the view formats the new instance
    for its message: [Schedule.__str__] calls [get_time_range], which calls
    [strftime] on the posted strings and raises [AttributeError]; the view
    catches it and reports an error, and the row stays. *)
Definition add_schedule_checked (user : User.t) (form : ScheduleForm.t)
    (group : Group.t) (subject : Subject.t) (teacher : Teacher.t)
    (start_time end_time : PostedTime.t) (st : Store) : Response * Store :=
  let foreign :=
    match teacher_of st user with
    | Some own => negb (User.is_superuser user) && negb (Teacher.id own =? Teacher.id teacher)
    | None => false
    end in
  if foreign then (Rejected OnlyOwnSchedule, st)
  else if str_ge (PostedTime.text start_time) (PostedTime.text end_time)
  then (Rejected InvalidTimeRange, st)
  else if negb (mem (Subject.id subject) (Teacher.subjects teacher))
  then (Rejected TeacherNotQualified, st)
  else if negb (works_with teacher (Group.id group))
  then (Rejected TeacherNotAssignedToGroup, st)
  else
    match ScheduleForm.weekday form with
    | Value weekday =>
        match to_python start_time, to_python end_time with
        | Ok b, Ok e =>
            if negb (in_int64 weekday)
            then (Rejected (OperationFailed OverflowError), st)
            else
              match first (time_conflicts (active_of_group st (Group.id group) weekday)
                                          b e) with
              | Some _ => (Rejected GroupTimeConflict, st)
              | None =>
                  match first (time_conflicts
                                 (active_of_teacher st (Teacher.id teacher) weekday)
                                 b e) with
                  | Some _ => (Rejected TeacherTimeConflict, st)
                  | None =>
                      match Schedule_create st (Group.id group) (Subject.id subject)
                              (Teacher.id teacher) weekday start_time end_time
                              (ScheduleForm.classroom form) with
                      | Ok (schedule, st') =>
                          (Rejected (OperationFailed AttributeError), st')
                      | Raise e => (Rejected (OperationFailed e), st)
                      end
                  end
              end
        | Raise e, _ => (Rejected (OperationFailed e), st)
        | _, Raise e => (Rejected (OperationFailed e), st)
        end
    | _ => (Rejected (OperationFailed ValueError), st)
    end.

Definition add_schedule (user : User.t) (method : http_method) (form : ScheduleForm.t)
    (st : Store) : Response * Store :=
  let is_teacher :=
    match teacher_of st user with
    | Some _ => true
    | None => false
    end in
  if negb (User.is_superuser user || is_teacher)
  then (Rejected NoPermission, st)
  else
    match method with
    | GET => (Rendered "add_schedule.html", st)
    | POST =>
        match if_filled (ScheduleForm.start_time form),
              if_filled (ScheduleForm.end_time form) with
        | Some start_time, Some end_time =>
            if is_absent (ScheduleForm.group form)
               || is_absent (ScheduleForm.subject form)
               || is_absent (ScheduleForm.teacher form)
               || is_absent (ScheduleForm.weekday form)
            then (Rejected MissingFields, st)
            else
              match get_object_or_404 (get_group st) (ScheduleForm.group form) with
              | Raise e => (Rejected (OperationFailed e), st)
              | Ok group =>
                  match get_object_or_404 (get_subject st) (ScheduleForm.subject form) with
                  | Raise e => (Rejected (OperationFailed e), st)
                  | Ok subject =>
                      match get_object_or_404 (get_teacher st) (ScheduleForm.teacher form) with
                      | Raise e => (Rejected (OperationFailed e), st)
                      | Ok teacher =>
                          add_schedule_checked user form group subject teacher
                                               start_time end_time st
                      end
                  end
              end
        | _, _ => (Rejected MissingFields, st)
        end
    end.

(** The row that [add_schedule] inserts for a group, a subject, a teacher,
    a weekday and the times read from the posted strings. *)
Definition new_row (st : Store) (form : ScheduleForm.t) (group : Group.t)
    (subject : Subject.t) (teacher : Teacher.t) (w : Z) (b e : time) : Schedule.t :=
  Schedule.mk (schedule_seq st) (Group.id group) (Subject.id subject)
              (Teacher.id teacher) w b e (Some (ScheduleForm.classroom form)) true.

(** A POST request to [add_schedule] that reaches the two queries for
    conflicts: the user is a superuser or the teacher of the form, the three
    objects exist, the weekday is an integer of the column, both times are
    posted, the start is below the end in the order of strings, the times
    [b] and [e] are read from them, and the teacher teaches the subject and
    works with the group. *)
Record Checked (user : User.t) (form : ScheduleForm.t) (st : Store)
    (group : Group.t) (subject : Subject.t) (teacher : Teacher.t) (w : Z)
    (start_time end_time : PostedTime.t) (b e : time) : Prop := mk_checked {
  ck_user : User.is_superuser user = true
            \/ (exists own, teacher_of st user = Some own
                             /\ Teacher.id own = Teacher.id teacher);
  ck_group : get_object_or_404 (get_group st) (ScheduleForm.group form) = Ok group;
  ck_subject : get_object_or_404 (get_subject st) (ScheduleForm.subject form) = Ok subject;
  ck_teacher : get_object_or_404 (get_teacher st) (ScheduleForm.teacher form) = Ok teacher;
  ck_weekday : ScheduleForm.weekday form = Value w;
  ck_int64 : in_int64 w = true;
  ck_start : ScheduleForm.start_time form = Some start_time;
  ck_end : ScheduleForm.end_time form = Some end_time;
  ck_filled : truthy (PostedTime.text start_time) = true;
  ck_order : str_ge (PostedTime.text start_time) (PostedTime.text end_time) = false;
  ck_start_value : PostedTime.value start_time = Some b;
  ck_end_value : PostedTime.value end_time = Some e;
  ck_taught : In (Subject.id subject) (Teacher.subjects teacher);
  ck_works : works_with teacher (Group.id group) = true
}.

(** *** [add_lesson] and [create_lesson_from_schedule] *)

Module LessonForm.
Record t : Type := mk {
  lesson_type : option string;
  schedule_id : field Z;
  date : field date;
  subject : field Z;
  group : field Z;
  start_time : option PostedTime.t;
  end_time : option PostedTime.t;
  classroom : string;
  notes : string
}.
End LessonForm.

(** [Lesson.objects.filter(schedule=s, date=d)] *)
Definition lessons_of_schedule (st : Store) (s : Z) (d : date) : list Lesson.t :=
  filter (fun l => sql_eqb (Lesson.schedule l) (Some s) && (Lesson.date l =? d))
         (lessons st).

(** [Lesson.objects.filter(subject=s, group=g, date=d)] *)
Definition lessons_of_subject (st : Store) (s g : Z) (d : date) : list Lesson.t :=
  filter (fun l => (Lesson.subject l =? s) && (Lesson.group l =? g) && (Lesson.date l =? d))
         (lessons st).

(** The end of both views: one default record for each student of the group. *)
Definition fan_out (lesson : Lesson.t) (group : Z) (st : Store) : Response * Store :=
  let students := students_of_group st group in
  match bulk_create st (default_records (Lesson.id lesson) students) with
  | Ok st' => (LessonCreated lesson (List.length students), st')
  | Raise e => (Rejected (OperationFailed e), st)
  end.

(** [classroom or schedule.classroom] *)
Definition classroom_or (classroom : string) (s : Schedule.t) : option string :=
  if truthy classroom then Some classroom else Schedule.classroom s.

(** The lesson that both views build from a schedule. *)
Definition lesson_of_schedule (schedule : Schedule.t) (lesson_date : date)
    (classroom notes : string) : Lesson.t :=
  Lesson.mk 0 (Some (Schedule.id schedule)) (Schedule.subject schedule) lesson_date
            (Schedule.group schedule) (Some (Schedule.teacher schedule))
            (classroom_or classroom schedule)
            (Some (Schedule.start_time schedule)) (Some (Schedule.end_time schedule))
            true notes.

(** The rejection of a date that is on another day of the week.  Its
    message names the day of the schedule by [day_names[schedule.weekday]],
    where [day_names] lists the seven names: an index from -7 to 6 has a
    name, and another one makes the message raise [IndexError], which the
    view catches and reports as an error of the creation. *)
Definition weekday_mismatch (schedule : Schedule.t) : Rejection :=
  if (-7 <=? Schedule.weekday schedule) && (Schedule.weekday schedule <=? 6)
  then WeekdayMismatch
  else OperationFailed IndexError.

Definition add_lesson_from_schedule (teacher : Teacher.t) (form : LessonForm.t)
    (lesson_date : date) (st : Store) : Response * Store :=
  if is_absent (LessonForm.schedule_id form)
  then (Rejected MissingSchedule, st)
  else
    match get_object_or_404 (get_schedule st) (LessonForm.schedule_id form) with
    | Raise e => (Rejected (OperationFailed e), st)
    | Ok schedule =>
        if negb (works_with teacher (Schedule.group schedule))
        then (Rejected NotAuthorizedForGroup, st)
        else if negb (weekday lesson_date =? Schedule.weekday schedule)
        then (Rejected (weekday_mismatch schedule), st)
        else
          match first (lessons_of_schedule st (Schedule.id schedule) lesson_date) with
          | Some _ => (Rejected DuplicateLesson, st)
          | None =>
              match Lesson_create st
                      (lesson_of_schedule schedule lesson_date
                         (LessonForm.classroom form) (LessonForm.notes form)) with
              | Raise e => (Rejected (OperationFailed e), st)
              | Ok (lesson, st1) => fan_out lesson (Lesson.group lesson) st1
              end
          end
    end.

(** The group was fetched by the posted id, so its id is [int(group_id)].
    The times of the new instance are the posted strings.  After the row is
    created the view formats [lesson.get_time_range()] for its message when
    [lesson.start_time] is set; with both times set this calls [strftime] on
    a string and raises [AttributeError], which the view catches: it reports
    an error, the row of the lesson stays, and the fan-out is not reached. *)
Definition add_lesson_manual (teacher : Teacher.t) (form : LessonForm.t)
    (lesson_date : date) (st : Store) : Response * Store :=
  if is_absent (LessonForm.subject form) || is_absent (LessonForm.group form)
  then (Rejected MissingSubjectOrGroup, st)
  else
    match get_object_or_404 (get_subject st) (LessonForm.subject form) with
    | Raise e => (Rejected (OperationFailed e), st)
    | Ok subject =>
        match get_object_or_404 (get_group st) (LessonForm.group form) with
        | Raise e => (Rejected (OperationFailed e), st)
        | Ok group =>
            if negb (works_with teacher (Group.id group))
            then (Rejected NotAuthorizedForGroup, st)
            else
              match first (lessons_of_subject st (Subject.id subject) (Group.id group)
                                              lesson_date) with
              | Some _ => (Rejected DuplicateLesson, st)
              | None =>
                  let start_time := if_filled (LessonForm.start_time form) in
                  let end_time := if_filled (LessonForm.end_time form) in
                  match Lesson_create_posted st
                          (Lesson.mk 0 None (Subject.id subject) lesson_date
                             (Group.id group) (Some (Teacher.id teacher))
                             (Some (LessonForm.classroom form))
                             None None false (LessonForm.notes form))
                          start_time end_time with
                  | Raise e => (Rejected (OperationFailed e), st)
                  | Ok (lesson, st1) =>
                      match start_time, end_time with
                      | Some _, Some _ => (Rejected (OperationFailed AttributeError), st1)
                      | _, _ => fan_out lesson (Lesson.group lesson) st1
                      end
                  end
              end
        end
    end.

Definition is_from_schedule_type (lesson_type : option string) : bool :=
  match lesson_type with
  | Some s => String.eqb s "from_schedule"
  | None => false
  end.

Definition add_lesson (user : User.t) (method : http_method) (form : LessonForm.t)
    (st : Store) : Response * Store :=
  match teacher_of st user with
  | None => (Rejected NoPermission, st)
  | Some teacher =>
      match method with
      | GET => (Rendered "add_lesson.html", st)
      | POST =>
          match LessonForm.date form with
          | Absent => (Rejected MissingDate, st)
          | Malformed => (Rejected (OperationFailed ValueError), st)
          | Value lesson_date =>
              if is_from_schedule_type (LessonForm.lesson_type form)
              then add_lesson_from_schedule teacher form lesson_date st
              else add_lesson_manual teacher form lesson_date st
          end
      end
  end.

(** The access check of [create_lesson_from_schedule]: the teacher of the
    schedule and the superuser may use it. *)
Definition refused (st : Store) (user : User.t) (schedule : Schedule.t) : bool :=
  match teacher_of st user with
  | Some teacher =>
      negb (Teacher.id teacher =? Schedule.teacher schedule)
      && negb (User.is_superuser user)
  | None => negb (User.is_superuser user)
  end.

(** The form of this view posts [date], [classroom] and [notes] only. *)
Definition create_lesson_from_schedule (user : User.t) (method : http_method)
    (schedule_id : Z) (form : LessonForm.t) (st : Store) : Response * Store :=
  match get_schedule st schedule_id with
  | None => (NotFound, st)
  | Some schedule =>
      if refused st user schedule then (Rejected NoPermission, st)
      else
        match method with
        | GET => (Rendered "create_lesson_from_schedule.html", st)
        | POST =>
            match LessonForm.date form with
            | Absent => (Rejected MissingDate, st)
            | Malformed => (Rejected (OperationFailed ValueError), st)
            | Value lesson_date =>
                if negb (weekday lesson_date =? Schedule.weekday schedule)
                then (Rejected (weekday_mismatch schedule), st)
                else
                  match first (lessons_of_schedule st (Schedule.id schedule) lesson_date) with
                  | Some _ => (Rejected DuplicateLesson, st)
                  | None =>
                      match Lesson_create st
                              (lesson_of_schedule schedule lesson_date
                                 (LessonForm.classroom form) (LessonForm.notes form)) with
                      | Raise e => (Rejected (OperationFailed e), st)
                      | Ok (lesson, st1) => fan_out lesson (Schedule.group schedule) st1
                      end
                  end
            end
        end
  end.

(** *** [create_missing_attendance_records] *)

(** [Attendance.objects.filter(lesson=l).values_list('student_id', flat=True)] *)
Definition existing_attendance (st : Store) (lesson : Lesson.t) : list Z :=
  map Attendance.student
      (filter (fun a => Attendance.lesson a =? Lesson.id lesson) (attendances st)).

(** [students.exclude(id__in=existing_attendance)] *)
Definition students_without_attendance (st : Store) (lesson : Lesson.t) : list Student.t :=
  filter (fun s => negb (mem (Student.id s) (existing_attendance st lesson)))
         (students_of_group st (Lesson.group lesson)).

(** The loop over the lessons. *)
Fixpoint create_missing (ls : list Lesson.t) (created_count : nat) (st : Store)
  : Response * Store :=
  match ls with
  | [] => (RecordsCreated created_count, st)
  | lesson :: rest =>
      let attendance_records :=
        default_records (Lesson.id lesson) (students_without_attendance st lesson) in
      match attendance_records with
      | [] => create_missing rest created_count st
      | _ :: _ =>
          match bulk_create st attendance_records with
          | Ok st' =>
              create_missing rest (created_count + List.length attendance_records) st'
          | Raise e => (ServerError e, st)
          end
      end
  end.

(** The order of [Meta.ordering = ['-date', 'start_time']] of [Lesson]: the
    later date first, and on one date the earlier start first, a lesson
    without a start time before the others (SQLite sorts NULL first).
    [ordering_leb a b] says that [a] does not come after [b]. *)
Definition start_leb (a b : option time) : bool :=
  match a, b with
  | None, _ => true
  | Some _, None => false
  | Some x, Some y => x <=? y
  end.

Definition ordering_leb (a b : Lesson.t) : bool :=
  (Lesson.date b <? Lesson.date a)
  || ((Lesson.date a =? Lesson.date b)
      && start_leb (Lesson.start_time a) (Lesson.start_time b)).

Fixpoint insert_ordered (l : Lesson.t) (sorted : list Lesson.t) : list Lesson.t :=
  match sorted with
  | [] => [l]
  | x :: rest =>
      if ordering_leb l x
      then l :: x :: rest
      else x :: insert_ordered l rest
  end.

(** [Lesson.objects.all()]: the rows in the order of [Meta.ordering]; rows
    that agree in date and start time stay in table order. *)
Definition all_lessons (st : Store) : list Lesson.t :=
  fold_right insert_ordered [] (lessons st).

Definition create_missing_attendance_records (user : User.t) (method : http_method)
    (st : Store) : Response * Store :=
  if negb (User.is_superuser user)
  then (Rejected NoPermission, st)
  else
    match method with
    | POST => create_missing (all_lessons st) 0%nat st
    | GET => (Rendered "create_missing_attendance.html", st)
    end.

(** *** [edit_attendance] *)

Module Entry.
(** What the form posts for one lesson: whether [attended_<id>] and
    [late_<id>] are present, and [grade_<id>] read by [int()]. *)
Record t : Type := mk {
  attended : bool;
  late : bool;
  grade : field Z
}.
End Entry.

Definition has_access (st : Store) (user : User.t) (student : Student.t) : bool :=
  match teacher_of st user with
  | Some teacher => works_with teacher (Student.group student)
  | None =>
      match parent_of st user with
      | Some parent => mem (Student.id student) (Parent.children parent)
      | None => User.is_superuser user || (User.id user =? Student.user student)
      end
  end.

(** [order_by('-date')]: lessons of one date stay in table order. *)
Fixpoint insert_by_date (l : Lesson.t) (sorted : list Lesson.t) : list Lesson.t :=
  match sorted with
  | [] => [l]
  | x :: rest =>
      if Lesson.date x <=? Lesson.date l
      then l :: x :: rest
      else x :: insert_by_date l rest
  end.

Definition order_by_date_desc (ls : list Lesson.t) : list Lesson.t :=
  fold_right insert_by_date [] ls.

(** [Lesson.objects.filter(group=g).order_by('-date')] *)
Definition lessons_of_group (st : Store) (g : Z) : list Lesson.t :=
  order_by_date_desc (filter (fun l => Lesson.group l =? g) (lessons st)).

(** [Attendance.objects.filter(student=s)] *)
Definition records_of (st : Store) (s : Z) : list Attendance.t :=
  filter (fun a => Attendance.student a =? s) (attendances st).

(** [{record.lesson.id: record for record in records}]: a later record
    replaces an earlier one of the same lesson. *)
Definition records_dict (records : list Attendance.t) (lesson_id : Z)
  : option Attendance.t :=
  find (fun r => Attendance.lesson r =? lesson_id) (rev records).

(** The grade the view keeps from the posted one. *)
Definition posted_grade (g : field Z) : option Z :=
  match g with
  | Value grade => if (grade <? 2) || (grade >? 5) then None else Some grade
  | _ => None
  end.

(** The body of the loop for one lesson.  A [ValidationError] is reported
    and the loop goes on; any other exception leaves the view. *)
Definition edit_entry (student : Student.t) (dict : Z -> option Attendance.t)
    (form : Z -> Entry.t) (lesson : Lesson.t) (changes_made : bool) (st : Store)
  : result (bool * Store) :=
  let attended := Entry.attended (form (Lesson.id lesson)) in
  let late := if negb attended then false else Entry.late (form (Lesson.id lesson)) in
  let grade := posted_grade (Entry.grade (form (Lesson.id lesson))) in
  match dict (Lesson.id lesson) with
  | Some attendance =>
      if negb (Bool.eqb (Attendance.attended attendance) attended)
         || negb (Bool.eqb (Attendance.late attendance) late)
         || negb (eqb_opt (Attendance.grade attendance) grade)
      then
        match Attendance_save st
                (Attendance.mk (Attendance.id attendance) (Attendance.lesson attendance)
                               (Attendance.student attendance) attended late grade) with
        | Ok st' => Ok (true, st')
        | Raise (ValidationError _) => Ok (changes_made, st)
        | Raise e => Raise e
        end
      else Ok (changes_made, st)
  | None =>
      match Attendance_create st
              (new_Attendance (Lesson.id lesson) (Student.id student) attended late grade) with
      | Ok st' => Ok (true, st')
      | Raise (ValidationError _) => Ok (changes_made, st)
      | Raise e => Raise e
      end
  end.

Fixpoint edit_entries (student : Student.t) (dict : Z -> option Attendance.t)
    (form : Z -> Entry.t) (ls : list Lesson.t) (changes_made : bool) (st : Store)
  : Response * Store :=
  match ls with
  | [] => (AttendanceUpdated changes_made, st)
  | lesson :: rest =>
      match edit_entry student dict form lesson changes_made st with
      | Ok (changes_made', st') => edit_entries student dict form rest changes_made' st'
      | Raise e => (ServerError e, st)
      end
  end.

Definition edit_attendance (user : User.t) (method : http_method) (student_id : Z)
    (form : Z -> Entry.t) (st : Store) : Response * Store :=
  match get_student st student_id with
  | None => (NotFound, st)
  | Some student =>
      if negb (has_access st user student)
      then (Rejected NoPermission, st)
      else
        let lessons := lessons_of_group st (Student.group student) in
        let dict := records_dict (records_of st (Student.id student)) in
        match method with
        | POST => edit_entries student dict form lessons false st
        | GET => (Rendered "edit_student.html", st)
        end
  end.

(** A rejection that is not the report of an exception. *)
Definition is_check (r : Rejection) : Prop :=
  match r with
  | OperationFailed _ => False
  | _ => True
  end.

(** ** Integrity of a store

    What the database guarantees of the tables: primary keys are unique and
    below the next value of the sequence, an attendance record belongs to a
    lesson of the table, and (lesson, student) is unique. *)

Definition attendance_key (a : Attendance.t) : Z * Z :=
  (Attendance.lesson a, Attendance.student a).

Record wf_store (st : Store) : Prop := mk_wf {
  wf_students : NoDup (map Student.id (students st));
  wf_lessons : NoDup (map Lesson.id (lessons st));
  wf_attendances : NoDup (map Attendance.id (attendances st));
  wf_unique : NoDup (map attendance_key (attendances st));
  wf_lesson_fk : forall a, In a (attendances st) ->
                 In (Attendance.lesson a) (map Lesson.id (lessons st));
  wf_lesson_seq : forall l, In l (lessons st) -> Lesson.id l < lesson_seq st;
  wf_attendance_seq : forall a, In a (attendances st) ->
                      Attendance.id a < attendance_seq st
}.

(** The attendance records of one lesson. *)
Definition records_of_lesson (st : Store) (lesson_id : Z) : list Attendance.t :=
  filter (fun a => Attendance.lesson a =? lesson_id) (attendances st).

(** A record as the fan-out writes it. *)
Definition is_default (a : Attendance.t) : Prop :=
  Attendance.attended a = false /\ Attendance.late a = false
  /\ Attendance.grade a = None.

(** What holds of a lesson and its records after the fan-out for [n]
    students: the lesson is stored, [n] is the number of students of its
    group, and the records of the lesson are one default record for each of
    these students, in their order. *)
Definition fanned_out (st : Store) (l : Lesson.t) (n : nat) : Prop :=
  In l (lessons st)
  /\ n = List.length (students_of_group st (Lesson.group l))
  /\ List.length (records_of_lesson st (Lesson.id l)) = n
  /\ map Attendance.student (records_of_lesson st (Lesson.id l))
     = map Student.id (students_of_group st (Lesson.group l))
  /\ NoDup (map Attendance.student (records_of_lesson st (Lesson.id l)))
  /\ Forall is_default (records_of_lesson st (Lesson.id l)).

(** The store after a batch of records is inserted. *)
Definition add_rows (st : Store) (batch : list Attendance.t) : Store :=
  with_attendances st
    (attendances st ++ number_from (attendance_seq st) batch)
    (attendance_seq st + Z.of_nat (List.length batch)).

(** The records that lessons lack in a store: for each lesson, one default
    record for each student of its group who has none. *)
Definition missing_rows (st : Store) (ls : list Lesson.t) : list Attendance.t :=
  flat_map (fun l => default_records (Lesson.id l) (students_without_attendance st l)) ls.

(** ** A small school

    Group A has two students and group B has one.  The first teacher has
    group A as main group and group B as additional group and teaches
    mathematics; the second teacher has group B and teaches physics.  The
    schedule holds mathematics with the first teacher for group A on Mondays
    from 09:00 to 10:00, and one lesson was generated from it for Monday
    2024-01-01 (ordinal 738886); the first student was present and late and
    has the grade 4, the second was absent. *)

Definition monday : date := 738886.
Definition tuesday : date := 738887.

Definition admin : User.t := User.mk 1 true.
Definition teacher_user : User.t := User.mk 10 false.
Definition other_teacher_user : User.t := User.mk 11 false.

Definition maths_monday : Schedule.t :=
  Schedule.mk 1 1 1 1 0 (hm 9 0) (hm 10 0) (Some "101"%string) true.

Definition first_lesson : Lesson.t :=
  Lesson.mk 1 (Some 1) 1 monday 1 (Some 1) (Some "101"%string)
            (Some (hm 9 0)) (Some (hm 10 0)) true ""%string.

Definition school : Store :=
  mkStore
    [Group.mk 1 "A" 1; Group.mk 2 "B" 1]
    [Subject.mk 1 "Mathematics"; Subject.mk 2 "Physics"]
    [Teacher.mk 1 10 1 [2] [1]; Teacher.mk 2 11 2 [] [2]]
    [Student.mk 1 21 1; Student.mk 2 22 1; Student.mk 3 23 2]
    [Parent.mk 1 30 [1]]
    [maths_monday]
    [first_lesson]
    [Attendance.mk 1 1 1 true true (Some 4); Attendance.mk 2 1 2 false false None]
    2 2 3.

(** A store with no rows. *)
Definition empty_store : Store := mkStore [] [] [] [] [] [] [] [] 1 1 1.

(** The school before any lesson was held. *)
Definition new_school : Store :=
  mkStore (groups school) (subjects school) (teachers school) (students school)
          (parents school) (schedules school) [] [] 2 1 1.

(** The text that a time input posts for a time of the day: two digits for
    the hour, a colon, two digits for the minute; [TimeField.to_python]
    reads the time back from it. *)
Definition two_digits (n : Z) : string :=
  String (Ascii.ascii_of_nat (48 + Z.to_nat (n / 10)))
         (String (Ascii.ascii_of_nat (48 + Z.to_nat (n mod 10))) EmptyString).

Definition hhmm (t : time) : string :=
  (two_digits (t / 60) ++ ":" ++ two_digits (t mod 60))%string.

Definition posted (t : time) : PostedTime.t := PostedTime.mk (hhmm t) (Some t).

(** Forms for the schedule view: mathematics with the teacher of the small
    school on a Monday, for a group and a time range. *)
Definition schedule_form (group : Z) (start_time end_time : time) : ScheduleForm.t :=
  ScheduleForm.mk (Value group) (Value 1) (Value 1) (Value 0)
                  (Some (posted start_time)) (Some (posted end_time)) "102".

(** Forms for the lesson views. *)
Definition from_schedule_form (schedule_id : Z) (d : date) : LessonForm.t :=
  LessonForm.mk (Some "from_schedule"%string) (Value schedule_id) (Value d)
                Absent Absent None None "" "".

Definition manual_form (subject group : Z) (d : date) (start_time end_time : time)
  : LessonForm.t :=
  LessonForm.mk (Some "manual"%string) Absent (Value d)
                (Value subject) (Value group)
                (Some (posted start_time)) (Some (posted end_time)) "" "".

(** A form for a lesson by hand that posts no time. *)
Definition untimed_form (subject group : Z) (d : date) : LessonForm.t :=
  LessonForm.mk (Some "manual"%string) Absent (Value d)
                (Value subject) (Value group) None None "" "".

(** The small school after a fourth student has joined group A: the lesson
    of the Monday has no record for the newcomer. *)
Definition school_after_join : Store :=
  mkStore (groups school) (subjects school) (teachers school)
          (students school ++ [Student.mk 4 24 1])
          (parents school) (schedules school) (lessons school) (attendances school)
          2 2 3.

(** The schedule of the small school moved to 11:00; the school after the
    lesson of the Monday is generated, then after the schedule is moved, then
    after the lesson is saved again. *)
Definition maths_moved : Schedule.t :=
  Schedule.mk 1 1 1 1 0 (hm 11 0) (hm 12 0) (Some "101"%string) true.

Definition after_creation : Store :=
  snd (create_lesson_from_schedule teacher_user POST 1 (from_schedule_form 1 monday)
         new_school).

Definition after_move : Store :=
  with_schedules after_creation [maths_moved] (schedule_seq after_creation).

Definition after_resave : Store :=
  with_lessons after_move [take_schedule_fields first_lesson maths_moved]
               (lesson_seq after_move).

(** Forms for the attendance view: the same entry for every lesson. *)
Definition every_lesson (attended late : bool) (grade : field Z) : Z -> Entry.t :=
  fun _ => Entry.mk attended late grade.

(** The values that [edit_attendance] writes for an entry. *)
Definition written (e : Entry.t) : bool * bool * option Z :=
  (Entry.attended e, Entry.attended e && Entry.late e, posted_grade (Entry.grade e)).

Definition values (a : Attendance.t) : bool * bool * option Z :=
  (Attendance.attended a, Attendance.late a, Attendance.grade a).

(** What the loop of [edit_attendance] keeps of the attendance table. *)
Definition table_ok (st : Store) : Prop :=
  NoDup (map Attendance.id (attendances st))
  /\ NoDup (map attendance_key (attendances st))
  /\ (forall a, In a (attendances st) -> Attendance.id a < attendance_seq st).

(** The dictionary read before the loop still tells the truth about the
    record of a lesson and the student. *)
Definition agrees (dict : Z -> option Attendance.t) (st : Store) (student lesson : Z)
  : Prop :=
  match dict lesson with
  | Some a0 => In a0 (attendances st) /\ attendance_key a0 = (lesson, student)
  | None => forall a, In a (attendances st) -> attendance_key a <> (lesson, student)
  end.

(** ** Invariants of the timetable and of the lessons *)

(** Two rows of the schedule that could clash: different rows, both active,
    on the same day, for the same group or with the same teacher. *)
Definition may_clash (a b : Schedule.t) : Prop :=
  Schedule.id a <> Schedule.id b
  /\ Schedule.is_active a = true /\ Schedule.is_active b = true
  /\ Schedule.weekday a = Schedule.weekday b
  /\ (Schedule.group a = Schedule.group b \/ Schedule.teacher a = Schedule.teacher b).

(** No group and no teacher is booked twice at a time, and the ids of the
    rows are below the next value of the sequence. *)
Definition timetable_ok (st : Store) : Prop :=
  (forall s, In s (schedules st) -> Schedule.id s < schedule_seq st)
  /\ (forall a b, In a (schedules st) -> In b (schedules st) -> may_clash a b ->
        Schedule.end_time a <= Schedule.start_time b
        \/ Schedule.end_time b <= Schedule.start_time a).

(** The store of the small school after an inactive copy of the Monday
    slot at 11:00 was left in the table. *)
Definition school_with_inactive : Store :=
  with_schedules new_school
    [maths_monday; Schedule.mk 2 1 1 1 0 (hm 11 0) (hm 11 45) None false] 3.

(** A weekday that no day of the week has. *)
Definition ninth_day_form : ScheduleForm.t :=
  ScheduleForm.mk (Value 1) (Value 1) (Value 1) (Value 9)
                  (Some (posted (hm 9 0))) (Some (posted (hm 10 0))) "102".

(** The timetable of [st'] is the timetable of [st]. *)
Definition same_timetable (st st' : Store) : Prop :=
  schedules st' = schedules st /\ schedule_seq st' = schedule_seq st.

(** A parent of the small school, who is neither a teacher nor a superuser. *)
Definition parent_user : User.t := User.mk 30 false.

(** Every stored record is one that [Attendance.clean] accepts. *)
Definition records_valid (st : Store) : Prop :=
  forall a, In a (attendances st) -> Attendance_clean a = Ok tt.

(** ** The figures of the home page and of the reconciler's report *)

Module Counts.
(** [total_lessons], [attended_lessons], [late_lessons] and
    [absent_lessons] of [home_view] for a student; for a child of a parent
    the first three, and [missed] is the total less the attended. *)
Record t : Type := mk {
  total : nat;
  attended : nat;
  late : nat;
  absent : nat
}.
End Counts.

(** [attendance_records.count()] and the three filtered counts. *)
Definition student_counts (st : Store) (student : Z) : Counts.t :=
  let attendance_records := records_of st student in
  Counts.mk (List.length attendance_records)
            (List.length (filter (fun a => Attendance.attended a) attendance_records))
            (List.length (filter (fun a => Attendance.late a) attendance_records))
            (List.length (filter (fun a => negb (Attendance.attended a))
                                 attendance_records)).

(** ['missed': total_classes - attended_classes] of a child's statistics. *)
Definition child_missed (st : Store) (child : Z) : Z :=
  Z.of_nat (Counts.total (student_counts st child))
  - Z.of_nat (Counts.attended (student_counts st child)).

Module Shortfall.
(** One entry of [lessons_without_full_attendance]. *)
Record t : Type := mk {
  lesson : Lesson.t;
  students_count : nat;
  attendance_count : nat;
  missing_count : Z
}.
End Shortfall.

(** The list that [create_missing_attendance_records] shows on a GET
    request: the lessons whose number of records is not the number of
    students of the group. *)
Fixpoint lessons_without_full_attendance_of (st : Store) (ls : list Lesson.t)
  : list Shortfall.t :=
  match ls with
  | [] => []
  | lesson :: rest =>
      let students_count := List.length (students_of_group st (Lesson.group lesson)) in
      let attendance_count := List.length (records_of_lesson st (Lesson.id lesson)) in
      if negb (Nat.eqb students_count attendance_count)
      then Shortfall.mk lesson students_count attendance_count
                        (Z.of_nat students_count - Z.of_nat attendance_count)
           :: lessons_without_full_attendance_of st rest
      else lessons_without_full_attendance_of st rest
  end.

Definition lessons_without_full_attendance (st : Store) : list Shortfall.t :=
  lessons_without_full_attendance_of st (all_lessons st).

(** Every record of a lesson is the record of a student who is in the
    group of the lesson now. *)
Definition no_strays (st : Store) : Prop :=
  forall a l, In a (attendances st) -> In l (lessons st) ->
    Attendance.lesson a = Lesson.id l ->
    In (Attendance.student a)
       (map Student.id (students_of_group st (Lesson.group l))).

(** The small school after the second student has moved to group B. *)
Definition school_after_move : Store :=
  mkStore (groups school) (subjects school) (teachers school)
          [Student.mk 1 21 1; Student.mk 2 22 2; Student.mk 3 23 2]
          (parents school) (schedules school) (lessons school) (attendances school)
          2 2 3.

(** ** The profiles of a user

    [Student], [Teacher] and [Parent] are tied to a user by a
    [OneToOneField]; [hasattr(user, 'student')] holds when a [Student] row
    of the user exists. *)

Definition has_student (st : Store) (user : Z) : bool :=
  existsb (fun s => Student.user s =? user) (students st).

Definition has_teacher (st : Store) (user : Z) : bool :=
  existsb (fun t => Teacher.user t =? user) (teachers st).

Definition has_parent (st : Store) (user : Z) : bool :=
  existsb (fun p => Parent.user p =? user) (parents st).

Definition Student_clean (st : Store) (s : Student.t) : result unit :=
  if has_teacher st (Student.user s)
  then Raise (ValidationError "the user is a teacher already")
  else if has_parent st (Student.user s)
  then Raise (ValidationError "the user is a parent already")
  else Ok tt.

Definition Teacher_clean (st : Store) (t : Teacher.t) : result unit :=
  if has_student st (Teacher.user t)
  then Raise (ValidationError "the user is a student already")
  else if has_parent st (Teacher.user t)
  then Raise (ValidationError "the user is a parent already")
  else Ok tt.

Definition Parent_clean (st : Store) (p : Parent.t) : result unit :=
  if has_student st (Parent.user p)
  then Raise (ValidationError "the user is a student already")
  else if has_teacher st (Parent.user p)
  then Raise (ValidationError "the user is a teacher already")
  else Ok tt.

Definition with_students (st : Store) (l : list Student.t) : Store :=
  mkStore (groups st) (subjects st) (teachers st) l (parents st)
          (schedules st) (lessons st) (attendances st)
          (schedule_seq st) (lesson_seq st) (attendance_seq st).

Definition with_teachers (st : Store) (l : list Teacher.t) : Store :=
  mkStore (groups st) (subjects st) l (students st) (parents st)
          (schedules st) (lessons st) (attendances st)
          (schedule_seq st) (lesson_seq st) (attendance_seq st).

Definition with_parents (st : Store) (l : list Parent.t) : Store :=
  mkStore (groups st) (subjects st) (teachers st) (students st) l
          (schedules st) (lessons st) (attendances st)
          (schedule_seq st) (lesson_seq st) (attendance_seq st).

(** [Student.objects.create(...)]: [save()] of a new instance, which calls
    [clean()]; the column of the user is unique.  [pk] is the key that the
    database gives to the row. *)
Definition Student_create (st : Store) (pk : Z) (s : Student.t) : result Store :=
  Student_clean st s ;;;
  if has_student st (Student.user s)
  then Raise IntegrityError
  else Ok (with_students st
             (students st ++ [Student.mk pk (Student.user s) (Student.group s)])).

Definition Teacher_create (st : Store) (pk : Z) (t : Teacher.t) : result Store :=
  Teacher_clean st t ;;;
  if has_teacher st (Teacher.user t)
  then Raise IntegrityError
  else Ok (with_teachers st
             (teachers st ++
              [Teacher.mk pk (Teacher.user t) (Teacher.main_group t)
                          (Teacher.additional_groups t) (Teacher.subjects t)])).

Definition Parent_create (st : Store) (pk : Z) (p : Parent.t) : result Store :=
  Parent_clean st p ;;;
  if has_parent st (Parent.user p)
  then Raise IntegrityError
  else Ok (with_parents st
             (parents st ++ [Parent.mk pk (Parent.user p) (Parent.children p)])).

(** The number of profiles of a user. *)
Definition profiles (st : Store) (user : Z) : nat :=
  (List.length (filter (fun s => Z.eqb (Student.user s) user) (students st))
   + List.length (filter (fun t => Z.eqb (Teacher.user t) user) (teachers st))
   + List.length (filter (fun p => Z.eqb (Parent.user p) user) (parents st)))%nat.

Definition one_profile (st : Store) : Prop :=
  forall user, (profiles st user <= 1)%nat.

(** ** [schedule_view] *)

(** [request.user.student] *)
Definition student_of (st : Store) (u : User.t) : option Student.t :=
  find (fun s => Student.user s =? User.id u) (students st).

(** The role and the schedules that the page is for: the active schedules of
    the student's group, of the teacher, of the groups of the parent's
    children, or all of them. *)
Definition visible_schedules (st : Store) (user : User.t) : string * list Schedule.t :=
  let all_schedules := filter (fun s => Schedule.is_active s) (schedules st) in
  match student_of st user with
  | Some student =>
      ("student"%string,
       filter (fun s => Schedule.group s =? Student.group student) all_schedules)
  | None =>
      match teacher_of st user with
      | Some teacher =>
          ("teacher"%string,
           filter (fun s => Schedule.teacher s =? Teacher.id teacher) all_schedules)
      | None =>
          match parent_of st user with
          | Some parent =>
              let children :=
                filter (fun c => mem (Student.id c) (Parent.children parent))
                       (students st) in
              let child_groups := map Student.group children in
              ("parent"%string,
               filter (fun s => mem (Schedule.group s) child_groups) all_schedules)
          | None => ("admin"%string, all_schedules)
          end
      end
  end.

(** The order of [order_by('weekday', 'start_time')]. *)
Definition slot_leb (a b : Schedule.t) : bool :=
  (Schedule.weekday a <? Schedule.weekday b)
  || ((Schedule.weekday a =? Schedule.weekday b)
      && (Schedule.start_time a <=? Schedule.start_time b)).

Fixpoint insert_by_slot (s : Schedule.t) (sorted : list Schedule.t) : list Schedule.t :=
  match sorted with
  | [] => [s]
  | x :: rest =>
      if slot_leb s x then s :: x :: rest else x :: insert_by_slot s rest
  end.

(** Rows of one day and start time stay in table order. *)
Definition order_by_slot (ss : list Schedule.t) : list Schedule.t :=
  fold_right insert_by_slot [] ss.

(** [Schedule.WEEKDAYS], the keys of [schedule_by_day]. *)
Definition WEEKDAYS : list Z := [0; 1; 2; 3; 4; 5; 6].

(** [schedule_by_day[k].append(s)]; a key that the dictionary does not have
    raises [KeyError]. *)
Fixpoint append_day (k : Z) (s : Schedule.t) (by_day : list (Z * list Schedule.t))
  : option (list (Z * list Schedule.t)) :=
  match by_day with
  | [] => None
  | (d, day) :: rest =>
      if d =? k then Some ((d, day ++ [s]) :: rest)
      else
        match append_day k s rest with
        | Some rest' => Some ((d, day) :: rest')
        | None => None
        end
  end.

Inductive SchedulePage : Type :=
| Page (role : string) (schedule_by_day : list (Z * list Schedule.t))
       (total_schedules : nat)
| KeyError (weekday : Z).

(** The loop that fills [schedule_by_day]. *)
Fixpoint group_by_day (ss : list Schedule.t) (by_day : list (Z * list Schedule.t))
  : Z + list (Z * list Schedule.t) :=
  match ss with
  | [] => inr by_day
  | schedule :: rest =>
      match append_day (Schedule.weekday schedule) schedule by_day with
      | Some by_day' => group_by_day rest by_day'
      | None => inl (Schedule.weekday schedule)
      end
  end.

Definition schedule_view (st : Store) (user : User.t) : SchedulePage :=
  let (role, schedules) := visible_schedules st user in
  match group_by_day (order_by_slot schedules) (map (fun d => (d, [])) WEEKDAYS) with
  | inr schedule_by_day => Page role schedule_by_day (List.length schedules)
  | inl weekday => KeyError weekday
  end.

(** The rows of a list that are on a day. *)
Definition on_day (d : Z) (ss : list Schedule.t) : list Schedule.t :=
  filter (fun s => Schedule.weekday s =? d) ss.

(** A lesson that is linked to a schedule carries the flag of a generated
    lesson, has the subject, the group, the teacher and the times of the row
    of the schedule, and is held on the weekday of the schedule. *)
Definition follows_schedule (st : Store) (l : Lesson.t) : Prop :=
  match Lesson.schedule l with
  | None => True
  | Some sid =>
      match get_schedule st sid with
      | None => False
      | Some s =>
          Lesson.is_from_schedule l = true
          /\ Lesson.subject l = Schedule.subject s
          /\ Lesson.group l = Schedule.group s
          /\ Lesson.teacher l = Some (Schedule.teacher s)
          /\ Lesson.start_time l = Some (Schedule.start_time s)
          /\ Lesson.end_time l = Some (Schedule.end_time s)
          /\ weekday (Lesson.date l) = Schedule.weekday s
      end
  end.

Definition lessons_follow (st : Store) : Prop :=
  forall l, In l (lessons st) -> follows_schedule st l.

(** Two lessons take the same slot when they share the key of
    [unique_together], or when they are linked to the same schedule and held
    on the same date. *)
Definition same_slot (a b : Lesson.t) : bool :=
  Lesson_same_key a b
  || (sql_eqb (Lesson.schedule a) (Lesson.schedule b)
      && (Lesson.date a =? Lesson.date b)).

Definition lessons_distinct (st : Store) : Prop :=
  forall a b, In a (lessons st) -> In b (lessons st) ->
              Lesson.id a <> Lesson.id b -> same_slot a b = false.

(** * Properties *)

Unset Implicit Arguments.

(** ** Lookups *)

Lemma get_schedule_some (st : Store) (i : Z) (s : Schedule.t) :
  get_schedule st i = Some s -> In s (schedules st) /\ Schedule.id s = i.
Proof.
  unfold get_schedule. intros H. apply find_some in H.
  destruct H as [Hin Heq]. split; [exact Hin | lia].
Qed.

Lemma sql_eqb_some (a : option Z) (i : Z) :
  sql_eqb a (Some i) = true <-> a = Some i.
Proof.
  destruct a as [x|]; simpl.
  - rewrite Z.eqb_eq. split; intros H; [now subst | now inversion H].
  - split; discriminate.
Qed.

Lemma mem_In (x : Z) (l : list Z) : mem x l = true <-> In x l.
Proof.
  unfold mem. rewrite existsb_exists. split.
  - intros [y [Hy Heq]]. apply Z.eqb_eq in Heq. now subst.
  - intros H. exists x. split; [exact H | apply Z.eqb_refl].
Qed.

Lemma get_teacher_some (st : Store) (i : Z) (t : Teacher.t) :
  get_teacher st i = Some t -> In t (teachers st) /\ Teacher.id t = i.
Proof.
  unfold get_teacher. intros H. apply find_some in H.
  destruct H as [Hin Heq]. split; [exact Hin | lia].
Qed.

Lemma get_group_some (st : Store) (i : Z) (g : Group.t) :
  get_group st i = Some g -> In g (groups st) /\ Group.id g = i.
Proof.
  unfold get_group. intros H. apply find_some in H.
  destruct H as [Hin Heq]. split; [exact Hin | lia].
Qed.

Lemma get_subject_some (st : Store) (i : Z) (s : Subject.t) :
  get_subject st i = Some s -> In s (subjects st) /\ Subject.id s = i.
Proof.
  unfold get_subject. intros H. apply find_some in H.
  destruct H as [Hin Heq]. split; [exact Hin | lia].
Qed.


Lemma first_none_empty {A : Type} (l : list A) :
  first l = None -> l = [].
Proof. destruct l; [reflexivity | discriminate]. Qed.

Lemma get_object_or_404_ok {A : Type} (get : Z -> option A) (f : field Z) (a : A) :
  get_object_or_404 get f = Ok a -> exists i, f = Value i /\ get i = Some a.
Proof.
  destruct f as [| |i]; simpl; try discriminate.
  destruct (get i) as [x|] eqn:E; [|discriminate].
  intros H. inversion H. subst. eauto.
Qed.

(** A string is at least the empty string. *)
Lemma str_ge_empty (a : string) : str_ge a EmptyString = true.
Proof. unfold str_ge, String.leb. now destruct a. Qed.

(** ** Deleting a schedule (C1) *)

Lemma lesson_deleted_spec (i : Z) (ls : list Lesson.t) (a : Attendance.t) :
  lesson_deleted i ls a = true <->
  exists L, In L ls /\ Lesson.schedule L = Some i /\ Lesson.id L = Attendance.lesson a.
Proof.
  unfold lesson_deleted, references_schedule. rewrite existsb_exists.
  split; intros [L [Hin H]]; exists L.
  - apply andb_true_iff in H. destruct H as [H1 H2].
    apply sql_eqb_some in H1. apply Z.eqb_eq in H2. auto.
  - destruct H as [H1 H2]. split; [exact Hin|].
    apply andb_true_iff. split; [now apply sql_eqb_some | now apply Z.eqb_eq].
Qed.

(** C1, as the specification states it, fails: the schedule of the small
    school is deleted by the administrator, and the lesson that was generated
    from it is no longer in the table afterwards. *)
Lemma delete_schedule_drops_lesson :
  ~ (forall (user : User.t) (st : Store) (sid : Z) (L : Lesson.t),
        In L (lessons st) ->
        Lesson.schedule L = Some sid ->
        fst (delete_schedule user POST sid st) = ScheduleDeleted ->
        In L (lessons (snd (delete_schedule user POST sid st)))).
Proof.
  intros H. specialize (H admin school 1 first_lesson).
  vm_compute in H. apply H; auto.
Qed.

(** C1, amended: a schedule that is deleted takes with it the lessons whose
    [schedule] key is that schedule, and the attendance records of those
    lessons; every other lesson, attendance record and schedule stays as it
    was. *)
Theorem delete_schedule_cascades (user : User.t) (sid : Z) (st : Store) :
  fst (delete_schedule user POST sid st) = ScheduleDeleted ->
  let st' := snd (delete_schedule user POST sid st) in
  (forall L, In L (lessons st') <->
             In L (lessons st) /\ Lesson.schedule L <> Some sid)
  /\ (forall a, In a (attendances st') <->
                In a (attendances st)
                /\ ~ (exists L, In L (lessons st) /\ Lesson.schedule L = Some sid
                                /\ Lesson.id L = Attendance.lesson a))
  /\ (forall s, In s (schedules st') <-> In s (schedules st) /\ Schedule.id s <> sid).
Proof.
  unfold delete_schedule.
  destruct (get_schedule st sid) as [s|] eqn:Hget; [|discriminate].
  apply get_schedule_some in Hget. destruct Hget as [_ Hid].
  destruct (negb _); [discriminate|]. intros _. simpl.
  rewrite Hid. split; [|split].
  - intros L. rewrite filter_In, negb_true_iff. unfold references_schedule.
    split; intros [H1 H2]; (split; [exact H1|]).
    + intros Hs. apply sql_eqb_some in Hs. congruence.
    + destruct (sql_eqb (Lesson.schedule L) (Some sid)) eqn:E; [|reflexivity].
      apply sql_eqb_some in E. contradiction.
  - intros a. rewrite filter_In, negb_true_iff.
    split; intros [H1 H2]; (split; [exact H1|]).
    + intros Hs. apply lesson_deleted_spec in Hs. congruence.
    + destruct (lesson_deleted sid (lessons st) a) eqn:E; [|reflexivity].
      apply lesson_deleted_spec in E. contradiction.
  - intros s'. rewrite filter_In, negb_true_iff, Z.eqb_neq. tauto.
Qed.

Lemma delete_schedule_cascades_witness :
  fst (delete_schedule admin POST 1 school) = ScheduleDeleted
  /\ (forall L, In L (lessons (snd (delete_schedule admin POST 1 school))) <->
                In L (lessons school) /\ Lesson.schedule L <> Some 1).
Proof.
  split; [reflexivity|].
  apply (delete_schedule_cascades admin 1 school). reflexivity.
Defined.

(** A request that does not delete the schedule changes nothing. *)
Lemma delete_schedule_frame (user : User.t) (method : http_method) (sid : Z) (st : Store) :
  fst (delete_schedule user method sid st) <> ScheduleDeleted ->
  snd (delete_schedule user method sid st) = st.
Proof.
  unfold delete_schedule.
  destruct (get_schedule st sid); [|reflexivity].
  destruct (negb _); [reflexivity|].
  destruct method; simpl; [reflexivity | congruence].
Qed.

(** ** Conflicts of schedules (C3) *)

Lemma time_conflicts_spec (rows : list Schedule.t) (s e : time) (r : Schedule.t) :
  In r (time_conflicts rows s e) <->
  In r rows /\ s < Schedule.end_time r /\ Schedule.start_time r < e.
Proof.
  unfold time_conflicts. rewrite !filter_In, !negb_true_iff.
  rewrite Z.geb_leb, !Z.leb_gt. tauto.
Qed.

Lemma active_of_group_spec (st : Store) (g w : Z) (r : Schedule.t) :
  In r (active_of_group st g w) <->
  In r (schedules st) /\ Schedule.group r = g /\ Schedule.weekday r = w
  /\ Schedule.is_active r = true.
Proof.
  unfold active_of_group. rewrite filter_In, !andb_true_iff, !Z.eqb_eq. tauto.
Qed.

Lemma active_of_teacher_spec (st : Store) (t w : Z) (r : Schedule.t) :
  In r (active_of_teacher st t w) <->
  In r (schedules st) /\ Schedule.teacher r = t /\ Schedule.weekday r = w
  /\ Schedule.is_active r = true.
Proof.
  unfold active_of_teacher. rewrite filter_In, !andb_true_iff, !Z.eqb_eq. tauto.
Qed.

(** [.first()] finds a row exactly when the query has one. *)
Lemma first_some_iff {A : Type} (l : list A) :
  (exists y, first l = Some y) <-> (exists x, In x l).
Proof.
  destruct l as [|a l]; simpl.
  - split; intros [x H]; [discriminate | contradiction].
  - split; intros _; exists a; [now left | reflexivity].
Qed.

(** What [clean()] answers for the instance of a request that has passed the
    checks of the view: the same checks, passed again. *)
Lemma Schedule_clean_posted_ok (user : User.t) (form : ScheduleForm.t) (st : Store)
    (group : Group.t) (subject : Subject.t) (teacher : Teacher.t) (w : Z)
    (start_time end_time : PostedTime.t) (b e : time) :
  Checked user form st group subject teacher w start_time end_time b e ->
  Schedule_clean_posted st (PostedTime.text start_time) (PostedTime.text end_time)
                        (Group.id group) (Subject.id subject) (Teacher.id teacher)
  = Ok tt.
Proof.
  intros C. unfold Schedule_clean_posted.
  rewrite (ck_order C), andb_false_r.
  destruct (get_object_or_404_ok _ _ _ (ck_group C)) as [g [_ Hg]].
  destruct (get_object_or_404_ok _ _ _ (ck_subject C)) as [sub [_ Hs]].
  destruct (get_object_or_404_ok _ _ _ (ck_teacher C)) as [t [_ Ht]].
  rewrite <- (proj2 (get_group_some st g group Hg)) in Hg.
  rewrite <- (proj2 (get_subject_some st sub subject Hs)) in Hs.
  rewrite <- (proj2 (get_teacher_some st t teacher Ht)) in Ht.
  rewrite Ht, Hs, Hg.
  rewrite (proj2 (mem_In _ _) (ck_taught C)), (ck_works C). reflexivity.
Qed.

(** The run of a request that has passed the checks: the two queries, then
    the insertion, which the unique key of the table can refuse; after the
    insertion the view reports the [AttributeError] of its own message, and
    the row is in the table. *)
Lemma add_schedule_run (user : User.t) (form : ScheduleForm.t) (st : Store)
    (group : Group.t) (subject : Subject.t) (teacher : Teacher.t) (w : Z)
    (start_time end_time : PostedTime.t) (b e : time) :
  Checked user form st group subject teacher w start_time end_time b e ->
  add_schedule user POST form st
  = match first (time_conflicts (active_of_group st (Group.id group) w) b e) with
    | Some _ => (Rejected GroupTimeConflict, st)
    | None =>
        match first (time_conflicts (active_of_teacher st (Teacher.id teacher) w) b e) with
        | Some _ => (Rejected TeacherTimeConflict, st)
        | None =>
            if existsb (Schedule_same_key (new_row st form group subject teacher w b e))
                       (schedules st)
            then (Rejected (OperationFailed IntegrityError), st)
            else (Rejected (OperationFailed AttributeError),
                  with_schedules st
                    (schedules st ++ [new_row st form group subject teacher w b e])
                    (schedule_seq st + 1))
        end
    end.
Proof.
  intros C. pose proof (Schedule_clean_posted_ok user form st group subject teacher w
                start_time end_time b e C) as Hclean.
  destruct C as [Huser Hg Hs Ht Hw H64 Hstart Hend Hfill Hord Hb He Hq Hwk].
  assert (Hfill' : truthy (PostedTime.text end_time) = true).
  { destruct (PostedTime.text end_time) eqn:E; [|reflexivity].
    now rewrite str_ge_empty in Hord. }
  assert (Hallowed : negb (User.is_superuser user
                           || match teacher_of st user with
                              | Some _ => true | None => false end) = false).
  { destruct Huser as [->|[own [-> _]]]; [reflexivity|]. now rewrite orb_true_r. }
  assert (Hforeign :
    match teacher_of st user with
    | Some own => negb (User.is_superuser user) && negb (Teacher.id own =? Teacher.id teacher)
    | None => false
    end = false).
  { destruct (teacher_of st user) as [own|] eqn:Hown; [|reflexivity].
    destruct Huser as [->|[own' [Heq Hid]]]; [reflexivity|].
    inversion Heq; subst own'. rewrite Hid, Z.eqb_refl. apply andb_false_r. }
  assert (Habs : is_absent (ScheduleForm.group form) || is_absent (ScheduleForm.subject form)
                 || is_absent (ScheduleForm.teacher form)
                 || is_absent (ScheduleForm.weekday form) = false).
  { rewrite Hw. destruct (ScheduleForm.group form); try discriminate.
    destruct (ScheduleForm.subject form); try discriminate.
    destruct (ScheduleForm.teacher form); try discriminate. reflexivity. }
  unfold add_schedule. rewrite Hallowed, Hstart, Hend. cbn [if_filled].
  rewrite Hfill, Hfill', Habs, Hg, Hs, Ht.
  unfold add_schedule_checked. rewrite Hforeign, Hord.
  rewrite (proj2 (mem_In _ _) Hq), Hwk, Hw. cbn [negb].
  unfold to_python at 1 2. rewrite Hb, He, H64. cbn [negb].
  destruct (first (time_conflicts (active_of_group _ _ _) _ _)); [reflexivity|].
  destruct (first (time_conflicts (active_of_teacher _ _ _) _ _)); [reflexivity|].
  unfold Schedule_create, bind. rewrite Hclean. unfold to_python. rewrite Hb, He.
  fold (new_row st form group subject teacher w b e).
  destruct (existsb _ (schedules st)); reflexivity.
Qed.

(** A request to [add_schedule] changes nothing, or it has passed the
    checks, met no conflict and no row with its key, and the view has
    written the row and reported the [AttributeError] of its message. *)
Lemma add_schedule_stored (user : User.t) (method : http_method) (form : ScheduleForm.t)
    (st : Store) :
  snd (add_schedule user method form st) = st
  \/ exists group subject teacher w start_time end_time b e,
       method = POST
       /\ Checked user form st group subject teacher w start_time end_time b e
       /\ time_conflicts (active_of_group st (Group.id group) w) b e = []
       /\ time_conflicts (active_of_teacher st (Teacher.id teacher) w) b e = []
       /\ existsb (Schedule_same_key (new_row st form group subject teacher w b e))
                  (schedules st) = false
       /\ add_schedule user method form st
          = (Rejected (OperationFailed AttributeError),
             with_schedules st
               (schedules st ++ [new_row st form group subject teacher w b e])
               (schedule_seq st + 1)).
Proof.
  assert (A :
    snd (add_schedule user method form st) = st
    \/ exists group subject teacher w start_time end_time b e,
         method = POST
         /\ Checked user form st group subject teacher w start_time end_time b e
         /\ time_conflicts (active_of_group st (Group.id group) w) b e = []
         /\ time_conflicts (active_of_teacher st (Teacher.id teacher) w) b e = []
         /\ existsb (Schedule_same_key (new_row st form group subject teacher w b e))
                    (schedules st) = false);
    [|destruct A as [A|[group [subject [teacher [w [start_time [end_time [b [e A]]]]]]]]];
      [now left|]; right;
      exists group, subject, teacher, w, start_time, end_time, b, e;
      destruct A as [Hm [C [Hc1 [Hc2 Hkey]]]];
      split; [exact Hm|]; split; [exact C|]; split; [exact Hc1|]; split; [exact Hc2|];
      split; [exact Hkey|]; subst method;
      rewrite (add_schedule_run user form st group subject teacher w
                 start_time end_time b e C), Hc1, Hc2, Hkey; reflexivity].
  unfold add_schedule.
  destruct (negb (User.is_superuser user || _)) eqn:Hperm; [now left|].
  assert (Huser : User.is_superuser user = true
                  \/ exists own, teacher_of st user = Some own).
  { apply negb_false_iff, orb_true_iff in Hperm.
    destruct Hperm as [H|H]; [now left|]. right.
    destruct (teacher_of st user) as [own|]; [now exists own | discriminate]. }
  clear Hperm.
  destruct method; [now left|].
  destruct (ScheduleForm.start_time form) as [start_time|] eqn:Hstart; [|now left].
  cbn [if_filled].
  destruct (truthy (PostedTime.text start_time)) eqn:Hfill;
    [|destruct (ScheduleForm.end_time form) as [x|]; cbn [if_filled];
      [destruct (truthy (PostedTime.text x))|]; now left].
  destruct (ScheduleForm.end_time form) as [end_time|] eqn:Hend; [|now left].
  cbn [if_filled].
  destruct (truthy (PostedTime.text end_time)) eqn:Hfill'; [|now left].
  destruct (is_absent _ || _ || _ || _) eqn:Habs; [now left|].
  destruct (get_object_or_404 _ (ScheduleForm.group form)) as [group|] eqn:Hg;
    [|now left].
  destruct (get_object_or_404 _ (ScheduleForm.subject form)) as [subject|] eqn:Hs;
    [|now left].
  destruct (get_object_or_404 _ (ScheduleForm.teacher form)) as [teacher|] eqn:Ht;
    [|now left].
  unfold add_schedule_checked.
  destruct (match teacher_of st user with Some _ => _ | None => _ end) eqn:Hforeign;
    [now left|].
  destruct (str_ge _ _) eqn:Hord; [now left|].
  destruct (negb (mem _ _)) eqn:Hq; [now left|].
  destruct (negb (works_with _ _)) eqn:Hwk; [now left|].
  destruct (ScheduleForm.weekday form) as [| |w] eqn:Hw; [now left|now left|].
  unfold to_python at 1 2.
  destruct (PostedTime.value start_time) as [b|] eqn:Hb; [|now left].
  destruct (PostedTime.value end_time) as [e|] eqn:He; [|now left].
  destruct (negb (in_int64 w)) eqn:H64; [now left|].
  destruct (first (time_conflicts (active_of_group _ _ _) _ _)) eqn:Hc1; [now left|].
  destruct (first (time_conflicts (active_of_teacher _ _ _) _ _)) eqn:Hc2; [now left|].
  assert (C : Checked user form st group subject teacher w start_time end_time b e).
  { apply negb_false_iff in Hq, Hwk, H64. apply mem_In in Hq.
    constructor; try assumption.
    destruct (User.is_superuser user) eqn:Hsuper; [now left|]. right.
    destruct Huser as [H|[own Hown]]; [discriminate|].
    exists own. split; [exact Hown|]. rewrite Hown in Hforeign.
    simpl in Hforeign. apply negb_false_iff in Hforeign. now apply Z.eqb_eq. }
  unfold Schedule_create, bind.
  rewrite (Schedule_clean_posted_ok user form st group subject teacher w
             start_time end_time b e C).
  unfold to_python. rewrite Hb, He.
  fold (new_row st form group subject teacher w b e).
  destruct (existsb _ (schedules st)) eqn:Hkey; [now left|].
  right. exists group, subject, teacher, w, start_time, end_time, b, e.
  apply first_none_empty in Hc1, Hc2.
  split; [reflexivity|]. split; [exact C|]. split; [exact Hc1|]. split; [exact Hc2|].
  exact Hkey.
Qed.

(** C3: for a request to [add_schedule] that has passed the earlier checks,
    with the times [b] and [e], the view answers with the conflict of the
    group exactly when an active row of the group and the weekday has a
    range from [s2] to [e2] with [b < e2] and [s2 < e]; it answers with the
    conflict of the teacher exactly when no such row of the group exists and
    such a row of the teacher does; and a request refused for a conflict
    changes nothing. *)
Theorem schedule_conflict_half_open (user : User.t) (form : ScheduleForm.t) (st : Store)
    (group : Group.t) (subject : Subject.t) (teacher : Teacher.t) (w : Z)
    (start_time end_time : PostedTime.t) (b e : time) :
  Checked user form st group subject teacher w start_time end_time b e ->
  (fst (add_schedule user POST form st) = Rejected GroupTimeConflict
   <->
   exists r, In r (schedules st) /\ Schedule.is_active r = true
             /\ Schedule.group r = Group.id group /\ Schedule.weekday r = w
             /\ b < Schedule.end_time r /\ Schedule.start_time r < e)
  /\ (fst (add_schedule user POST form st) = Rejected TeacherTimeConflict
      <->
      (~ exists r, In r (schedules st) /\ Schedule.is_active r = true
                   /\ Schedule.group r = Group.id group /\ Schedule.weekday r = w
                   /\ b < Schedule.end_time r /\ Schedule.start_time r < e)
      /\ exists r, In r (schedules st) /\ Schedule.is_active r = true
                   /\ Schedule.teacher r = Teacher.id teacher /\ Schedule.weekday r = w
                   /\ b < Schedule.end_time r /\ Schedule.start_time r < e)
  /\ (fst (add_schedule user POST form st) = Rejected GroupTimeConflict
      \/ fst (add_schedule user POST form st) = Rejected TeacherTimeConflict ->
      snd (add_schedule user POST form st) = st).
Proof.
  intros C.
  rewrite (add_schedule_run user form st group subject teacher w start_time end_time b e C).
  assert (Hgroup :
    (exists y, first (time_conflicts (active_of_group st (Group.id group) w) b e) = Some y)
    <-> exists r, In r (schedules st) /\ Schedule.is_active r = true
                  /\ Schedule.group r = Group.id group /\ Schedule.weekday r = w
                  /\ b < Schedule.end_time r /\ Schedule.start_time r < e).
  { rewrite first_some_iff. split; intros [r Hr]; exists r.
    - apply time_conflicts_spec in Hr. rewrite active_of_group_spec in Hr. tauto.
    - apply time_conflicts_spec. rewrite active_of_group_spec. tauto. }
  assert (Hteacher :
    (exists y, first (time_conflicts (active_of_teacher st (Teacher.id teacher) w) b e)
               = Some y)
    <-> exists r, In r (schedules st) /\ Schedule.is_active r = true
                  /\ Schedule.teacher r = Teacher.id teacher /\ Schedule.weekday r = w
                  /\ b < Schedule.end_time r /\ Schedule.start_time r < e).
  { rewrite first_some_iff. split; intros [r Hr]; exists r.
    - apply time_conflicts_spec in Hr. rewrite active_of_teacher_spec in Hr. tauto.
    - apply time_conflicts_spec. rewrite active_of_teacher_spec. tauto. }
  destruct (first (time_conflicts (active_of_group _ _ _) _ _)) as [y|].
  - assert (Hyes : exists z, Some y = Some z) by (exists y; reflexivity).
    apply Hgroup in Hyes. cbn [fst snd].
    split; [split; [intros _; exact Hyes | reflexivity]|].
    split; [|reflexivity].
    split; [discriminate | intros [Hno _]; contradiction].
  - assert (Hno : ~ exists r, In r (schedules st) /\ Schedule.is_active r = true
                              /\ Schedule.group r = Group.id group /\ Schedule.weekday r = w
                              /\ b < Schedule.end_time r /\ Schedule.start_time r < e).
    { intros H. apply Hgroup in H. destruct H as [z H]. discriminate. }
    destruct (first (time_conflicts (active_of_teacher _ _ _) _ _)) as [y|].
    + assert (Hyes : exists z, Some y = Some z) by (exists y; reflexivity).
      apply Hteacher in Hyes. cbn [fst snd].
      split; [split; [discriminate | intros H; contradiction]|].
      split; [|reflexivity].
      split; [intros _; split; assumption | reflexivity].
    + assert (Hno' : ~ exists r, In r (schedules st) /\ Schedule.is_active r = true
                                 /\ Schedule.teacher r = Teacher.id teacher
                                 /\ Schedule.weekday r = w
                                 /\ b < Schedule.end_time r /\ Schedule.start_time r < e).
      { intros H. apply Hteacher in H. destruct H as [z H]. discriminate. }
      destruct (existsb _ (schedules st)); cbn [fst snd].
      * split; [split; [discriminate | intros H; contradiction]|].
        split; [|reflexivity].
        split; [discriminate | intros [_ H]; contradiction].
      * split; [split; [discriminate | intros H; contradiction]|].
        split; [|intros [H|H]; discriminate].
        split; [discriminate | intros [_ H]; contradiction].
Qed.

(** The teacher of the small school posts mathematics for group A on a
    Monday from 09:30 to 10:30; the schedule has group A on Mondays from
    09:00 to 10:00. *)
Lemma half_past_nine_checked :
  Checked teacher_user (schedule_form 1 (hm 9 30) (hm 10 30)) new_school
          (Group.mk 1 "A" 1) (Subject.mk 1 "Mathematics") (Teacher.mk 1 10 1 [2] [1]) 0
          (posted (hm 9 30)) (posted (hm 10 30)) (hm 9 30) (hm 10 30).
Proof.
  constructor; try reflexivity.
  - right. exists (Teacher.mk 1 10 1 [2] [1]). split; reflexivity.
  - simpl. left. reflexivity.
Qed.

Lemma schedule_conflict_half_open_witness :
  (fst (add_schedule teacher_user POST (schedule_form 1 (hm 9 30) (hm 10 30)) new_school)
   = Rejected GroupTimeConflict
   <->
   exists r, In r (schedules new_school) /\ Schedule.is_active r = true
             /\ Schedule.group r = 1 /\ Schedule.weekday r = 0
             /\ hm 9 30 < Schedule.end_time r /\ Schedule.start_time r < hm 10 30)
  /\ (fst (add_schedule teacher_user POST (schedule_form 1 (hm 9 30) (hm 10 30)) new_school)
      = Rejected TeacherTimeConflict
      <->
      (~ exists r, In r (schedules new_school) /\ Schedule.is_active r = true
                   /\ Schedule.group r = 1 /\ Schedule.weekday r = 0
                   /\ hm 9 30 < Schedule.end_time r /\ Schedule.start_time r < hm 10 30)
      /\ exists r, In r (schedules new_school) /\ Schedule.is_active r = true
                   /\ Schedule.teacher r = 1 /\ Schedule.weekday r = 0
                   /\ hm 9 30 < Schedule.end_time r /\ Schedule.start_time r < hm 10 30)
  /\ (fst (add_schedule teacher_user POST (schedule_form 1 (hm 9 30) (hm 10 30)) new_school)
      = Rejected GroupTimeConflict
      \/ fst (add_schedule teacher_user POST (schedule_form 1 (hm 9 30) (hm 10 30))
                new_school)
         = Rejected TeacherTimeConflict ->
      snd (add_schedule teacher_user POST (schedule_form 1 (hm 9 30) (hm 10 30)) new_school)
      = new_school).
Proof.
  exact (schedule_conflict_half_open teacher_user
           (schedule_form 1 (hm 9 30) (hm 10 30)) new_school
           (Group.mk 1 "A" 1) (Subject.mk 1 "Mathematics") (Teacher.mk 1 10 1 [2] [1]) 0
           (posted (hm 9 30)) (posted (hm 10 30)) (hm 9 30) (hm 10 30)
           half_past_nine_checked).
Defined.

(** The ranges of the specification, run through the view: next to 09:00 to
    10:00, the range 09:30 to 10:30 is refused for the group and, posted for
    the other group, for the teacher; the range 10:00 to 11:00 is not
    refused for a conflict, and its row is in the table afterwards. *)
Lemma schedule_conflict_examples :
  add_schedule teacher_user POST (schedule_form 1 (hm 9 30) (hm 10 30)) new_school
  = (Rejected GroupTimeConflict, new_school)
  /\ add_schedule teacher_user POST (schedule_form 2 (hm 9 30) (hm 10 30)) new_school
     = (Rejected TeacherTimeConflict, new_school)
  /\ schedules (snd (add_schedule teacher_user POST (schedule_form 1 (hm 10 0) (hm 11 0))
                       new_school))
     = [maths_monday; Schedule.mk 2 1 1 1 0 (hm 10 0) (hm 11 0) (Some "102"%string) true]
  /\ schedules (snd (add_schedule teacher_user POST (schedule_form 2 (hm 10 0) (hm 11 0))
                       new_school))
     = [maths_monday; Schedule.mk 2 2 1 1 0 (hm 10 0) (hm 11 0) (Some "102"%string) true].
Proof. repeat split; reflexivity. Qed.

(** ** Creating a lesson: the checks before anything is written (C10, C7, C2) *)

(** The fan-out answers with the created lesson or with the exception of the
    insertion. *)
Lemma fan_out_response (lesson : Lesson.t) (g : Z) (st : Store) :
  (exists n st', fan_out lesson g st = (LessonCreated lesson n, st'))
  \/ (exists e, fan_out lesson g st = (Rejected (OperationFailed e), st)).
Proof.
  unfold fan_out. destruct (bulk_create st _) as [st'|e].
  - left. eauto.
  - right. eauto.
Qed.

Lemma create_then_fan_out_check (st : Store) (l : Lesson.t) (r : Rejection)
    (group_of : Lesson.t -> Z) :
  is_check r ->
  fst (match Lesson_create st l with
       | Raise e => (Rejected (OperationFailed e), st)
       | Ok (lesson, st1) => fan_out lesson (group_of lesson) st1
       end) = Rejected r ->
  False.
Proof.
  intros Hr. destruct (Lesson_create st l) as [[lesson st1]|e]; simpl.
  - destruct (fan_out_response lesson (group_of lesson) st1) as [[n [st' H]]|[e H]];
      rewrite H; simpl; intros E; inversion E; subst; exact Hr.
  - intros E. inversion E; subst. exact Hr.
Qed.

(** The same for the path by hand, where the view can also report the
    [AttributeError] of its message. *)
Lemma create_posted_then_check (st : Store) (l : Lesson.t)
    (start_time end_time : option PostedTime.t) (r : Rejection) :
  is_check r ->
  fst (match Lesson_create_posted st l start_time end_time with
       | Raise e => (Rejected (OperationFailed e), st)
       | Ok (lesson, st1) =>
           match start_time, end_time with
           | Some _, Some _ => (Rejected (OperationFailed AttributeError), st1)
           | _, _ => fan_out lesson (Lesson.group lesson) st1
           end
       end) = Rejected r ->
  False.
Proof.
  intros Hr. destruct (Lesson_create_posted st l start_time end_time) as [[lesson st1]|e].
  - assert (Hfan : fst (fan_out lesson (Lesson.group lesson) st1) = Rejected r -> False).
    { destruct (fan_out_response lesson (Lesson.group lesson) st1) as [[n [st' H]]|[e H]];
        rewrite H; simpl; intros E; inversion E; subst; exact Hr. }
    destruct start_time, end_time; try exact Hfan.
    simpl. intros E. inversion E; subst. exact Hr.
  - simpl. intros E. inversion E; subst. exact Hr.
Qed.

(** The rejection of a date on another weekday is the one of the check or
    the report of an exception. *)
Lemma weekday_mismatch_cases (schedule : Schedule.t) :
  (-7 <= Schedule.weekday schedule <= 6 /\ weekday_mismatch schedule = WeekdayMismatch)
  \/ ((Schedule.weekday schedule < -7 \/ 6 < Schedule.weekday schedule)
      /\ weekday_mismatch schedule = OperationFailed IndexError).
Proof.
  unfold weekday_mismatch.
  destruct (-7 <=? Schedule.weekday schedule) eqn:H1;
    destruct (Schedule.weekday schedule <=? 6) eqn:H2; simpl;
    rewrite ?Z.leb_le, ?Z.leb_gt in *; [left | right | right | right];
    split; try reflexivity; lia.
Qed.

Lemma add_lesson_from_schedule_check (teacher : Teacher.t) (form : LessonForm.t)
    (d : date) (st : Store) (r : Rejection) :
  is_check r ->
  fst (add_lesson_from_schedule teacher form d st) = Rejected r ->
  snd (add_lesson_from_schedule teacher form d st) = st.
Proof.
  intros Hr. unfold add_lesson_from_schedule.
  destruct (is_absent _); [reflexivity|].
  destruct (get_object_or_404 _ _) as [schedule|e]; [|reflexivity].
  destruct (negb (works_with _ _)); [reflexivity|].
  destruct (negb (weekday d =? _)); [reflexivity|].
  destruct (first _); [reflexivity|].
  intros H. exfalso.
  exact (create_then_fan_out_check st _ r Lesson.group Hr H).
Qed.

Lemma add_lesson_manual_check (teacher : Teacher.t) (form : LessonForm.t)
    (d : date) (st : Store) (r : Rejection) :
  is_check r ->
  fst (add_lesson_manual teacher form d st) = Rejected r ->
  snd (add_lesson_manual teacher form d st) = st.
Proof.
  intros Hr. unfold add_lesson_manual.
  destruct (_ || _); [reflexivity|].
  destruct (get_object_or_404 _ (LessonForm.subject form)) as [subject|e]; [|reflexivity].
  destruct (get_object_or_404 _ (LessonForm.group form)) as [group|e]; [|reflexivity].
  destruct (negb (works_with _ _)); [reflexivity|].
  destruct (first _); [reflexivity|].
  intros H. exfalso.
  exact (create_posted_then_check st _ _ _ r Hr H).
Qed.

(** C10: a request to [add_lesson] that one of the checks rejects (the caller
    is no teacher, the date is missing, the schedule or the subject and group
    are missing, the teacher does not work with the group, the weekday
    differs, the lesson exists already) leaves the store as it was: no lesson
    and no attendance record is created. *)
Theorem add_lesson_rejection_atomic (user : User.t) (method : http_method)
    (form : LessonForm.t) (st : Store) (r : Rejection) :
  In r [NoPermission; MissingDate; MissingSchedule; MissingSubjectOrGroup;
        NotAuthorizedForGroup; WeekdayMismatch; DuplicateLesson] ->
  fst (add_lesson user method form st) = Rejected r ->
  snd (add_lesson user method form st) = st.
Proof.
  intros Hin.
  assert (Hr : is_check r).
  { simpl in Hin. repeat (destruct Hin as [<-|Hin]; [exact I|]). contradiction. }
  unfold add_lesson.
  destruct (teacher_of st user) as [teacher|]; [|reflexivity].
  destruct method; [reflexivity|].
  destruct (LessonForm.date form) as [| |d]; [reflexivity|reflexivity|].
  destruct (is_from_schedule_type _).
  - now apply add_lesson_from_schedule_check.
  - now apply add_lesson_manual_check.
Qed.

Lemma add_lesson_rejection_atomic_witness :
  fst (add_lesson teacher_user POST (from_schedule_form 1 tuesday) school)
  = Rejected WeekdayMismatch
  /\ snd (add_lesson teacher_user POST (from_schedule_form 1 tuesday) school) = school.
Proof.
  split; [reflexivity|].
  apply (add_lesson_rejection_atomic teacher_user POST (from_schedule_form 1 tuesday)
           school WeekdayMismatch).
  - simpl. tauto.
  - reflexivity.
Defined.

(** Each of the rejections is met by some request. *)
Lemma add_lesson_rejections_reachable :
  fst (add_lesson admin POST (from_schedule_form 1 monday) school) = Rejected NoPermission
  /\ fst (add_lesson teacher_user POST
            (LessonForm.mk None Absent Absent Absent Absent None None "" "") school)
     = Rejected MissingDate
  /\ fst (add_lesson teacher_user POST
            (LessonForm.mk (Some "from_schedule"%string) Absent (Value monday)
                           Absent Absent None None "" "") school)
     = Rejected MissingSchedule
  /\ fst (add_lesson teacher_user POST
            (LessonForm.mk (Some "manual"%string) Absent (Value monday)
                           (Value 1) Absent None None "" "") school)
     = Rejected MissingSubjectOrGroup
  /\ fst (add_lesson other_teacher_user POST (from_schedule_form 1 monday) school)
     = Rejected NotAuthorizedForGroup
  /\ fst (add_lesson other_teacher_user POST
            (manual_form 2 1 monday (hm 11 0) (hm 12 0)) school)
     = Rejected NotAuthorizedForGroup
  /\ fst (add_lesson teacher_user POST (from_schedule_form 1 tuesday) school)
     = Rejected WeekdayMismatch
  /\ fst (add_lesson teacher_user POST (from_schedule_form 1 monday) school)
     = Rejected DuplicateLesson
  /\ fst (add_lesson teacher_user POST (manual_form 1 1 monday (hm 9 0) (hm 10 0)) school)
     = Rejected DuplicateLesson.
Proof. repeat split; reflexivity. Qed.

(** C7: a lesson cannot be generated from a schedule for a date whose day of
    the week is not the schedule's: both views leave the store as it was and
    create no lesson.  A caller who passes the access check of the view is
    answered with [WeekdayMismatch] when the weekday of the schedule is an
    index of the list of day names (from -7 to 6); for another weekday the
    message of the rejection raises [IndexError] and the view reports that
    instead. *)
Theorem weekday_mismatch_rejected (user : User.t) (sid : Z) (schedule : Schedule.t)
    (form : LessonForm.t) (d : date) (st : Store) :
  get_schedule st sid = Some schedule ->
  LessonForm.date form = Value d ->
  weekday d <> Schedule.weekday schedule ->
  (snd (create_lesson_from_schedule user POST sid form st) = st
   /\ (forall l n, fst (create_lesson_from_schedule user POST sid form st)
                   <> LessonCreated l n)
   /\ (refused st user schedule = false ->
       (-7 <= Schedule.weekday schedule <= 6 ->
        fst (create_lesson_from_schedule user POST sid form st)
        = Rejected WeekdayMismatch)
       /\ (Schedule.weekday schedule < -7 \/ 6 < Schedule.weekday schedule ->
           fst (create_lesson_from_schedule user POST sid form st)
           = Rejected (OperationFailed IndexError))))
  /\ (LessonForm.lesson_type form = Some "from_schedule"%string ->
      LessonForm.schedule_id form = Value sid ->
      snd (add_lesson user POST form st) = st
      /\ (forall l n, fst (add_lesson user POST form st) <> LessonCreated l n)
      /\ (forall teacher,
             teacher_of st user = Some teacher ->
             works_with teacher (Schedule.group schedule) = true ->
             (-7 <= Schedule.weekday schedule <= 6 ->
              fst (add_lesson user POST form st) = Rejected WeekdayMismatch)
             /\ (Schedule.weekday schedule < -7 \/ 6 < Schedule.weekday schedule ->
                 fst (add_lesson user POST form st)
                 = Rejected (OperationFailed IndexError)))).
Proof.
  intros Hget Hdate Hday.
  assert (Hne : negb (weekday d =? Schedule.weekday schedule) = true).
  { apply negb_true_iff. now apply Z.eqb_neq. }
  assert (Hcases :
    (-7 <= Schedule.weekday schedule <= 6 ->
     Rejected (weekday_mismatch schedule) = Rejected WeekdayMismatch)
    /\ (Schedule.weekday schedule < -7 \/ 6 < Schedule.weekday schedule ->
        Rejected (weekday_mismatch schedule) = Rejected (OperationFailed IndexError))).
  { destruct (weekday_mismatch_cases schedule) as [[Hin ->]|[Hout ->]];
      split; intros; first [reflexivity | lia]. }
  split.
  - unfold create_lesson_from_schedule. rewrite Hget, Hdate, Hne.
    destruct (refused st user schedule); simpl.
    + split; [reflexivity|]. split; [discriminate|discriminate].
    + split; [reflexivity|]. split; [discriminate|]. intros _. exact Hcases.
  - intros Htype Hsid. unfold add_lesson.
    destruct (teacher_of st user) as [teacher|]; simpl.
    + rewrite Hdate, Htype. simpl.
      unfold add_lesson_from_schedule. rewrite Hsid. simpl. rewrite Hget, Hne.
      destruct (works_with teacher (Schedule.group schedule)) eqn:Hw; simpl.
      * split; [reflexivity|]. split; [discriminate|]. intros t _ _. exact Hcases.
      * split; [reflexivity|]. split; [discriminate|].
        intros t Ht Hw'. inversion Ht; subst. congruence.
    + split; [reflexivity|]. split; discriminate.
Qed.

(** The small school after its teacher has posted a schedule for a ninth
    day of the week: the row is stored with the id 2, and a lesson asked of
    it for a Monday is refused with the report of [IndexError]. *)
Lemma weekday_mismatch_rejected_witness :
  (snd (create_lesson_from_schedule teacher_user POST 2 (from_schedule_form 2 monday)
          (snd (add_schedule teacher_user POST ninth_day_form new_school)))
   = snd (add_schedule teacher_user POST ninth_day_form new_school)
   /\ (forall l n,
          fst (create_lesson_from_schedule teacher_user POST 2 (from_schedule_form 2 monday)
                 (snd (add_schedule teacher_user POST ninth_day_form new_school)))
          <> LessonCreated l n)
   /\ fst (create_lesson_from_schedule teacher_user POST 2 (from_schedule_form 2 monday)
             (snd (add_schedule teacher_user POST ninth_day_form new_school)))
      = Rejected (OperationFailed IndexError))
  /\ (snd (add_lesson teacher_user POST (from_schedule_form 2 monday)
             (snd (add_schedule teacher_user POST ninth_day_form new_school)))
      = snd (add_schedule teacher_user POST ninth_day_form new_school)
      /\ fst (add_lesson teacher_user POST (from_schedule_form 2 monday)
                (snd (add_schedule teacher_user POST ninth_day_form new_school)))
         = Rejected (OperationFailed IndexError)).
Proof.
  pose proof (weekday_mismatch_rejected teacher_user 2
                (Schedule.mk 2 1 1 1 9 (hm 9 0) (hm 10 0) (Some "102"%string) true)
                (from_schedule_form 2 monday) monday
                (snd (add_schedule teacher_user POST ninth_day_form new_school))
                eq_refl eq_refl) as H.
  assert (Hday : weekday monday <> 9) by (vm_compute; discriminate).
  destruct (H Hday) as [[H1 [H2 H3]] H4].
  destruct (H4 eq_refl eq_refl) as [H5 [_ H6]].
  split.
  - split; [exact H1|]. split; [exact H2|].
    apply (H3 eq_refl). right. reflexivity.
  - split; [exact H5|].
    apply (H6 (Teacher.mk 1 10 1 [2] [1]) eq_refl eq_refl). right. reflexivity.
Defined.

(** On a Tuesday, the schedule of the Monday is refused with
    [WeekdayMismatch]. *)
Lemma weekday_mismatch_example :
  create_lesson_from_schedule teacher_user POST 1 (from_schedule_form 1 tuesday) school
  = (Rejected WeekdayMismatch, school)
  /\ add_lesson teacher_user POST (from_schedule_form 1 tuesday) school
     = (Rejected WeekdayMismatch, school).
Proof. split; reflexivity. Qed.

(** On the day of the schedule the same requests create the lesson. *)
Lemma weekday_match_creates :
  (exists l st', create_lesson_from_schedule teacher_user POST 1
                   (from_schedule_form 1 monday) new_school = (LessonCreated l 2, st'))
  /\ (exists l st', add_lesson teacher_user POST (from_schedule_form 1 monday) new_school
                    = (LessonCreated l 2, st')).
Proof. split; eexists; eexists; reflexivity. Qed.

(** ** Creating a lesson by hand: the duplicate check (C2) *)

Lemma lessons_of_subject_spec (st : Store) (s g : Z) (d : date) (l : Lesson.t) :
  In l (lessons_of_subject st s g d) <->
  In l (lessons st) /\ Lesson.subject l = s /\ Lesson.group l = g /\ Lesson.date l = d.
Proof.
  unfold lessons_of_subject. rewrite filter_In, !andb_true_iff, !Z.eqb_eq. tauto.
Qed.

(** C2, as the specification states it, fails: group A has mathematics on the
    Monday at 09:00 already, and a second lesson by hand at 11:00 is refused
    as a duplicate although no existing lesson starts at 11:00. *)
Lemma manual_duplicate_ignores_start_time :
  ~ (forall (user : User.t) (form : LessonForm.t) (st : Store) (s g : Z) (d : date),
        LessonForm.lesson_type form = Some "manual"%string ->
        LessonForm.subject form = Value s ->
        LessonForm.group form = Value g ->
        LessonForm.date form = Value d ->
        (fst (add_lesson user POST form st) = Rejected DuplicateLesson
         <->
         exists l, In l (lessons st) /\ Lesson.subject l = s /\ Lesson.group l = g
                   /\ Lesson.date l = d
                   /\ to_python_opt (LessonForm.start_time form)
                      = Ok (Lesson.start_time l))).
Proof.
  intros H.
  specialize (H teacher_user (manual_form 1 1 monday (hm 11 0) (hm 12 0)) school
                1 1 monday eq_refl eq_refl eq_refl eq_refl).
  destruct H as [H _]. destruct (H eq_refl) as [l [Hin [_ [_ [_ Hstart]]]]].
  simpl in Hin. destruct Hin as [<-|[]]. discriminate Hstart.
Qed.

(** C2, amended: a lesson made by hand by a teacher who works with the group
    is refused as a duplicate exactly when a lesson of the same subject,
    group and date exists, whatever its start time; and while such a lesson
    exists no request by hand for that subject, group and date creates a
    lesson. *)
Theorem manual_duplicate_iff (user : User.t) (teacher : Teacher.t) (form : LessonForm.t)
    (subject : Subject.t) (group : Group.t) (d : date) (st : Store) :
  teacher_of st user = Some teacher ->
  is_from_schedule_type (LessonForm.lesson_type form) = false ->
  LessonForm.date form = Value d ->
  get_object_or_404 (get_subject st) (LessonForm.subject form) = Ok subject ->
  get_object_or_404 (get_group st) (LessonForm.group form) = Ok group ->
  works_with teacher (Group.id group) = true ->
  (fst (add_lesson user POST form st) = Rejected DuplicateLesson
   <->
   exists l, In l (lessons st) /\ Lesson.subject l = Subject.id subject
             /\ Lesson.group l = Group.id group /\ Lesson.date l = d)
  /\ ((exists l, In l (lessons st) /\ Lesson.subject l = Subject.id subject
                 /\ Lesson.group l = Group.id group /\ Lesson.date l = d) ->
      add_lesson user POST form st = (Rejected DuplicateLesson, st)).
Proof.
  intros Ht Htype Hdate Hsub Hgr Hw.
  assert (Habs : is_absent (LessonForm.subject form) || is_absent (LessonForm.group form)
                 = false).
  { destruct (LessonForm.subject form); try discriminate.
    destruct (LessonForm.group form); try discriminate. reflexivity. }
  assert (Hdup : (exists l, In l (lessons st) /\ Lesson.subject l = Subject.id subject
                            /\ Lesson.group l = Group.id group /\ Lesson.date l = d) ->
                 add_lesson user POST form st = (Rejected DuplicateLesson, st)).
  { intros [l Hl]. apply lessons_of_subject_spec in Hl.
    unfold add_lesson. rewrite Ht, Hdate, Htype.
    unfold add_lesson_manual. rewrite Habs, Hsub, Hgr, Hw. simpl.
    destruct (lessons_of_subject st _ _ d); [contradiction | reflexivity]. }
  split; [|exact Hdup]. split.
  - unfold add_lesson. rewrite Ht, Hdate, Htype.
    unfold add_lesson_manual. rewrite Habs, Hsub, Hgr, Hw. simpl.
    destruct (first (lessons_of_subject st _ _ d)) as [l|] eqn:Hfirst.
    + intros _. exists l. apply lessons_of_subject_spec.
      destruct (lessons_of_subject st _ _ d); [discriminate|].
      inversion Hfirst. now left.
    + intros H. exfalso.
      exact (create_posted_then_check st _ _ _ DuplicateLesson I H).
  - intros H. rewrite (Hdup H). reflexivity.
Qed.

Lemma manual_duplicate_iff_witness :
  (fst (add_lesson teacher_user POST (manual_form 1 1 monday (hm 11 0) (hm 12 0)) school)
   = Rejected DuplicateLesson
   <->
   exists l, In l (lessons school) /\ Lesson.subject l = 1
             /\ Lesson.group l = 1 /\ Lesson.date l = monday)
  /\ ((exists l, In l (lessons school) /\ Lesson.subject l = 1
                 /\ Lesson.group l = 1 /\ Lesson.date l = monday) ->
      add_lesson teacher_user POST (manual_form 1 1 monday (hm 11 0) (hm 12 0)) school
      = (Rejected DuplicateLesson, school)).
Proof.
  apply (manual_duplicate_iff teacher_user (Teacher.mk 1 10 1 [2] [1])
           (manual_form 1 1 monday (hm 11 0) (hm 12 0))
           (Subject.mk 1 "Mathematics") (Group.mk 1 "A" 1) monday school);
    reflexivity.
Defined.

(** ** The fan-out of attendance records (C9) *)

(** Rows with distinct keys keep distinct keys when some are filtered out. *)
Lemma filter_keeps_distinct {K Row : Type} (key : Row -> K) (keep : Row -> bool)
    (rows : list Row) (distinct : NoDup (map key rows)) :
  NoDup (map key (filter keep rows)).
Proof.
  induction rows as [|r rows IH]; [constructor|].
  apply NoDup_cons_iff in distinct. destruct distinct as [Hfresh Hrest].
  simpl. destruct (keep r); [|exact (IH Hrest)].
  simpl. apply NoDup_cons; [|exact (IH Hrest)].
  intros Hin. apply Hfresh.
  apply in_map_iff in Hin. destruct Hin as [r' [Hkey Hr']].
  apply filter_In in Hr'. apply in_map_iff. exists r'. tauto.
Qed.

Lemma number_from_length (seq : Z) (batch : list Attendance.t) :
  List.length (number_from seq batch) = List.length batch.
Proof.
  revert seq. induction batch as [|a batch IH]; intros seq; simpl; [reflexivity|].
  now rewrite IH.
Qed.

Lemma number_from_key (seq : Z) (batch : list Attendance.t) :
  map attendance_key (number_from seq batch) = map attendance_key batch.
Proof.
  revert seq. induction batch as [|a batch IH]; intros seq; simpl; [reflexivity|].
  now rewrite IH.
Qed.

Lemma number_from_In (seq : Z) (batch : list Attendance.t) (a : Attendance.t) :
  In a (number_from seq batch) ->
  exists b, In b batch /\ a = Attendance_with_id (Attendance.id a) b
            /\ seq <= Attendance.id a < seq + Z.of_nat (List.length batch).
Proof.
  revert seq. induction batch as [|b batch IH]; intros seq; simpl; [contradiction|].
  intros [<-|Hin].
  - exists b. simpl. split; [now left|]. split; [reflexivity|lia].
  - destruct (IH _ Hin) as [b' [Hb' [Heq Hrange]]].
    exists b'. split; [now right|]. split; [exact Heq|lia].
Qed.

Lemma number_from_ids (seq : Z) (batch : list Attendance.t) :
  NoDup (map Attendance.id (number_from seq batch)).
Proof.
  revert seq. induction batch as [|b batch IH]; intros seq; simpl; constructor.
  - intros Hin. apply in_map_iff in Hin. destruct Hin as [a [Hid Hin]].
    apply number_from_In in Hin. destruct Hin as [_ [_ [_ Hrange]]]. lia.
  - apply IH.
Qed.

Lemma number_from_default (seq lesson_id : Z) (sts : list Student.t) (a : Attendance.t) :
  In a (number_from seq (default_records lesson_id sts)) ->
  Attendance.lesson a = lesson_id /\ is_default a
  /\ exists s, In s sts /\ Attendance.student a = Student.id s.
Proof.
  intros Hin. apply number_from_In in Hin. destruct Hin as [b [Hb [Heq _]]].
  unfold default_records in Hb. apply in_map_iff in Hb. destruct Hb as [s [<- Hs]].
  rewrite Heq. unfold is_default. simpl. repeat split. exists s. auto.
Qed.

Lemma number_from_students (seq lesson_id : Z) (sts : list Student.t) :
  map Attendance.student (number_from seq (default_records lesson_id sts))
  = map Student.id sts.
Proof.
  revert seq. induction sts as [|s sts IH]; intros seq; simpl; [reflexivity|].
  now rewrite IH.
Qed.

Lemma same_key_spec (a b : Attendance.t) :
  Attendance_same_key a b = true <-> attendance_key a = attendance_key b.
Proof.
  unfold Attendance_same_key, attendance_key.
  rewrite andb_true_iff, !Z.eqb_eq. split.
  - intros [-> ->]. reflexivity.
  - intros H. inversion H. auto.
Qed.

Lemma existsb_same_key (a : Attendance.t) (table : list Attendance.t) :
  existsb (Attendance_same_key a) table = true <->
  In (attendance_key a) (map attendance_key table).
Proof.
  rewrite existsb_exists, in_map_iff. split; intros [b [H1 H2]]; exists b.
  - apply same_key_spec in H2. auto.
  - split; [exact H2|]. apply same_key_spec. auto.
Qed.

(** A batch can be inserted when its keys are new and differ from each other. *)
Lemma batch_unique_spec (table batch : list Attendance.t) :
  batch_unique table batch = true <->
  NoDup (map attendance_key batch)
  /\ (forall a, In a batch -> ~ In (attendance_key a) (map attendance_key table)).
Proof.
  induction batch as [|a batch IH]; simpl.
  - split; [intros _|reflexivity]. split; [constructor | contradiction].
  - rewrite !andb_true_iff, !negb_true_iff, IH. split.
    + intros [[H1 H2] [H3 H4]]. split.
      * constructor; [|exact H3]. intros Hin. apply existsb_same_key in Hin. congruence.
      * intros b [<-|Hb]; [|now apply H4].
        intros Hin. apply existsb_same_key in Hin. congruence.
    + intros [H1 H2]. inversion H1 as [|? ? Hnotin Hrest]; subst. repeat split.
      * destruct (existsb (Attendance_same_key a) table) eqn:E; [|reflexivity].
        apply existsb_same_key in E. exfalso. apply (H2 a); auto.
      * destruct (existsb (Attendance_same_key a) batch) eqn:E; [|reflexivity].
        apply existsb_same_key in E. contradiction.
      * exact Hrest.
      * intros b Hb. apply H2. now right.
Qed.

Lemma default_records_keys (lesson_id : Z) (sts : list Student.t) :
  NoDup (map Student.id sts) ->
  NoDup (map attendance_key (default_records lesson_id sts)).
Proof.
  unfold default_records. rewrite map_map. simpl.
  induction sts as [|s sts IH]; simpl; intros H; [constructor|].
  inversion H as [|? ? Hnotin Hrest]; subst. constructor; [|now apply IH].
  intros Hin. apply Hnotin. apply in_map_iff in Hin. destruct Hin as [x [Hx Hin]].
  unfold attendance_key in Hx. simpl in Hx. inversion Hx.
  apply in_map_iff. exists x. auto.
Qed.

Lemma Lesson_create_ok (st st1 : Store) (l0 l : Lesson.t) :
  Lesson_create st l0 = Ok (l, st1) ->
  Lesson.id l = lesson_seq st
  /\ st1 = with_lessons st (lessons st ++ [l]) (lesson_seq st + 1)
  /\ exists l1, Lesson_copy_schedule st l0 = Ok l1 /\ l = Lesson_with_id (lesson_seq st) l1.
Proof.
  unfold Lesson_create, bind.
  destruct (Lesson_copy_schedule st l0) as [l1|]; [|discriminate].
  destruct (Lesson_clean l1); [|discriminate].
  destruct (existsb _ _); [discriminate|].
  intros H. inversion H; subst. simpl.
  split; [reflexivity|]. split; [reflexivity|]. exists l1. auto.
Qed.

Lemma Lesson_create_posted_ok (st st1 : Store) (l0 l : Lesson.t)
    (start_time end_time : option PostedTime.t) :
  Lesson_create_posted st l0 start_time end_time = Ok (l, st1) ->
  Lesson.id l = lesson_seq st
  /\ st1 = with_lessons st (lessons st ++ [l]) (lesson_seq st + 1)
  /\ exists b e, to_python_opt start_time = Ok b /\ to_python_opt end_time = Ok e
                 /\ l = Lesson_with_id (lesson_seq st) (Lesson_with_times l0 b e)
                 /\ existsb (Lesson_same_key (Lesson_with_times l0 b e)) (lessons st)
                    = false.
Proof.
  unfold Lesson_create_posted, bind.
  destruct (Lesson_clean_posted start_time end_time); [|discriminate].
  destruct (to_python_opt start_time) as [b|]; [|discriminate].
  destruct (to_python_opt end_time) as [e|]; [|discriminate].
  destruct (existsb _ _) eqn:Hkey; [discriminate|].
  intros H. inversion H; subst. simpl.
  split; [reflexivity|]. split; [reflexivity|]. exists b, e. auto.
Qed.

(** No record of a well-formed store belongs to the lesson that will be
    created next. *)
Lemma next_lesson_has_no_record (st : Store) (a : Attendance.t) :
  wf_store st -> In a (attendances st) -> Attendance.lesson a <> lesson_seq st.
Proof.
  intros Hwf Hin Heq. apply (wf_lesson_fk Hwf) in Hin.
  apply in_map_iff in Hin. destruct Hin as [l [Hid Hl]].
  apply (wf_lesson_seq Hwf) in Hl. lia.
Qed.

(** After a lesson is created in a well-formed store the fan-out cannot
    fail, and it writes one default record for each student of the group
    after the records that were there. *)
Lemma fan_out_ok (st st1 : Store) (l : Lesson.t) (g : Z) :
  wf_store st ->
  Lesson.id l = lesson_seq st ->
  st1 = with_lessons st (lessons st ++ [l]) (lesson_seq st + 1) ->
  fan_out l g st1
  = (LessonCreated l (List.length (students_of_group st g)),
     with_attendances st1
       (attendances st ++
        number_from (attendance_seq st)
          (default_records (Lesson.id l) (students_of_group st g)))
       (attendance_seq st
        + Z.of_nat (List.length (default_records (Lesson.id l) (students_of_group st g))))).
Proof.
  intros Hwf Hid ->.
  unfold fan_out, bulk_create, students_of_group. simpl.
  set (sts := filter (fun s => Student.group s =? g) (students st)).
  assert (Hu : batch_unique (attendances st) (default_records (Lesson.id l) sts) = true).
  { apply batch_unique_spec. split.
    - apply default_records_keys. apply filter_keeps_distinct. apply (wf_students Hwf).
    - intros a Ha Hin. apply in_map_iff in Hin. destruct Hin as [b [Hkey Hb]].
      apply (next_lesson_has_no_record st b Hwf) in Hb. apply Hb.
      unfold default_records in Ha. apply in_map_iff in Ha. destruct Ha as [s [<- _]].
      unfold attendance_key in Hkey. simpl in Hkey. inversion Hkey. congruence. }
  destruct (default_records (Lesson.id l) sts) as [|a batch] eqn:Hbatch.
  - unfold default_records in Hbatch. apply map_eq_nil in Hbatch. rewrite Hbatch.
    simpl. rewrite app_nil_r, Z.add_0_r. reflexivity.
  - rewrite Hu. reflexivity.
Qed.

Lemma filter_none {A : Type} (p : A -> bool) (l : list A) :
  (forall x, In x l -> p x = false) -> filter p l = [].
Proof.
  induction l as [|a l IH]; simpl; intros H; [reflexivity|].
  rewrite (H a) by now left. apply IH. intros x Hx. apply H. now right.
Qed.

Lemma filter_all {A : Type} (p : A -> bool) (l : list A) :
  (forall x, In x l -> p x = true) -> filter p l = l.
Proof.
  induction l as [|a l IH]; simpl; intros H; [reflexivity|].
  rewrite (H a) by now left. f_equal. apply IH. intros x Hx. apply H. now right.
Qed.

Lemma created_lesson_fanned_out (st st1 st' : Store) (l l' : Lesson.t) (n : nat) :
  wf_store st ->
  Lesson.id l = lesson_seq st ->
  st1 = with_lessons st (lessons st ++ [l]) (lesson_seq st + 1) ->
  fan_out l (Lesson.group l) st1 = (LessonCreated l' n, st') ->
  l' = l /\ fanned_out st' l n.
Proof.
  intros Hwf Hid Hst1 Hfan.
  rewrite (fan_out_ok st st1 l (Lesson.group l) Hwf Hid Hst1) in Hfan. subst st1.
  inversion Hfan; subst l' n st'. clear Hfan. split; [reflexivity|].
  set (sts := students_of_group st (Lesson.group l)).
  assert (Hrec : records_of_lesson
                   (with_attendances
                      (with_lessons st (lessons st ++ [l]) (lesson_seq st + 1))
                      (attendances st ++
                       number_from (attendance_seq st) (default_records (Lesson.id l) sts))
                      (attendance_seq st
                       + Z.of_nat (List.length (default_records (Lesson.id l) sts))))
                   (Lesson.id l)
                 = number_from (attendance_seq st) (default_records (Lesson.id l) sts)).
  { unfold records_of_lesson. simpl. rewrite filter_app.
    rewrite filter_none, filter_all; [reflexivity| |].
    - intros a Ha. apply number_from_default in Ha. apply Z.eqb_eq. tauto.
    - intros a Ha. apply Z.eqb_neq. rewrite Hid.
      now apply next_lesson_has_no_record. }
  unfold fanned_out. rewrite Hrec.
  assert (Hsts : students_of_group
                   (with_attendances
                      (with_lessons st (lessons st ++ [l]) (lesson_seq st + 1))
                      (attendances st ++
                       number_from (attendance_seq st) (default_records (Lesson.id l) sts))
                      (attendance_seq st
                       + Z.of_nat (List.length (default_records (Lesson.id l) sts))))
                   (Lesson.group l) = sts) by reflexivity.
  rewrite Hsts. simpl lessons.
  split; [apply in_or_app; right; now left|].
  split; [reflexivity|].
  split; [rewrite number_from_length; unfold default_records; now rewrite length_map|].
  split; [apply number_from_students|].
  split.
  - rewrite number_from_students. apply filter_keeps_distinct. apply (wf_students Hwf).
  - apply Forall_forall. intros a Ha. apply number_from_default in Ha. tauto.
Qed.

Lemma Lesson_copy_schedule_group (st : Store) (schedule : Schedule.t) (d : date)
    (classroom notes : string) (l1 : Lesson.t) :
  get_schedule st (Schedule.id schedule) = Some schedule ->
  Lesson_copy_schedule st (lesson_of_schedule schedule d classroom notes) = Ok l1 ->
  Lesson.group l1 = Schedule.group schedule.
Proof.
  unfold Lesson_copy_schedule. simpl. intros ->. simpl.
  intros H. inversion H. reflexivity.
Qed.

(** X17: when [add_lesson] (from a schedule or by hand) or
    [create_lesson_from_schedule] answers that a lesson was created, the
    lesson is stored and its attendance records are exactly one record for
    each student who is in the group of the lesson, each with
    [attended = false], [late = false] and no grade; their number is the
    number of students of the group. *)
Theorem lesson_fan_out (user : User.t) (form : LessonForm.t) (st st' : Store)
    (l : Lesson.t) (n : nat) :
  wf_store st ->
  (add_lesson user POST form st = (LessonCreated l n, st')
   \/ exists sid,
        create_lesson_from_schedule user POST sid form st = (LessonCreated l n, st')) ->
  fanned_out st' l n.
Proof.
  intros Hwf [H|[sid H]].
  - unfold add_lesson in H.
    destruct (teacher_of st user) as [teacher|]; [|discriminate].
    destruct (LessonForm.date form) as [| |d]; try discriminate.
    destruct (is_from_schedule_type _).
    + unfold add_lesson_from_schedule in H.
      destruct (is_absent _); [discriminate|].
      destruct (get_object_or_404 _ _) as [schedule|e]; [|discriminate].
      destruct (negb (works_with _ _)); [discriminate|].
      destruct (negb (weekday d =? _)); [discriminate|].
      destruct (first _); [discriminate|].
      destruct (Lesson_create st _) as [[lesson st1]|e] eqn:Hcreate; [|discriminate].
      destruct (Lesson_create_ok st st1 _ lesson Hcreate) as [Hid [Hst1 _]].
      now destruct (created_lesson_fanned_out st st1 st' lesson l n Hwf Hid Hst1 H)
        as [-> Hf].
    + unfold add_lesson_manual in H.
      destruct (_ || _); [discriminate|].
      destruct (get_object_or_404 _ (LessonForm.subject form)); [|discriminate].
      destruct (get_object_or_404 _ (LessonForm.group form)); [|discriminate].
      destruct (negb (works_with _ _)); [discriminate|].
      destruct (first _); [discriminate|].
      cbv zeta in H.
      destruct (Lesson_create_posted st _ _ _) as [[lesson st1]|e] eqn:Hcreate;
        [|discriminate].
      destruct (Lesson_create_posted_ok st st1 _ lesson _ _ Hcreate) as [Hid [Hst1 _]].
      assert (Hfan : fan_out lesson (Lesson.group lesson) st1 = (LessonCreated l n, st')).
      { destruct (if_filled (LessonForm.start_time form)),
                 (if_filled (LessonForm.end_time form));
          first [exact H | discriminate H]. }
      now destruct (created_lesson_fanned_out st st1 st' lesson l n Hwf Hid Hst1 Hfan)
        as [-> Hf].
  - unfold create_lesson_from_schedule in H.
    destruct (get_schedule st sid) as [schedule|] eqn:Hget; [|discriminate].
    destruct (refused st user schedule); [discriminate|].
    destruct (LessonForm.date form) as [| |d]; try discriminate.
    destruct (negb (weekday d =? _)); [discriminate|].
    destruct (first _); [discriminate|].
    destruct (Lesson_create st _) as [[lesson st1]|e] eqn:Hcreate; [|discriminate].
    assert (Hg : Schedule.group schedule = Lesson.group lesson).
    { destruct (Lesson_create_ok st st1 _ lesson Hcreate) as [_ [_ [l1 [Hcopy ->]]]].
      simpl. symmetry.
      apply (Lesson_copy_schedule_group st schedule d (LessonForm.classroom form)
               (LessonForm.notes form) l1); [|exact Hcopy].
      destruct (get_schedule_some st sid schedule Hget) as [_ Hsid].
      rewrite Hsid. exact Hget. }
    rewrite Hg in H.
    destruct (Lesson_create_ok st st1 _ lesson Hcreate) as [Hid [Hst1 _]].
    now destruct (created_lesson_fanned_out st st1 st' lesson l n Hwf Hid Hst1 H)
      as [-> Hf].
Qed.

Ltac nodup_concrete :=
  repeat (constructor; [simpl; intuition (try discriminate; try lia)|]); constructor.

Ltac each_row :=
  simpl; intros ? Hrow;
  repeat (destruct Hrow as [<-|Hrow]; [simpl; try lia; tauto|]);
  contradiction.

Lemma empty_store_wf : wf_store empty_store.
Proof.
  constructor; try constructor; simpl; contradiction.
Qed.

Lemma new_school_wf : wf_store new_school.
Proof.
  constructor;
    [nodup_concrete | nodup_concrete | nodup_concrete | nodup_concrete
     | each_row | each_row | each_row].
Qed.

Lemma school_wf : wf_store school.
Proof.
  constructor;
    [nodup_concrete | nodup_concrete | nodup_concrete | nodup_concrete
     | each_row | each_row | each_row].
Qed.

Lemma lesson_fan_out_witness :
  fanned_out (snd (add_lesson teacher_user POST (from_schedule_form 1 monday) new_school))
             first_lesson 2
  /\ fanned_out (snd (create_lesson_from_schedule teacher_user POST 1
                         (from_schedule_form 1 monday) new_school))
                first_lesson 2
  /\ fanned_out (snd (add_lesson teacher_user POST (untimed_form 1 1 tuesday) new_school))
                (Lesson.mk 1 None 1 tuesday 1 (Some 1) (Some ""%string) None None
                           false ""%string)
                2.
Proof.
  split; [|split].
  - apply (lesson_fan_out teacher_user (from_schedule_form 1 monday) new_school
             (snd (add_lesson teacher_user POST (from_schedule_form 1 monday) new_school))
             first_lesson 2 new_school_wf).
    left. reflexivity.
  - apply (lesson_fan_out teacher_user (from_schedule_form 1 monday) new_school
             (snd (create_lesson_from_schedule teacher_user POST 1
                     (from_schedule_form 1 monday) new_school))
             first_lesson 2 new_school_wf).
    right. exists 1. reflexivity.
  - apply (lesson_fan_out teacher_user (untimed_form 1 1 tuesday) new_school
             (snd (add_lesson teacher_user POST (untimed_form 1 1 tuesday) new_school))
             (Lesson.mk 1 None 1 tuesday 1 (Some 1) (Some ""%string) None None
                        false ""%string)
             2 new_school_wf).
    left. reflexivity.
Defined.

(** C9: a lesson made by hand with its start and its end time is stored
    without any attendance record.  In the small school the teacher posts
    mathematics for group A, which has two students, on a Tuesday from 11:00
    to 12:00: the row of the lesson is written, the message of the view
    raises [AttributeError] before the fan-out, the view reports an error,
    and the lesson has no record; the same form without the times, and the
    path from the schedule, write the two records of the group. *)
Theorem manual_lesson_has_no_records :
  add_lesson teacher_user POST (manual_form 1 1 tuesday (hm 11 0) (hm 12 0)) new_school
  = (Rejected (OperationFailed AttributeError),
     with_lessons new_school
       [Lesson.mk 1 None 1 tuesday 1 (Some 1) (Some ""%string)
                  (Some (hm 11 0)) (Some (hm 12 0)) false ""%string]
       2)
  /\ List.length (students_of_group new_school 1) = 2%nat
  /\ records_of_lesson
       (snd (add_lesson teacher_user POST (manual_form 1 1 tuesday (hm 11 0) (hm 12 0))
               new_school)) 1
     = []
  /\ map attendance_key
         (attendances (snd (add_lesson teacher_user POST (untimed_form 1 1 tuesday)
                              new_school)))
     = [(1, 1); (1, 2)]
  /\ map attendance_key
         (attendances (snd (add_lesson teacher_user POST (from_schedule_form 1 monday)
                              new_school)))
     = [(1, 1); (1, 2)]
  /\ map attendance_key
         (attendances (snd (create_lesson_from_schedule teacher_user POST 1
                              (from_schedule_form 1 monday) new_school)))
     = [(1, 1); (1, 2)].
Proof. repeat split; reflexivity. Qed.

(** ** The reconciler of attendance records (C8) *)

Lemma add_rows_nil (st : Store) : add_rows st [] = st.
Proof.
  destruct st. unfold add_rows, with_attendances. simpl.
  now rewrite app_nil_r, Z.add_0_r.
Qed.

Lemma number_from_app (seq : Z) (b1 b2 : list Attendance.t) :
  number_from seq (b1 ++ b2)
  = number_from seq b1 ++ number_from (seq + Z.of_nat (List.length b1)) b2.
Proof.
  revert seq. induction b1 as [|a b1 IH]; intros seq; simpl.
  - now rewrite Z.add_0_r.
  - rewrite IH. do 3 f_equal. lia.
Qed.

Lemma add_rows_app (st : Store) (b1 b2 : list Attendance.t) :
  add_rows (add_rows st b1) b2 = add_rows st (b1 ++ b2).
Proof.
  unfold add_rows, with_attendances. simpl.
  rewrite number_from_app, <- app_assoc, length_app, Nat2Z.inj_add, Z.add_assoc.
  reflexivity.
Qed.

Lemma existing_attendance_spec (st : Store) (l : Lesson.t) (s : Z) :
  mem s (existing_attendance st l) = true <->
  In (Lesson.id l, s) (map attendance_key (attendances st)).
Proof.
  rewrite mem_In. unfold existing_attendance. rewrite !in_map_iff. split.
  - intros [a [Hs Ha]]. apply filter_In in Ha. destruct Ha as [Ha Hl].
    apply Z.eqb_eq in Hl. exists a. unfold attendance_key. split; [congruence | exact Ha].
  - intros [a [Hk Ha]]. unfold attendance_key in Hk. inversion Hk.
    exists a. split; [reflexivity|]. apply filter_In. split; [exact Ha|].
    apply Z.eqb_eq. reflexivity.
Qed.

Lemma students_without_attendance_spec (st : Store) (l : Lesson.t) (s : Student.t) :
  In s (students_without_attendance st l) <->
  In s (students st) /\ Student.group s = Lesson.group l
  /\ ~ In (Lesson.id l, Student.id s) (map attendance_key (attendances st)).
Proof.
  unfold students_without_attendance, students_of_group.
  rewrite !filter_In, negb_true_iff, Z.eqb_eq, <- existing_attendance_spec.
  destruct (mem (Student.id s) (existing_attendance st l)); intuition congruence.
Qed.

(** The batch of one lesson can always be inserted. *)
Lemma missing_batch_unique (st : Store) (l : Lesson.t) :
  NoDup (map Student.id (students st)) ->
  batch_unique (attendances st)
    (default_records (Lesson.id l) (students_without_attendance st l)) = true.
Proof.
  intros Hst. apply batch_unique_spec. split.
  - apply default_records_keys. unfold students_without_attendance, students_of_group.
    now do 2 apply filter_keeps_distinct.
  - intros a Ha. unfold default_records in Ha. apply in_map_iff in Ha.
    destruct Ha as [s [<- Hs]]. apply students_without_attendance_spec in Hs.
    unfold attendance_key at 1. simpl. tauto.
Qed.

Lemma bulk_create_missing (st : Store) (l : Lesson.t) :
  NoDup (map Student.id (students st)) ->
  bulk_create st (default_records (Lesson.id l) (students_without_attendance st l))
  = Ok (add_rows st (default_records (Lesson.id l) (students_without_attendance st l))).
Proof.
  intros Hst. unfold bulk_create. rewrite (missing_batch_unique st l Hst).
  destruct (default_records _ _) eqn:E; [|reflexivity].
  now rewrite add_rows_nil.
Qed.

(** Records of one lesson do not change what another lesson lacks. *)
Lemma students_without_attendance_frame (st : Store) (batch : list Attendance.t)
    (l : Lesson.t) :
  (forall a, In a batch -> Attendance.lesson a <> Lesson.id l) ->
  students_without_attendance (add_rows st batch) l = students_without_attendance st l.
Proof.
  intros Hother. unfold students_without_attendance, students_of_group. simpl.
  apply filter_ext_in. intros s _. f_equal.
  unfold existing_attendance. simpl. rewrite filter_app, map_app.
  rewrite (filter_none _ (number_from (attendance_seq st) batch)).
  - now rewrite app_nil_r.
  - intros a Ha. apply Z.eqb_neq. apply number_from_In in Ha.
    destruct Ha as [b [Hb [Heq _]]]. rewrite Heq. simpl. now apply Hother.
Qed.

Lemma missing_rows_frame (st : Store) (batch : list Attendance.t) (ls : list Lesson.t) :
  (forall a l, In a batch -> In l ls -> Attendance.lesson a <> Lesson.id l) ->
  missing_rows (add_rows st batch) ls = missing_rows st ls.
Proof.
  intros Hother. unfold missing_rows. induction ls as [|l ls IH]; simpl; [reflexivity|].
  rewrite students_without_attendance_frame.
  - f_equal. apply IH. intros a l' Ha Hl'. apply Hother; [exact Ha | now right].
  - intros a Ha. apply Hother; [exact Ha | now left].
Qed.

(** The loop in closed form: it inserts what the lessons lack in the store
    it starts from, after the rows that are there, and counts it. *)
Lemma create_missing_closed (ls : list Lesson.t) (created_count : nat) (st : Store) :
  NoDup (map Lesson.id ls) ->
  NoDup (map Student.id (students st)) ->
  create_missing ls created_count st
  = (RecordsCreated (created_count + List.length (missing_rows st ls)),
     add_rows st (missing_rows st ls)).
Proof.
  revert created_count st. induction ls as [|l ls IH]; intros c st Hls Hst.
  - simpl. now rewrite Nat.add_0_r, add_rows_nil.
  - inversion Hls as [|? ? Hnotin Hrest]; subst.
    cbn [create_missing]. unfold missing_rows. cbn [flat_map]. fold (missing_rows st ls).
    destruct (default_records (Lesson.id l) (students_without_attendance st l))
      as [|a batch] eqn:Hbatch.
    + simpl. now apply IH.
    + rewrite <- Hbatch. rewrite (bulk_create_missing st l Hst).
      rewrite IH by assumption.
      rewrite missing_rows_frame.
      * rewrite add_rows_app, length_app, Nat.add_assoc. reflexivity.
      * intros b l' Hb Hl' Heq. apply Hnotin.
        unfold default_records in Hb. apply in_map_iff in Hb.
        destruct Hb as [s [<- _]]. simpl in Heq. rewrite Heq.
        now apply in_map.
Qed.

Lemma NoDup_map_eq {A B : Type} (f : A -> B) (l : list A) (x y : A) :
  NoDup (map f l) -> In x l -> In y l -> f x = f y -> x = y.
Proof.
  induction l as [|a l IH]; simpl; intros Hnd Hx Hy Hxy; [contradiction|].
  inversion Hnd as [|? ? Hnotin Hrest]; subst.
  destruct Hx as [<-|Hx], Hy as [<-|Hy].
  - reflexivity.
  - exfalso. apply Hnotin. rewrite Hxy. now apply in_map.
  - exfalso. apply Hnotin. rewrite <- Hxy. now apply in_map.
  - now apply IH.
Qed.

Lemma missing_rows_key (st : Store) (ls : list Lesson.t) (i j : Z) :
  In (i, j) (map attendance_key (missing_rows st ls)) <->
  exists l s, In l ls /\ In s (students_without_attendance st l)
              /\ i = Lesson.id l /\ j = Student.id s.
Proof.
  unfold missing_rows. rewrite in_map_iff. split.
  - intros [b [Hk Hb]]. apply in_flat_map in Hb. destruct Hb as [l [Hl Hb]].
    unfold default_records in Hb. apply in_map_iff in Hb. destruct Hb as [s [<- Hs]].
    unfold attendance_key in Hk. simpl in Hk. inversion Hk. exists l, s. auto.
  - intros [l [s [Hl [Hs [-> ->]]]]].
    exists (new_Attendance (Lesson.id l) (Student.id s) false false None).
    split; [reflexivity|]. apply in_flat_map. exists l. split; [exact Hl|].
    unfold default_records. apply in_map_iff. exists s. auto.
Qed.

Lemma missing_rows_default (st : Store) (ls : list Lesson.t) (seq : Z) (a : Attendance.t) :
  In a (number_from seq (missing_rows st ls)) -> is_default a.
Proof.
  intros Ha. apply number_from_In in Ha. destruct Ha as [b [Hb [-> _]]].
  unfold missing_rows in Hb. apply in_flat_map in Hb. destruct Hb as [l [_ Hb]].
  unfold default_records in Hb. apply in_map_iff in Hb. destruct Hb as [s [<- _]].
  unfold is_default. simpl. auto.
Qed.

Lemma missing_rows_NoDup (st : Store) (ls : list Lesson.t) :
  NoDup (map Lesson.id ls) ->
  NoDup (map Student.id (students st)) ->
  NoDup (map attendance_key (missing_rows st ls)).
Proof.
  intros Hls Hst. induction ls as [|l ls IH]; [constructor|].
  inversion Hls as [|? ? Hnotin Hrest]; subst.
  unfold missing_rows. cbn [flat_map]. fold (missing_rows st ls). rewrite map_app.
  apply NoDup_app.
  - apply default_records_keys. unfold students_without_attendance, students_of_group.
    now do 2 apply filter_keeps_distinct.
  - now apply IH.
  - intros [i j] H1 H2. apply missing_rows_key in H2.
    destruct H2 as [l' [s' [Hl' [_ [Hi _]]]]].
    apply in_map_iff in H1. destruct H1 as [b [Hk Hb]].
    unfold default_records in Hb. apply in_map_iff in Hb. destruct Hb as [s [<- _]].
    unfold attendance_key in Hk. simpl in Hk. inversion Hk; subst.
    apply Hnotin. rewrite H0. now apply in_map.
Qed.

(** After the run no lesson lacks a record. *)
Lemma missing_rows_after (st : Store) (ls : list Lesson.t) :
  missing_rows (add_rows st (missing_rows st ls)) ls = [].
Proof.
  set (st' := add_rows st (missing_rows st ls)).
  assert (Hnone : forall l, In l ls -> students_without_attendance st' l = []).
  { intros l Hl. unfold students_without_attendance. apply filter_none.
    intros s Hs. apply negb_false_iff. apply existing_attendance_spec.
    unfold st', add_rows. simpl. rewrite map_app, number_from_key.
    apply in_or_app.
    destruct (mem (Student.id s) (existing_attendance st l)) eqn:E.
    - left. now apply existing_attendance_spec.
    - right. apply missing_rows_key. exists l, s. repeat split; try assumption.
      apply students_without_attendance_spec.
      unfold students_of_group in Hs. simpl in Hs. apply filter_In in Hs.
      destruct Hs as [Hs Hg]. apply Z.eqb_eq in Hg. repeat split; try assumption.
      rewrite <- existing_attendance_spec. congruence. }
  clearbody st'. revert Hnone.
  unfold missing_rows. induction ls as [|l ls IH]; intros Hnone; [reflexivity|].
  cbn [flat_map]. rewrite Hnone by now left.
  simpl. apply IH. intros l' Hl'. apply Hnone. now right.
Qed.

(** [Lesson.objects.all()] returns every row of the table once. *)
Lemma insert_ordered_perm (l : Lesson.t) (sorted : list Lesson.t) :
  Permutation (insert_ordered l sorted) (l :: sorted).
Proof.
  induction sorted as [|x rest IH]; simpl; [reflexivity|].
  destruct (ordering_leb l x); [reflexivity|].
  rewrite IH. apply perm_swap.
Qed.

Lemma all_lessons_perm (st : Store) : Permutation (all_lessons st) (lessons st).
Proof.
  unfold all_lessons. induction (lessons st) as [|l ls IH]; simpl; [reflexivity|].
  rewrite insert_ordered_perm. now constructor.
Qed.

Lemma all_lessons_In (st : Store) (l : Lesson.t) :
  In l (all_lessons st) <-> In l (lessons st).
Proof.
  split; intros H.
  - now apply (Permutation_in _ (all_lessons_perm st)).
  - now apply (Permutation_in _ (Permutation_sym (all_lessons_perm st))).
Qed.

Lemma all_lessons_NoDup (st : Store) :
  NoDup (map Lesson.id (lessons st)) -> NoDup (map Lesson.id (all_lessons st)).
Proof.
  apply Permutation_NoDup. apply Permutation_map. apply Permutation_sym.
  apply all_lessons_perm.
Qed.

(** C8: a run of the reconciler over a well-formed store appends records to
    the attendance table and leaves the rows that were there as they were;
    the new records are default records, no two of them are for the same
    lesson and student, and a lesson and a student of the store get one
    exactly when the student is in the group of the lesson and had no record
    for it; a second run creates nothing and leaves the store as the first
    run left it. *)
Theorem reconciler_idempotent (user : User.t) (st : Store) :
  wf_store st ->
  User.is_superuser user = true ->
  exists created : list Attendance.t,
    fst (create_missing_attendance_records user POST st)
    = RecordsCreated (List.length created)
    /\ attendances (snd (create_missing_attendance_records user POST st))
       = attendances st ++ created
    /\ lessons (snd (create_missing_attendance_records user POST st)) = lessons st
    /\ students (snd (create_missing_attendance_records user POST st)) = students st
    /\ Forall is_default created
    /\ NoDup (map attendance_key created)
    /\ (forall i j, In (i, j) (map attendance_key created) ->
          exists l s, In l (lessons st) /\ In s (students st)
                      /\ i = Lesson.id l /\ j = Student.id s)
    /\ (forall l s, In l (lessons st) -> In s (students st) ->
          (In (Lesson.id l, Student.id s) (map attendance_key created)
           <->
           Student.group s = Lesson.group l
           /\ ~ In (Lesson.id l, Student.id s) (map attendance_key (attendances st))))
    /\ create_missing_attendance_records user POST
         (snd (create_missing_attendance_records user POST st))
       = (RecordsCreated 0, snd (create_missing_attendance_records user POST st)).
Proof.
  intros Hwf Hsuper.
  pose proof (wf_lessons Hwf) as Hids. pose proof (wf_students Hwf) as Hst.
  pose proof (all_lessons_NoDup st Hids) as Hls.
  exists (number_from (attendance_seq st) (missing_rows st (all_lessons st))).
  unfold create_missing_attendance_records. rewrite Hsuper. simpl negb. cbv iota.
  rewrite (create_missing_closed (all_lessons st) 0%nat st Hls Hst).
  cbn [fst snd]. rewrite number_from_length, number_from_key.
  split; [reflexivity|]. split; [reflexivity|]. split; [reflexivity|].
  split; [reflexivity|].
  split; [apply Forall_forall; intros a; apply missing_rows_default|].
  split; [now apply missing_rows_NoDup|].
  split; [|split].
  - intros i j Hin. apply missing_rows_key in Hin.
    destruct Hin as [l [s [Hl [Hs [-> ->]]]]]. apply all_lessons_In in Hl.
    apply students_without_attendance_spec in Hs. exists l, s. tauto.
  - intros l s Hl Hs. rewrite missing_rows_key. split.
    + intros [l' [s' [Hl' [Hs' [Hi Hj]]]]]. apply all_lessons_In in Hl'.
      apply students_without_attendance_spec in Hs'. destruct Hs' as [Hs' [Hg Hnew]].
      assert (l' = l) by (apply (NoDup_map_eq Lesson.id (lessons st)); auto).
      assert (s' = s) by (apply (NoDup_map_eq Student.id (students st)); auto).
      subst. auto.
    + intros [Hg Hnew]. exists l, s. split; [now apply all_lessons_In|].
      repeat split; try assumption.
      apply students_without_attendance_spec. auto.
  - change (all_lessons (add_rows st (missing_rows st (all_lessons st))))
      with (all_lessons st).
    rewrite (create_missing_closed (all_lessons st) 0%nat
               (add_rows st (missing_rows st (all_lessons st))) Hls Hst).
    rewrite missing_rows_after, add_rows_nil. reflexivity.
Qed.

Lemma school_after_join_wf : wf_store school_after_join.
Proof.
  constructor;
    [nodup_concrete | nodup_concrete | nodup_concrete | nodup_concrete
     | each_row | each_row | each_row].
Qed.

Lemma reconciler_idempotent_witness :
  exists created : list Attendance.t,
    fst (create_missing_attendance_records admin POST school_after_join)
    = RecordsCreated (List.length created)
    /\ attendances (snd (create_missing_attendance_records admin POST school_after_join))
       = attendances school_after_join ++ created
    /\ lessons (snd (create_missing_attendance_records admin POST school_after_join))
       = lessons school_after_join
    /\ students (snd (create_missing_attendance_records admin POST school_after_join))
       = students school_after_join
    /\ Forall is_default created
    /\ NoDup (map attendance_key created)
    /\ (forall i j, In (i, j) (map attendance_key created) ->
          exists l s, In l (lessons school_after_join) /\ In s (students school_after_join)
                      /\ i = Lesson.id l /\ j = Student.id s)
    /\ (forall l s, In l (lessons school_after_join) -> In s (students school_after_join) ->
          (In (Lesson.id l, Student.id s) (map attendance_key created)
           <->
           Student.group s = Lesson.group l
           /\ ~ In (Lesson.id l, Student.id s)
                   (map attendance_key (attendances school_after_join))))
    /\ create_missing_attendance_records admin POST
         (snd (create_missing_attendance_records admin POST school_after_join))
       = (RecordsCreated 0,
          snd (create_missing_attendance_records admin POST school_after_join)).
Proof.
  apply (reconciler_idempotent admin school_after_join school_after_join_wf).
  reflexivity.
Defined.

(** In the school that the fourth student joined, the first run writes the
    one record that is missing, and the second run writes none. *)
Lemma reconciler_example :
  create_missing_attendance_records admin POST school_after_join
  = (RecordsCreated 1,
     add_rows school_after_join [new_Attendance 1 4 false false None])
  /\ create_missing_attendance_records admin POST
       (add_rows school_after_join [new_Attendance 1 4 false false None])
     = (RecordsCreated 0,
        add_rows school_after_join [new_Attendance 1 4 false false None]).
Proof. split; reflexivity. Qed.

(** ** A lesson and the schedule it was generated from (C4) *)

Lemma fan_out_tables (l : Lesson.t) (g : Z) (st st' : Store) (resp : Response) :
  fan_out l g st = (resp, st') ->
  lessons st' = lessons st /\ schedules st' = schedules st.
Proof.
  unfold fan_out, bulk_create.
  destruct (default_records _ _) as [|a batch].
  - intros H. inversion H. auto.
  - destruct (batch_unique _ _); intros H; inversion H; auto.
Qed.

(** What a view that answers [LessonCreated] for a schedule has done. *)
Lemma created_from_schedule (user : User.t) (sid : Z) (form : LessonForm.t)
    (st st1 : Store) (L : Lesson.t) (n : nat) :
  (LessonForm.lesson_type form = Some "from_schedule"%string
   /\ LessonForm.schedule_id form = Value sid
   /\ add_lesson user POST form st = (LessonCreated L n, st1))
  \/ create_lesson_from_schedule user POST sid form st = (LessonCreated L n, st1) ->
  exists s d st0,
    get_schedule st sid = Some s
    /\ LessonForm.date form = Value d
    /\ Lesson_create st (lesson_of_schedule s d (LessonForm.classroom form)
                           (LessonForm.notes form)) = Ok (L, st0)
    /\ lessons st1 = lessons st0 /\ schedules st1 = schedules st0.
Proof.
  intros [[Htype [Hsid H]]|H].
  - unfold add_lesson in H.
    destruct (teacher_of st user) as [teacher|]; [|discriminate].
    destruct (LessonForm.date form) as [| |d]; try discriminate.
    rewrite Htype in H. simpl in H. unfold add_lesson_from_schedule in H.
    rewrite Hsid in H. simpl in H.
    destruct (get_schedule st sid) as [s|]; [|discriminate].
    destruct (negb (works_with _ _)); [discriminate|].
    destruct (negb (weekday d =? _)); [discriminate|].
    destruct (first _); [discriminate|].
    destruct (Lesson_create st _) as [[lesson st0]|e] eqn:Hcreate; [|discriminate].
    destruct (fan_out_response lesson (Lesson.group lesson) st0)
      as [[n' [st' Hf]]|[e Hf]]; rewrite Hf in H; inversion H; subst.
    exists s, d, st0. apply fan_out_tables in Hf. tauto.
  - unfold create_lesson_from_schedule in H.
    destruct (get_schedule st sid) as [s|]; [|discriminate].
    destruct (refused st user s); [discriminate|].
    destruct (LessonForm.date form) as [| |d]; try discriminate.
    destruct (negb (weekday d =? _)); [discriminate|].
    destruct (first _); [discriminate|].
    destruct (Lesson_create st _) as [[lesson st0]|e] eqn:Hcreate; [|discriminate].
    destruct (fan_out_response lesson (Schedule.group s) st0)
      as [[n' [st' Hf]]|[e Hf]]; rewrite Hf in H; inversion H; subst.
    exists s, d, st0. apply fan_out_tables in Hf. tauto.
Qed.

Lemma classroom_or_kept (classroom : string) (s : Schedule.t) :
  (if negb (truthy_opt (classroom_or classroom s))
   then Schedule.classroom s else classroom_or classroom s)
  = classroom_or classroom s.
Proof.
  unfold classroom_or. destruct (truthy classroom) eqn:E; simpl.
  - now rewrite E.
  - now destruct (negb (truthy_opt (Schedule.classroom s))).
Qed.

Lemma find_replaced (sid : Z) (s' : Schedule.t) (rows : list Schedule.t) :
  Schedule.id s' = sid ->
  (exists s, find (fun r => Schedule.id r =? sid) rows = Some s) ->
  find (fun r => Schedule.id r =? sid)
       (map (fun r => if Schedule.id r =? Schedule.id s' then s' else r) rows)
  = Some s'.
Proof.
  intros Hid. rewrite Hid. induction rows as [|r rows IH]; simpl.
  - intros [s H]. discriminate.
  - destruct (Schedule.id r =? sid) eqn:E.
    + intros _. now rewrite Hid, Z.eqb_refl.
    + rewrite E. exact IH.
Qed.

Lemma Schedule_save_ok (st st2 : Store) (s' : Schedule.t) :
  Schedule_save st s' = Ok st2 ->
  lessons st2 = lessons st /\ attendances st2 = attendances st
  /\ schedules st2
     = map (fun r => if Schedule.id r =? Schedule.id s' then s' else r) (schedules st).
Proof.
  unfold Schedule_save, bind. destruct (Schedule_clean st s'); [|discriminate].
  destruct (existsb _ _); [discriminate|].
  intros H. inversion H. simpl. auto.
Qed.

Lemma map_unchanged {A : Type} (f : A -> A) (l : list A) :
  (forall x, In x l -> f x = x) -> map f l = l.
Proof.
  induction l as [|a l IH]; simpl; intros H; [reflexivity|].
  rewrite (H a) by now left. f_equal. apply IH. intros x Hx. apply H. now right.
Qed.

(** C4, as the specification states it, fails: the lesson of the Monday is
    generated from the schedule at 09:00, the schedule is moved to 11:00, and
    the lesson is saved again; the row of the lesson now starts at 11:00, so
    the lesson as it was stored is no longer in the table. *)
Lemma resaved_lesson_is_recopied :
  ~ (forall (user : User.t) (sid : Z) (form : LessonForm.t) (st st1 st2 st3 : Store)
            (L : Lesson.t) (n : nat) (s' : Schedule.t),
        create_lesson_from_schedule user POST sid form st = (LessonCreated L n, st1) ->
        Schedule.id s' = sid ->
        Schedule_save st1 s' = Ok st2 ->
        Lesson_save st2 L = Ok st3 ->
        In L (lessons st3)).
Proof.
  intros H.
  specialize (H teacher_user 1 (from_schedule_form 1 monday) new_school
                after_creation after_move after_resave first_lesson 2%nat maths_moved
                eq_refl eq_refl eq_refl eq_refl).
  simpl in H. destruct H as [H|[]]. discriminate H.
Qed.

(** C4, amended: the lesson that a view generates from a schedule has the
    subject, group, teacher and times of the schedule and the classroom that
    was posted, or the schedule's if none was; an edit of the schedule leaves
    the stored lesson as it was; when the lesson is saved again it takes the
    subject, group, teacher and times of the schedule as it is then (and the
    classroom, if the lesson has none). *)
Theorem lesson_copies_schedule_on_save (user : User.t) (sid : Z) (form : LessonForm.t)
    (st st1 st2 : Store) (L : Lesson.t) (n : nat) (s' : Schedule.t) :
  wf_store st ->
  (LessonForm.lesson_type form = Some "from_schedule"%string
   /\ LessonForm.schedule_id form = Value sid
   /\ add_lesson user POST form st = (LessonCreated L n, st1))
  \/ create_lesson_from_schedule user POST sid form st = (LessonCreated L n, st1) ->
  Schedule.id s' = sid ->
  Schedule_save st1 s' = Ok st2 ->
  exists s d,
    get_schedule st sid = Some s
    /\ LessonForm.date form = Value d
    /\ L = Lesson.mk (lesson_seq st) (Some sid) (Schedule.subject s) d
                     (Schedule.group s) (Some (Schedule.teacher s))
                     (classroom_or (LessonForm.classroom form) s)
                     (Some (Schedule.start_time s)) (Some (Schedule.end_time s))
                     true (LessonForm.notes form)
    /\ lessons st1 = lessons st ++ [L]
    /\ lessons st2 = lessons st ++ [L]
    /\ (forall st3, Lesson_save st2 L = Ok st3 ->
          lessons st3
          = lessons st ++
            [Lesson.mk (lesson_seq st) (Some sid) (Schedule.subject s') d
                       (Schedule.group s') (Some (Schedule.teacher s'))
                       (if truthy_opt (Lesson.classroom L)
                        then Lesson.classroom L else Schedule.classroom s')
                       (Some (Schedule.start_time s')) (Some (Schedule.end_time s'))
                       true (LessonForm.notes form)]).
Proof.
  intros Hwf Hview Hid' Hsave.
  destruct (created_from_schedule user sid form st st1 L n Hview)
    as [s [d [st0 [Hget [Hdate [Hcreate [Hles Hsch]]]]]]].
  destruct (get_schedule_some st sid s Hget) as [_ Hsid].
  destruct (Lesson_create_ok st st0 _ L Hcreate) as [HidL [Hst0 [l1 [Hcopy HL]]]].
  unfold Lesson_copy_schedule in Hcopy. simpl in Hcopy.
  rewrite Hsid, Hget in Hcopy. inversion Hcopy as [Hl1]. clear Hcopy.
  unfold take_schedule_fields in Hl1. simpl in Hl1. rewrite classroom_or_kept in Hl1.
  subst l1. unfold Lesson_with_id in HL. simpl in HL. rewrite Hsid in HL.
  assert (Hles1 : lessons st1 = lessons st ++ [L]) by (rewrite Hles, Hst0; reflexivity).
  destruct (Schedule_save_ok st1 st2 s' Hsave) as [Hles2 [_ Hsch2]].
  exists s, d. split; [exact Hget|]. split; [exact Hdate|]. split; [exact HL|].
  split; [exact Hles1|]. split; [congruence|].
  intros st3 Hresave. unfold Lesson_save, bind in Hresave.
  assert (Hget2 : get_schedule st2 sid = Some s').
  { unfold get_schedule. rewrite Hsch2. apply find_replaced; [exact Hid'|].
    exists s. rewrite Hsch, Hst0. exact Hget. }
  assert (Hcopy2 : Lesson_copy_schedule st2 L = Ok (take_schedule_fields L s')).
  { assert (Hs : Lesson.schedule L = Some sid) by (rewrite HL; reflexivity).
    assert (Hf : Lesson.is_from_schedule L = true) by (rewrite HL; reflexivity).
    unfold Lesson_copy_schedule. now rewrite Hs, Hget2, Hf. }
  rewrite Hcopy2 in Hresave.
  destruct (Lesson_clean _); [|discriminate].
  destruct (existsb _ _); [discriminate|].
  inversion Hresave. simpl. rewrite Hles2, Hles1, map_app. simpl.
  rewrite Z.eqb_refl. rewrite map_unchanged.
  - f_equal. f_equal. unfold take_schedule_fields. rewrite HL. simpl.
    now destruct (truthy_opt (classroom_or (LessonForm.classroom form) s)).
  - intros r Hr. apply (wf_lesson_seq Hwf) in Hr.
    destruct (Lesson.id r =? Lesson.id L) eqn:E; [|reflexivity].
    apply Z.eqb_eq in E. lia.
Qed.

Lemma lesson_copies_schedule_on_save_witness :
  exists s d,
    get_schedule new_school 1 = Some s
    /\ LessonForm.date (from_schedule_form 1 monday) = Value d
    /\ first_lesson
       = Lesson.mk (lesson_seq new_school) (Some 1) (Schedule.subject s) d
                   (Schedule.group s) (Some (Schedule.teacher s))
                   (classroom_or (LessonForm.classroom (from_schedule_form 1 monday)) s)
                   (Some (Schedule.start_time s)) (Some (Schedule.end_time s))
                   true (LessonForm.notes (from_schedule_form 1 monday))
    /\ lessons after_creation = lessons new_school ++ [first_lesson]
    /\ lessons after_move = lessons new_school ++ [first_lesson]
    /\ (forall st3, Lesson_save after_move first_lesson = Ok st3 ->
          lessons st3
          = lessons new_school ++
            [Lesson.mk (lesson_seq new_school) (Some 1) (Schedule.subject maths_moved) d
                       (Schedule.group maths_moved) (Some (Schedule.teacher maths_moved))
                       (if truthy_opt (Lesson.classroom first_lesson)
                        then Lesson.classroom first_lesson
                        else Schedule.classroom maths_moved)
                       (Some (Schedule.start_time maths_moved))
                       (Some (Schedule.end_time maths_moved))
                       true (LessonForm.notes (from_schedule_form 1 monday))]).
Proof.
  apply (lesson_copies_schedule_on_save teacher_user 1 (from_schedule_form 1 monday)
           new_school after_creation after_move first_lesson 2%nat maths_moved
           new_school_wf).
  - right. reflexivity.
  - reflexivity.
  - reflexivity.
Defined.

(** The three steps in the small school. *)
Lemma lesson_copies_schedule_example :
  create_lesson_from_schedule teacher_user POST 1 (from_schedule_form 1 monday) new_school
  = (LessonCreated first_lesson 2, after_creation)
  /\ Schedule_save after_creation maths_moved = Ok after_move
  /\ lessons after_move = [first_lesson]
  /\ Lesson_save after_move first_lesson = Ok after_resave
  /\ map Lesson.start_time (lessons after_resave) = [Some (hm 11 0)].
Proof. repeat split; reflexivity. Qed.

(** ** Attendance records: what the model refuses (C5, C6) *)

Lemma Attendance_clean_grade (a : Attendance.t) (g : Z) :
  Attendance.grade a = Some g ->
  g < 2 \/ 5 < g ->
  Attendance_clean a = Raise (ValidationError "grade must be between 2 and 5").
Proof.
  intros Hg Hrange. unfold Attendance_clean. rewrite Hg.
  replace ((g <? 2) || (g >? 5)) with true; [reflexivity|].
  symmetry. apply orb_true_iff. rewrite Z.ltb_lt, Z.gtb_ltb, Z.ltb_lt. exact Hrange.
Qed.

Lemma Attendance_clean_late (a : Attendance.t) :
  Attendance.attended a = false ->
  Attendance.late a = true ->
  exists msg, Attendance_clean a = Raise (ValidationError msg).
Proof.
  intros Ha Hl. unfold Attendance_clean. rewrite Ha, Hl. simpl.
  destruct (Attendance.grade a) as [g|]; [|eauto].
  destruct ((g <? 2) || (g >? 5)); eauto.
Qed.

Lemma Attendance_clean_ok (a : Attendance.t) :
  Attendance_clean a = Ok tt <->
  match Attendance.grade a with
  | Some g => 2 <= g <= 5
  | None => True
  end
  /\ (Attendance.attended a = false -> Attendance.late a = false).
Proof.
  unfold Attendance_clean.
  assert (Hlate : (if negb (Attendance.attended a) && Attendance.late a
                   then Raise (ValidationError "a student who was absent cannot be late")
                   else Ok tt) = Ok tt
                  <-> (Attendance.attended a = false -> Attendance.late a = false)).
  { destruct (Attendance.attended a), (Attendance.late a); simpl; split;
      try discriminate; try reflexivity; try congruence.
    intros H. discriminate (H eq_refl). }
  destruct (Attendance.grade a) as [g|].
  - destruct ((g <? 2) || (g >? 5)) eqn:E.
    + apply orb_true_iff in E. rewrite Z.ltb_lt, Z.gtb_ltb, Z.ltb_lt in E.
      split; [discriminate | intros [H _]; lia].
    + apply orb_false_iff in E. rewrite Z.ltb_ge, Z.gtb_ltb, Z.ltb_ge in E.
      rewrite Hlate. split; [intros H; split; [lia | exact H] | tauto].
  - rewrite Hlate. tauto.
Qed.

(** What the view writes always passes [clean]. *)
Lemma written_is_clean (i lesson student : Z) (e : Entry.t) :
  Attendance_clean
    (Attendance.mk i lesson student (Entry.attended e)
       (if negb (Entry.attended e) then false else Entry.late e)
       (posted_grade (Entry.grade e)))
  = Ok tt.
Proof.
  apply Attendance_clean_ok. simpl. split.
  - unfold posted_grade. destruct (Entry.grade e) as [| |g]; try exact I.
    destruct ((g <? 2) || (g >? 5)) eqn:E; [exact I|].
    apply orb_false_iff in E. rewrite Z.ltb_ge, Z.gtb_ltb, Z.ltb_ge in E. lia.
  - intros ->. reflexivity.
Qed.

Lemma late_normalised (e : Entry.t) :
  (if negb (Entry.attended e) then false else Entry.late e)
  = Entry.attended e && Entry.late e.
Proof. now destruct (Entry.attended e). Qed.

(** ** The order of the lessons in [edit_attendance] *)

Lemma insert_by_date_perm (l : Lesson.t) (sorted : list Lesson.t) :
  Permutation (insert_by_date l sorted) (l :: sorted).
Proof.
  induction sorted as [|x rest IH]; simpl; [reflexivity|].
  destruct (Lesson.date x <=? Lesson.date l); [reflexivity|].
  rewrite IH. apply perm_swap.
Qed.

Lemma order_by_date_desc_perm (ls : list Lesson.t) :
  Permutation (order_by_date_desc ls) ls.
Proof.
  induction ls as [|l ls IH]; simpl; [reflexivity|].
  rewrite insert_by_date_perm. now constructor.
Qed.

Lemma lessons_of_group_In (st : Store) (g : Z) (l : Lesson.t) :
  In l (lessons_of_group st g) <-> In l (lessons st) /\ Lesson.group l = g.
Proof.
  unfold lessons_of_group. split.
  - intros H. apply (Permutation_in _ (order_by_date_desc_perm _)) in H.
    apply filter_In in H. rewrite Z.eqb_eq in H. exact H.
  - intros H. apply (Permutation_in _ (Permutation_sym (order_by_date_desc_perm _))).
    apply filter_In. now rewrite Z.eqb_eq.
Qed.

Lemma lessons_of_group_NoDup (st : Store) (g : Z) :
  NoDup (map Lesson.id (lessons st)) ->
  NoDup (map Lesson.id (lessons_of_group st g)).
Proof.
  intros H. unfold lessons_of_group.
  apply (Permutation_NoDup
           (Permutation_sym (Permutation_map Lesson.id (order_by_date_desc_perm _)))).
  now apply filter_keeps_distinct.
Qed.

(** ** The loop of [edit_attendance] *)

Lemma records_dict_agrees (st : Store) (student lesson : Z) :
  agrees (records_dict (records_of st student)) st student lesson.
Proof.
  unfold agrees, records_dict, records_of.
  destruct (find _ _) as [a0|] eqn:Hfind.
  - apply find_some in Hfind. destruct Hfind as [Hin Hl].
    apply in_rev in Hin. apply filter_In in Hin. destruct Hin as [Hin Hs].
    apply Z.eqb_eq in Hl. apply Z.eqb_eq in Hs.
    split; [exact Hin|]. unfold attendance_key. congruence.
  - intros a Ha Hkey. unfold attendance_key in Hkey. inversion Hkey.
    assert (Hin : In a (rev (filter (fun a => Attendance.student a =? student)
                                    (attendances st)))).
    { apply in_rev. rewrite rev_involutive. apply filter_In.
      split; [exact Ha | now apply Z.eqb_eq]. }
    apply (find_none _ _ Hfind) in Hin. apply Z.eqb_neq in Hin. contradiction.
Qed.

Lemma wf_table_ok (st : Store) : wf_store st -> table_ok st.
Proof.
  intros Hwf. split; [apply (wf_attendances Hwf)|].
  split; [apply (wf_unique Hwf) | apply (wf_attendance_seq Hwf)].
Qed.

(** Rewriting the row of a record whose key does not change. *)
Section Rewrite_row.

Variable rows : list Attendance.t.
Variables a0 a0' : Attendance.t.
Hypothesis ids : NoDup (map Attendance.id rows).
Hypothesis keys : NoDup (map attendance_key rows).
Hypothesis present : In a0 rows.
Hypothesis same_id : Attendance.id a0' = Attendance.id a0.
Hypothesis same_key : attendance_key a0' = attendance_key a0.

Let rewrite_row (r : Attendance.t) : Attendance.t :=
  if Attendance.id r =? Attendance.id a0' then a0' else r.

Lemma rewrite_row_id : map Attendance.id (map rewrite_row rows) = map Attendance.id rows.
Proof.
  rewrite map_map. apply map_ext. intros r. unfold rewrite_row.
  destruct (Attendance.id r =? Attendance.id a0') eqn:E; [|reflexivity].
  apply Z.eqb_eq in E. congruence.
Qed.

Lemma rewrite_row_key :
  map attendance_key (map rewrite_row rows) = map attendance_key rows.
Proof.
  rewrite map_map. apply map_ext_in. intros r Hr. unfold rewrite_row.
  destruct (Attendance.id r =? Attendance.id a0') eqn:E; [|reflexivity].
  apply Z.eqb_eq in E.
  assert (r = a0) by (apply (NoDup_map_eq Attendance.id rows); congruence).
  congruence.
Qed.

Lemma rewrite_row_In : In a0' (map rewrite_row rows).
Proof.
  apply in_map_iff. exists a0. split; [|exact present].
  unfold rewrite_row. now rewrite same_id, Z.eqb_refl.
Qed.

Lemma rewrite_row_frame (a : Attendance.t) :
  attendance_key a <> attendance_key a0 ->
  (In a (map rewrite_row rows) <-> In a rows).
Proof.
  intros Hkey. rewrite in_map_iff. split.
  - intros [r [Hr Hin]]. unfold rewrite_row in Hr.
    destruct (Attendance.id r =? Attendance.id a0'); congruence.
  - intros Hin. exists a. split; [|exact Hin]. unfold rewrite_row.
    destruct (Attendance.id a =? Attendance.id a0') eqn:E; [|reflexivity].
    apply Z.eqb_eq in E. exfalso. apply Hkey.
    f_equal. apply (NoDup_map_eq Attendance.id rows); congruence.
Qed.

Lemma rewrite_row_unique :
  existsb (fun r => negb (Attendance.id r =? Attendance.id a0')
                    && Attendance_same_key a0' r) rows = false.
Proof.
  destruct (existsb _ rows) eqn:E; [|reflexivity]. exfalso.
  apply existsb_exists in E. destruct E as [r [Hr H]].
  apply andb_true_iff in H. destruct H as [Hid Hkey].
  apply negb_true_iff in Hid. apply Z.eqb_neq in Hid. apply same_key_spec in Hkey.
  apply Hid. rewrite same_id. f_equal.
  apply (NoDup_map_eq attendance_key rows); congruence.
Qed.

End Rewrite_row.

(** One turn of the loop: the record of the lesson and the student holds
    the posted values afterwards, and no other record is touched. *)
Lemma edit_entry_step (student : Student.t) (dict : Z -> option Attendance.t)
    (form : Z -> Entry.t) (l : Lesson.t) (c : bool) (st : Store) :
  table_ok st ->
  agrees dict st (Student.id student) (Lesson.id l) ->
  exists c' st',
    edit_entry student dict form l c st = Ok (c', st')
    /\ table_ok st'
    /\ (exists a, In a (attendances st')
                  /\ attendance_key a = (Lesson.id l, Student.id student)
                  /\ values a = written (form (Lesson.id l)))
    /\ (forall a, attendance_key a <> (Lesson.id l, Student.id student) ->
                  (In a (attendances st') <-> In a (attendances st))).
Proof.
  intros [Hids [Hkeys Hseq]] Hagree. unfold agrees in Hagree. unfold edit_entry.
  set (e := form (Lesson.id l)) in *.
  destruct (dict (Lesson.id l)) as [a0|].
  - destruct Hagree as [Hin Hkey].
    destruct (negb (Bool.eqb (Attendance.attended a0) (Entry.attended e))
              || negb (Bool.eqb (Attendance.late a0)
                         (if negb (Entry.attended e) then false else Entry.late e))
              || negb (eqb_opt (Attendance.grade a0) (posted_grade (Entry.grade e))))
      eqn:Hdiff.
    + unfold Attendance_save, bind. rewrite written_is_clean.
      set (a0' := Attendance.mk (Attendance.id a0) (Attendance.lesson a0)
                    (Attendance.student a0) (Entry.attended e)
                    (if negb (Entry.attended e) then false else Entry.late e)
                    (posted_grade (Entry.grade e))).
      rewrite (rewrite_row_unique (attendances st) a0 a0' Hkeys Hin eq_refl eq_refl).
      eexists. eexists. split; [reflexivity|].
      unfold table_ok, with_attendances. cbn [attendances attendance_seq].
      split; [|split].
      * split; [|split].
        -- now rewrite (rewrite_row_id (attendances st) a0').
        -- now rewrite (rewrite_row_key (attendances st) a0 a0' Hids Hin eq_refl eq_refl).
        -- intros a Ha. apply in_map_iff in Ha. destruct Ha as [r [Hr Hinr]].
           destruct (Attendance.id r =? Attendance.id a0'); subst a.
           ++ unfold a0'. cbn [Attendance.id]. now apply Hseq.
           ++ now apply Hseq.
      * exists a0'. split; [apply (rewrite_row_In (attendances st) a0 a0' Hin eq_refl)|].
        split; [exact Hkey|]. unfold values, written, a0'. cbn.
        now rewrite late_normalised.
      * intros a Ha.
        apply (rewrite_row_frame (attendances st) a0 a0' Hids Hin eq_refl eq_refl a).
        congruence.
    + exists c, st. split; [reflexivity|]. split; [now repeat split|]. split.
      * exists a0. split; [exact Hin|]. split; [exact Hkey|].
        apply orb_false_iff in Hdiff. destruct Hdiff as [Hdiff Hg].
        apply orb_false_iff in Hdiff. destruct Hdiff as [Ha Hl].
        apply negb_false_iff in Ha, Hl, Hg.
        apply Bool.eqb_prop in Ha, Hl.
        unfold values, written. rewrite Ha, Hl, late_normalised. do 2 f_equal.
        destruct (Attendance.grade a0) as [x|], (posted_grade (Entry.grade e)) as [y|];
          simpl in Hg; try discriminate; try reflexivity.
        apply Z.eqb_eq in Hg. now subst.
      * tauto.
  - unfold Attendance_create, bind, new_Attendance. rewrite written_is_clean.
    set (a := Attendance.mk 0 (Lesson.id l) (Student.id student) (Entry.attended e)
                (if negb (Entry.attended e) then false else Entry.late e)
                (posted_grade (Entry.grade e))).
    assert (Hnew : ~ In (attendance_key a) (map attendance_key (attendances st))).
    { intros H. apply in_map_iff in H. destruct H as [r [Hr Hinr]].
      apply (Hagree r Hinr). exact Hr. }
    replace (existsb (Attendance_same_key a) (attendances st)) with false
      by (symmetry; apply not_true_is_false; now rewrite existsb_same_key).
    eexists. eexists. split; [reflexivity|].
    unfold table_ok, with_attendances. cbn [attendances attendance_seq].
    split; [|split].
    + split; [|split].
      * rewrite map_app. apply NoDup_app; [exact Hids | nodup_concrete |].
        intros i Hi [<-|[]]. apply in_map_iff in Hi. destruct Hi as [r [Hr Hinr]].
        apply Hseq in Hinr. cbn in Hr. lia.
      * rewrite map_app. apply NoDup_app; [exact Hkeys | nodup_concrete |].
        intros k Hk [<-|[]]. exact (Hnew Hk).
      * intros r Hr. apply in_app_or in Hr. destruct Hr as [Hr|[<-|[]]].
        -- apply Hseq in Hr. lia.
        -- cbn. lia.
    + exists (Attendance_with_id (attendance_seq st) a).
      split; [apply in_or_app; right; now left|].
      split; [reflexivity|]. unfold values, written. cbn. now rewrite late_normalised.
    + intros r Hr. split.
      * intros H. apply in_app_or in H. destruct H as [H|[<-|[]]]; [exact H|].
        exfalso. apply Hr. reflexivity.
      * intros H. apply in_or_app. now left.
Qed.

(** The whole loop over lessons with distinct ids. *)
Lemma edit_entries_all (student : Student.t) (dict : Z -> option Attendance.t)
    (form : Z -> Entry.t) (ls : list Lesson.t) :
  NoDup (map Lesson.id ls) ->
  forall (c : bool) (st : Store),
    table_ok st ->
    (forall l, In l ls -> agrees dict st (Student.id student) (Lesson.id l)) ->
    exists c' st',
      edit_entries student dict form ls c st = (AttendanceUpdated c', st')
      /\ table_ok st'
      /\ (forall l, In l ls ->
            exists a, In a (attendances st')
                      /\ attendance_key a = (Lesson.id l, Student.id student)
                      /\ values a = written (form (Lesson.id l)))
      /\ (forall a, (forall l, In l ls ->
                       attendance_key a <> (Lesson.id l, Student.id student)) ->
                    (In a (attendances st') <-> In a (attendances st))).
Proof.
  induction ls as [|l ls IH]; intros Hnd c st Hok Hagree.
  - exists c, st. simpl. split; [reflexivity|]. split; [exact Hok|].
    split; [contradiction | tauto].
  - inversion Hnd as [|? ? Hnotin Hrest]; subst.
    destruct (edit_entry_step student dict form l c st Hok (Hagree l (or_introl eq_refl)))
      as [c1 [st1 [Hstep [Hok1 [Hrow Hframe]]]]].
    assert (Hother : forall l', In l' ls ->
                       (Lesson.id l', Student.id student)
                       <> (Lesson.id l, Student.id student)).
    { intros l' Hl' Heq. inversion Heq as [Hid]. apply Hnotin. rewrite <- Hid.
      now apply in_map. }
    assert (Hagree1 : forall l', In l' ls ->
                        agrees dict st1 (Student.id student) (Lesson.id l')).
    { intros l' Hl'. specialize (Hagree l' (or_intror Hl')). unfold agrees in *.
      destruct (dict (Lesson.id l')) as [a0|].
      - destruct Hagree as [Hin Hkey]. split; [|exact Hkey].
        apply Hframe; [|exact Hin]. rewrite Hkey. now apply Hother.
      - intros a Ha Hkey. apply (Hagree a); [|exact Hkey].
        apply Hframe; [|exact Ha]. rewrite Hkey. now apply Hother. }
    destruct (IH Hrest c1 st1 Hok1 Hagree1) as [c' [st' [Hloop [Hok' [Hrows Hframe']]]]].
    exists c', st'. cbn [edit_entries]. rewrite Hstep. split; [exact Hloop|].
    split; [exact Hok'|]. split.
    + intros l' [<-|Hl']; [|now apply Hrows].
      destruct Hrow as [a [Ha [Hkey Hval]]]. exists a. split; [|auto].
      apply Hframe'; [|exact Ha]. intros l' Hl'. rewrite Hkey.
      intros Heq. symmetry in Heq. exact (Hother l' Hl' Heq).
    + intros a Ha. rewrite Hframe'.
      * apply Hframe. apply Ha. now left.
      * intros l' Hl'. apply Ha. now right.
Qed.

(** [edit_attendance] never refuses what an editor with access posts: for
    every lesson of the student's group, the one record of the lesson and
    the student holds afterwards [attended] as posted, [late] only if
    [attended] was posted too, and the posted grade if it is from 2 to 5, no
    grade otherwise. *)
Lemma edit_attendance_writes (user : User.t) (student_id : Z) (student : Student.t)
    (form : Z -> Entry.t) (st : Store) :
  wf_store st ->
  get_student st student_id = Some student ->
  has_access st user student = true ->
  exists c st',
    edit_attendance user POST student_id form st = (AttendanceUpdated c, st')
    /\ forall l, In l (lessons st) -> Lesson.group l = Student.group student ->
         exists a, In a (attendances st')
                   /\ attendance_key a = (Lesson.id l, Student.id student)
                   /\ values a = written (form (Lesson.id l))
                   /\ (forall a', In a' (attendances st') ->
                                  attendance_key a' = attendance_key a -> a' = a).
Proof.
  intros Hwf Hget Haccess. unfold edit_attendance. rewrite Hget, Haccess. simpl negb.
  cbv iota.
  destruct (edit_entries_all student
              (records_dict (records_of st (Student.id student))) form
              (lessons_of_group st (Student.group student))
              (lessons_of_group_NoDup st _ (wf_lessons Hwf))
              false st (wf_table_ok st Hwf)
              (fun l _ => records_dict_agrees st (Student.id student) (Lesson.id l)))
    as [c [st' [Hrun [[_ [Hkeys _]] [Hrows _]]]]].
  exists c, st'. split; [exact Hrun|].
  intros l Hl Hg.
  destruct (Hrows l (proj2 (lessons_of_group_In st _ l) (conj Hl Hg)))
    as [a [Ha [Hkey Hval]]].
  exists a. repeat split; try assumption.
  intros a' Ha' Hk. now apply (NoDup_map_eq attendance_key (attendances st')).
Qed.

(** ** Grades out of range (C5) *)

Lemma posted_grade_range (g : Z) :
  (2 <= g <= 5 -> posted_grade (Value g) = Some g)
  /\ (g < 2 \/ 5 < g -> posted_grade (Value g) = None).
Proof.
  unfold posted_grade. destruct ((g <? 2) || (g >? 5)) eqn:E.
  - apply orb_true_iff in E. rewrite Z.ltb_lt, Z.gtb_ltb, Z.ltb_lt in E.
    split; [lia | reflexivity].
  - apply orb_false_iff in E. rewrite Z.ltb_ge, Z.gtb_ltb, Z.ltb_ge in E.
    split; [reflexivity | lia].
Qed.

(** C5, as the specification states it, fails: the teacher posts the grade 6
    for the first student of the small school; the view answers that the
    attendance was updated, and the record of the student, which held the
    grade 4, is rewritten without a grade. *)
Lemma grade_six_is_not_rejected :
  ~ (forall (user : User.t) (student_id : Z) (student : Student.t) (form : Z -> Entry.t)
            (st : Store) (l : Lesson.t) (g : Z),
        get_student st student_id = Some student ->
        In l (lessons st) ->
        Lesson.group l = Student.group student ->
        Entry.grade (form (Lesson.id l)) = Value g ->
        g < 2 \/ 5 < g ->
        exists r, edit_attendance user POST student_id form st = (Rejected r, st)).
Proof.
  intros H.
  destruct (H teacher_user 1 (Student.mk 1 21 1) (every_lesson true true (Value 6))
              school first_lesson 6 eq_refl (or_introl eq_refl) eq_refl eq_refl)
    as [r Hr]; [right; reflexivity|].
  vm_compute in Hr. discriminate Hr.
Qed.

(** C5, amended.  [Attendance.save] refuses a grade below 2 or above 5 with a
    validation error and stores nothing, and accepts a record exactly when
    its grade is absent or from 2 to 5 and it is not late without having
    attended.  [edit_attendance] refuses no grade: for a lesson of the
    student's group it stores the posted grade if it is from 2 to 5 and no
    grade otherwise, so a grade out of range erases the stored one. *)
Theorem out_of_range_grade_is_dropped (user : User.t) (student_id : Z)
    (student : Student.t) (form : Z -> Entry.t) (st : Store) (l : Lesson.t) :
  wf_store st ->
  get_student st student_id = Some student ->
  has_access st user student = true ->
  In l (lessons st) ->
  Lesson.group l = Student.group student ->
  (exists c st',
      edit_attendance user POST student_id form st = (AttendanceUpdated c, st')
      /\ exists a, In a (attendances st')
                   /\ attendance_key a = (Lesson.id l, Student.id student)
                   /\ (forall a', In a' (attendances st') ->
                                  attendance_key a' = attendance_key a -> a' = a)
                   /\ Attendance.grade a
                      = match Entry.grade (form (Lesson.id l)) with
                        | Value g => if (g <? 2) || (g >? 5) then None else Some g
                        | _ => None
                        end)
  /\ (forall st0 a g,
         Attendance.grade a = Some g -> g < 2 \/ 5 < g ->
         Attendance_save st0 a = Raise (ValidationError "grade must be between 2 and 5")
         /\ Attendance_create st0 a
            = Raise (ValidationError "grade must be between 2 and 5"))
  /\ (forall a,
         Attendance_clean a = Ok tt <->
         match Attendance.grade a with
         | Some g => 2 <= g <= 5
         | None => True
         end
         /\ (Attendance.attended a = false -> Attendance.late a = false)).
Proof.
  intros Hwf Hget Haccess Hl Hg. split; [|split].
  - destruct (edit_attendance_writes user student_id student form st Hwf Hget Haccess)
      as [c [st' [Hrun Hrows]]].
    exists c, st'. split; [exact Hrun|].
    destruct (Hrows l Hl Hg) as [a [Ha [Hkey [Hval Huniq]]]].
    exists a. repeat split; try assumption.
    assert (Hgrade : Attendance.grade a
                     = posted_grade (Entry.grade (form (Lesson.id l))))
      by (unfold values, written in Hval; congruence).
    rewrite Hgrade. unfold posted_grade.
    now destruct (Entry.grade (form (Lesson.id l))).
  - intros st0 a g Hgrade Hrange. unfold Attendance_save, Attendance_create, bind.
    now rewrite (Attendance_clean_grade a g Hgrade Hrange).
  - exact Attendance_clean_ok.
Qed.

Lemma out_of_range_grade_is_dropped_witness :
  (exists c st',
      edit_attendance teacher_user POST 1 (every_lesson true true (Value 6)) school
      = (AttendanceUpdated c, st')
      /\ exists a, In a (attendances st')
                   /\ attendance_key a = (Lesson.id first_lesson, 1)
                   /\ (forall a', In a' (attendances st') ->
                                  attendance_key a' = attendance_key a -> a' = a)
                   /\ Attendance.grade a = None)
  /\ (forall st0 a g,
         Attendance.grade a = Some g -> g < 2 \/ 5 < g ->
         Attendance_save st0 a = Raise (ValidationError "grade must be between 2 and 5")
         /\ Attendance_create st0 a
            = Raise (ValidationError "grade must be between 2 and 5"))
  /\ (forall a,
         Attendance_clean a = Ok tt <->
         match Attendance.grade a with
         | Some g => 2 <= g <= 5
         | None => True
         end
         /\ (Attendance.attended a = false -> Attendance.late a = false)).
Proof.
  apply (out_of_range_grade_is_dropped teacher_user 1 (Student.mk 1 21 1)
           (every_lesson true true (Value 6)) school first_lesson school_wf).
  - reflexivity.
  - reflexivity.
  - simpl. left. reflexivity.
  - reflexivity.
Defined.

(** The grades 1 and 6 leave the record without a grade, the grades 2 and 5
    are stored, and the model refuses 1 and 6 and accepts 2 and 5. *)
Lemma grade_boundaries :
  map (fun g => map Attendance.grade
                    (attendances
                       (snd (edit_attendance teacher_user POST 1
                               (every_lesson true false (Value g)) school))))
      [1; 2; 5; 6]
  = [[None; None]; [Some 2; None]; [Some 5; None]; [None; None]]
  /\ map (fun g => Attendance_clean (Attendance.mk 1 1 1 true false (Some g))) [1; 2; 5; 6]
     = [Raise (ValidationError "grade must be between 2 and 5"); Ok tt; Ok tt;
        Raise (ValidationError "grade must be between 2 and 5")].
Proof. split; reflexivity. Qed.

(** ** Late without having attended (C6) *)

(** C6, as the specification states it, fails: a write of the record of the
    second student of the small school with [attended = false] and
    [late = true] is refused by [Attendance.save]; it is not stored with
    [late = false]. *)
Lemma absent_and_late_is_rejected_on_save :
  ~ (forall (st : Store) (a : Attendance.t),
        In (Attendance.id a) (map Attendance.id (attendances st)) ->
        Attendance.attended a = false ->
        Attendance.late a = true ->
        exists st', Attendance_save st a = Ok st').
Proof.
  intros H.
  destruct (H school (Attendance.mk 2 1 2 false true None)) as [st' Hst'].
  - simpl. right. left. reflexivity.
  - reflexivity.
  - reflexivity.
  - vm_compute in Hst'. discriminate Hst'.
Qed.

(** C6, amended.  In [edit_attendance] an entry without [attended] is never
    refused, whatever it posts for [late]: afterwards the one record of the
    lesson and the student has [attended = false] and [late = false].
    [Attendance.save] itself does not coerce: it refuses a record with
    [attended = false] and [late = true] with a validation error and stores
    nothing. *)
Theorem absent_is_never_late (user : User.t) (student_id : Z) (student : Student.t)
    (form : Z -> Entry.t) (st : Store) (l : Lesson.t) :
  wf_store st ->
  get_student st student_id = Some student ->
  has_access st user student = true ->
  In l (lessons st) ->
  Lesson.group l = Student.group student ->
  Entry.attended (form (Lesson.id l)) = false ->
  (exists c st',
      edit_attendance user POST student_id form st = (AttendanceUpdated c, st')
      /\ exists a, In a (attendances st')
                   /\ attendance_key a = (Lesson.id l, Student.id student)
                   /\ (forall a', In a' (attendances st') ->
                                  attendance_key a' = attendance_key a -> a' = a)
                   /\ Attendance.attended a = false
                   /\ Attendance.late a = false)
  /\ (forall st0 a,
         Attendance.attended a = false -> Attendance.late a = true ->
         exists msg,
           Attendance_save st0 a = Raise (ValidationError msg)
           /\ Attendance_create st0 a = Raise (ValidationError msg)).
Proof.
  intros Hwf Hget Haccess Hl Hg Habsent. split.
  - destruct (edit_attendance_writes user student_id student form st Hwf Hget Haccess)
      as [c [st' [Hrun Hrows]]].
    exists c, st'. split; [exact Hrun|].
    destruct (Hrows l Hl Hg) as [a [Ha [Hkey [Hval Huniq]]]].
    unfold values, written in Hval. rewrite Habsent in Hval. simpl in Hval.
    exists a. repeat split; try assumption; congruence.
  - intros st0 a Ha Hlate.
    destruct (Attendance_clean_late a Ha Hlate) as [msg Hmsg].
    exists msg. unfold Attendance_save, Attendance_create, bind. now rewrite Hmsg.
Qed.

Lemma absent_is_never_late_witness :
  (exists c st',
      edit_attendance teacher_user POST 1 (every_lesson false true Absent) school
      = (AttendanceUpdated c, st')
      /\ exists a, In a (attendances st')
                   /\ attendance_key a = (Lesson.id first_lesson, 1)
                   /\ (forall a', In a' (attendances st') ->
                                  attendance_key a' = attendance_key a -> a' = a)
                   /\ Attendance.attended a = false
                   /\ Attendance.late a = false)
  /\ (forall st0 a,
         Attendance.attended a = false -> Attendance.late a = true ->
         exists msg,
           Attendance_save st0 a = Raise (ValidationError msg)
           /\ Attendance_create st0 a = Raise (ValidationError msg)).
Proof.
  apply (absent_is_never_late teacher_user 1 (Student.mk 1 21 1)
           (every_lesson false true Absent) school first_lesson school_wf).
  - reflexivity.
  - reflexivity.
  - simpl. left. reflexivity.
  - reflexivity.
  - reflexivity.
Defined.

(** The first student of the small school was present and late; the teacher
    posts that the student was absent and late, and the record is stored as
    absent and not late, without a grade. *)
Lemma absent_and_late_example :
  edit_attendance teacher_user POST 1 (every_lesson false true Absent) school
  = (AttendanceUpdated true,
     with_attendances school
       [Attendance.mk 1 1 1 false false None; Attendance.mk 2 1 2 false false None] 3).
Proof. reflexivity. Qed.

(** ** The integrity of the store is kept by every view *)

Lemma add_rows_wf (st : Store) (batch : list Attendance.t) :
  wf_store st ->
  NoDup (map attendance_key batch) ->
  (forall a, In a batch -> ~ In (attendance_key a) (map attendance_key (attendances st))) ->
  (forall a, In a batch -> In (Attendance.lesson a) (map Lesson.id (lessons st))) ->
  wf_store (add_rows st batch).
Proof.
  intros Hwf Hkeys Hfresh Hfk. unfold add_rows.
  constructor; cbn [students lessons attendances lesson_seq attendance_seq with_attendances].
  - apply (wf_students Hwf).
  - apply (wf_lessons Hwf).
  - rewrite map_app. apply NoDup_app.
    + apply (wf_attendances Hwf).
    + apply number_from_ids.
    + intros i Hold Hnew. apply in_map_iff in Hold. destruct Hold as [a [<- Ha]].
      apply in_map_iff in Hnew. destruct Hnew as [b [Hid Hb]].
      apply number_from_In in Hb. destruct Hb as [_ [_ [_ Hrange]]].
      apply (wf_attendance_seq Hwf) in Ha. lia.
  - rewrite map_app, number_from_key. apply NoDup_app.
    + apply (wf_unique Hwf).
    + exact Hkeys.
    + intros k Hold Hnew. apply in_map_iff in Hnew. destruct Hnew as [b [<- Hb]].
      exact (Hfresh b Hb Hold).
  - intros a Ha. apply in_app_or in Ha. destruct Ha as [Ha|Ha].
    + now apply (wf_lesson_fk Hwf).
    + apply number_from_In in Ha. destruct Ha as [b [Hb [-> _]]]. simpl. now apply Hfk.
  - apply (wf_lesson_seq Hwf).
  - intros a Ha. apply in_app_or in Ha. destruct Ha as [Ha|Ha].
    + apply (wf_attendance_seq Hwf) in Ha. lia.
    + apply number_from_In in Ha. destruct Ha as [_ [_ [_ Hrange]]]. lia.
Qed.

Lemma bulk_create_wf (st st' : Store) (batch : list Attendance.t) :
  wf_store st ->
  (forall a, In a batch -> In (Attendance.lesson a) (map Lesson.id (lessons st))) ->
  bulk_create st batch = Ok st' ->
  wf_store st'.
Proof.
  intros Hwf Hfk. unfold bulk_create. destruct batch as [|b batch].
  - intros H. inversion H. now subst.
  - destruct (batch_unique (attendances st) (b :: batch)) eqn:Hu; [|discriminate].
    intros H. inversion H. apply batch_unique_spec in Hu. destruct Hu as [Hkeys Hfresh].
    now apply (add_rows_wf st (b :: batch)).
Qed.

Lemma Lesson_create_wf (st st1 : Store) (l : Lesson.t) :
  wf_store st ->
  Lesson.id l = lesson_seq st ->
  st1 = with_lessons st (lessons st ++ [l]) (lesson_seq st + 1) ->
  wf_store st1 /\ In (Lesson.id l) (map Lesson.id (lessons st1)).
Proof.
  intros Hwf Hid ->.
  split.
  - constructor;
      cbn [students lessons attendances lesson_seq attendance_seq with_lessons].
    + apply (wf_students Hwf).
    + rewrite map_app. apply NoDup_app; [apply (wf_lessons Hwf) | nodup_concrete |].
      intros i Hold [<-|[]]. apply in_map_iff in Hold. destruct Hold as [r [Hr Hin]].
      apply (wf_lesson_seq Hwf) in Hin. lia.
    + apply (wf_attendances Hwf).
    + apply (wf_unique Hwf).
    + intros a Ha. rewrite map_app. apply in_or_app. left. now apply (wf_lesson_fk Hwf).
    + intros r Hr. apply in_app_or in Hr. destruct Hr as [Hr|[<-|[]]].
      * apply (wf_lesson_seq Hwf) in Hr. lia.
      * lia.
    + apply (wf_attendance_seq Hwf).
  - simpl. rewrite map_app. apply in_or_app. right. now left.
Qed.

Lemma fan_out_wf (l : Lesson.t) (g : Z) (st : Store) :
  wf_store st ->
  In (Lesson.id l) (map Lesson.id (lessons st)) ->
  wf_store (snd (fan_out l g st)).
Proof.
  intros Hwf Hl. unfold fan_out.
  destruct (bulk_create st _) as [st'|e] eqn:Hbulk; [|exact Hwf].
  simpl.
  apply (bulk_create_wf st st' (default_records (Lesson.id l) (students_of_group st g))
           Hwf); [|exact Hbulk].
  intros a Ha. unfold default_records in Ha. apply in_map_iff in Ha.
  destruct Ha as [s [<- _]]. exact Hl.
Qed.

Lemma create_then_fan_out_wf (st : Store) (l0 : Lesson.t) (group_of : Lesson.t -> Z) :
  wf_store st ->
  wf_store (snd (match Lesson_create st l0 with
                 | Raise e => (Rejected (OperationFailed e), st)
                 | Ok (lesson, st1) => fan_out lesson (group_of lesson) st1
                 end)).
Proof.
  intros Hwf. destruct (Lesson_create st l0) as [[lesson st1]|e] eqn:Hcreate; [|exact Hwf].
  destruct (Lesson_create_ok st st1 l0 lesson Hcreate) as [Hid [Hst1 _]].
  destruct (Lesson_create_wf st st1 lesson Hwf Hid Hst1) as [Hwf1 Hin].
  now apply fan_out_wf.
Qed.

(** What the path by hand keeps: a property of the store that holds after
    the row of the lesson is written, and after the fan-out, holds after
    the request. *)
Lemma manual_path_keeps (P : Store -> Prop) (st : Store) (l0 : Lesson.t)
    (start_time end_time : option PostedTime.t) :
  P st ->
  (forall lesson st1,
      Lesson_create_posted st l0 start_time end_time = Ok (lesson, st1) ->
      P st1 /\ P (snd (fan_out lesson (Lesson.group lesson) st1))) ->
  P (snd (match Lesson_create_posted st l0 start_time end_time with
          | Raise e => (Rejected (OperationFailed e), st)
          | Ok (lesson, st1) =>
              match start_time, end_time with
              | Some _, Some _ => (Rejected (OperationFailed AttributeError), st1)
              | _, _ => fan_out lesson (Lesson.group lesson) st1
              end
          end)).
Proof.
  intros Hst Hstep.
  destruct (Lesson_create_posted st l0 start_time end_time) as [[lesson st1]|e];
    [|exact Hst].
  destruct (Hstep lesson st1 eq_refl) as [H1 H2].
  destruct start_time, end_time; first [exact H1 | exact H2].
Qed.

Lemma create_posted_then_fan_out_wf (st : Store) (l0 : Lesson.t)
    (start_time end_time : option PostedTime.t) :
  wf_store st ->
  wf_store (snd (match Lesson_create_posted st l0 start_time end_time with
                 | Raise e => (Rejected (OperationFailed e), st)
                 | Ok (lesson, st1) =>
                     match start_time, end_time with
                     | Some _, Some _ => (Rejected (OperationFailed AttributeError), st1)
                     | _, _ => fan_out lesson (Lesson.group lesson) st1
                     end
                 end)).
Proof.
  intros Hwf. apply (manual_path_keeps wf_store); [exact Hwf|].
  intros lesson st1 Hcreate.
  destruct (Lesson_create_posted_ok st st1 l0 lesson _ _ Hcreate) as [Hid [Hst1 _]].
  destruct (Lesson_create_wf st st1 lesson Hwf Hid Hst1) as [Hwf1 Hin].
  split; [exact Hwf1 | now apply fan_out_wf].
Qed.

Lemma add_lesson_wf (user : User.t) (method : http_method) (form : LessonForm.t)
    (st : Store) :
  wf_store st -> wf_store (snd (add_lesson user method form st)).
Proof.
  intros Hwf. unfold add_lesson.
  destruct (teacher_of st user) as [teacher|]; [|exact Hwf].
  destruct method; [exact Hwf|].
  destruct (LessonForm.date form) as [| |d]; [exact Hwf|exact Hwf|].
  destruct (is_from_schedule_type _).
  - unfold add_lesson_from_schedule.
    destruct (is_absent _); [exact Hwf|].
    destruct (get_object_or_404 _ _) as [schedule|e]; [|exact Hwf].
    destruct (negb (works_with _ _)); [exact Hwf|].
    destruct (negb (weekday d =? _)); [exact Hwf|].
    destruct (first _); [exact Hwf|].
    now apply (create_then_fan_out_wf st _ Lesson.group).
  - unfold add_lesson_manual.
    destruct (_ || _); [exact Hwf|].
    destruct (get_object_or_404 _ (LessonForm.subject form)); [|exact Hwf].
    destruct (get_object_or_404 _ (LessonForm.group form)); [|exact Hwf].
    destruct (negb (works_with _ _)); [exact Hwf|].
    destruct (first _); [exact Hwf|].
    now apply (create_posted_then_fan_out_wf st).
Qed.

Lemma create_lesson_from_schedule_wf (user : User.t) (method : http_method) (sid : Z)
    (form : LessonForm.t) (st : Store) :
  wf_store st -> wf_store (snd (create_lesson_from_schedule user method sid form st)).
Proof.
  intros Hwf. unfold create_lesson_from_schedule.
  destruct (get_schedule st sid) as [schedule|]; [|exact Hwf].
  destruct (refused st user schedule); [exact Hwf|].
  destruct method; [exact Hwf|].
  destruct (LessonForm.date form) as [| |d]; [exact Hwf|exact Hwf|].
  destruct (negb (weekday d =? _)); [exact Hwf|].
  destruct (first _); [exact Hwf|].
  now apply (create_then_fan_out_wf st _ (fun _ => Schedule.group schedule)).
Qed.

Lemma create_missing_attendance_records_wf (user : User.t) (method : http_method)
    (st : Store) :
  wf_store st -> wf_store (snd (create_missing_attendance_records user method st)).
Proof.
  intros Hwf. unfold create_missing_attendance_records.
  destruct (negb (User.is_superuser user)); [exact Hwf|].
  destruct method; [exact Hwf|].
  rewrite (create_missing_closed (all_lessons st) 0%nat st
             (all_lessons_NoDup st (wf_lessons Hwf)) (wf_students Hwf)).
  cbn [snd]. apply add_rows_wf; [exact Hwf | | |].
  - apply missing_rows_NoDup;
      [apply all_lessons_NoDup; apply (wf_lessons Hwf) | apply (wf_students Hwf)].
  - intros a Ha Hold. unfold missing_rows in Ha. apply in_flat_map in Ha.
    destruct Ha as [l [_ Ha]]. unfold default_records in Ha. apply in_map_iff in Ha.
    destruct Ha as [s [<- Hs]]. apply students_without_attendance_spec in Hs.
    unfold attendance_key at 1 in Hold. simpl in Hold. tauto.
  - intros a Ha. unfold missing_rows in Ha. apply in_flat_map in Ha.
    destruct Ha as [l [Hl Ha]]. unfold default_records in Ha. apply in_map_iff in Ha.
    destruct Ha as [s [<- _]]. simpl. apply all_lessons_In in Hl. now apply in_map.
Qed.

Lemma delete_schedule_wf (user : User.t) (method : http_method) (sid : Z) (st : Store) :
  wf_store st -> wf_store (snd (delete_schedule user method sid st)).
Proof.
  intros Hwf. unfold delete_schedule.
  destruct (get_schedule st sid) as [s|]; [|exact Hwf].
  destruct (negb _); [exact Hwf|].
  destruct method; [exact Hwf|].
  unfold Schedule_delete.
  constructor; cbn [snd students lessons attendances lesson_seq attendance_seq].
  - apply (wf_students Hwf).
  - apply filter_keeps_distinct. apply (wf_lessons Hwf).
  - apply filter_keeps_distinct. apply (wf_attendances Hwf).
  - apply filter_keeps_distinct. apply (wf_unique Hwf).
  - intros a Ha. apply filter_In in Ha. destruct Ha as [Ha Hkept].
    apply negb_true_iff in Hkept.
    pose proof (wf_lesson_fk Hwf a Ha) as Hfk. apply in_map_iff in Hfk.
    destruct Hfk as [L [HL Hin]]. apply in_map_iff. exists L. split; [exact HL|].
    apply filter_In. split; [exact Hin|]. apply negb_true_iff.
    destruct (references_schedule (Schedule.id s) L) eqn:Href; [|reflexivity].
    exfalso. assert (Hdel : lesson_deleted (Schedule.id s) (lessons st) a = true).
    { apply lesson_deleted_spec. exists L. unfold references_schedule in Href.
      apply sql_eqb_some in Href. auto. }
    congruence.
  - intros L HL. apply filter_In in HL. now apply (wf_lesson_seq Hwf).
  - intros a Ha. apply filter_In in Ha. now apply (wf_attendance_seq Hwf).
Qed.

Lemma edit_entry_tables (student : Student.t) (dict : Z -> option Attendance.t)
    (form : Z -> Entry.t) (l : Lesson.t) (c c' : bool) (st st' : Store) :
  edit_entry student dict form l c st = Ok (c', st') ->
  lessons st' = lessons st /\ students st' = students st
  /\ lesson_seq st' = lesson_seq st.
Proof.
  unfold edit_entry. destruct (dict (Lesson.id l)) as [a0|].
  - destruct (_ || _).
    + unfold Attendance_save, bind.
      destruct (Attendance_clean _) as [[]|[]]; try discriminate.
      * destruct (existsb _ _); [discriminate|]. intros H. inversion H. simpl. auto.
      * intros H. inversion H. auto.
    + intros H. inversion H. auto.
  - unfold Attendance_create, bind.
    destruct (Attendance_clean _) as [[]|[]]; try discriminate.
    + destruct (existsb _ _); [discriminate|]. intros H. inversion H. simpl. auto.
    + intros H. inversion H. auto.
Qed.

Lemma edit_entries_tables (student : Student.t) (dict : Z -> option Attendance.t)
    (form : Z -> Entry.t) (ls : list Lesson.t) (c : bool) (st : Store) :
  lessons (snd (edit_entries student dict form ls c st)) = lessons st
  /\ students (snd (edit_entries student dict form ls c st)) = students st
  /\ lesson_seq (snd (edit_entries student dict form ls c st)) = lesson_seq st.
Proof.
  revert c st. induction ls as [|l ls IH]; intros c st; simpl; [auto|].
  destruct (edit_entry student dict form l c st) as [[c1 st1]|e] eqn:Hstep; [|simpl; auto].
  destruct (edit_entry_tables student dict form l c c1 st st1 Hstep) as [H1 [H2 H3]].
  destruct (IH c1 st1) as [H4 [H5 H6]]. repeat split; congruence.
Qed.

Lemma key_among (a : Attendance.t) (student : Z) (ls : list Lesson.t) :
  (exists l, In l ls /\ attendance_key a = (Lesson.id l, student))
  \/ (forall l, In l ls -> attendance_key a <> (Lesson.id l, student)).
Proof.
  induction ls as [|l ls [[l' [Hl' Hkey]]|Hnone]].
  - right. contradiction.
  - left. exists l'. split; [now right | exact Hkey].
  - destruct (Z.eq_dec (Attendance.lesson a) (Lesson.id l)) as [Hl|Hl].
    + destruct (Z.eq_dec (Attendance.student a) student) as [Hs|Hs].
      * left. exists l. split; [now left|]. unfold attendance_key. congruence.
      * right. intros l' [<-|Hl'] Hkey; [|exact (Hnone l' Hl' Hkey)].
        unfold attendance_key in Hkey. congruence.
    + right. intros l' [<-|Hl'] Hkey; [|exact (Hnone l' Hl' Hkey)].
      unfold attendance_key in Hkey. congruence.
Qed.

Lemma edit_attendance_wf (user : User.t) (method : http_method) (student_id : Z)
    (form : Z -> Entry.t) (st : Store) :
  wf_store st -> wf_store (snd (edit_attendance user method student_id form st)).
Proof.
  intros Hwf. unfold edit_attendance.
  destruct (get_student st student_id) as [student|]; [|exact Hwf].
  destruct (negb (has_access st user student)); [exact Hwf|].
  destruct method; [exact Hwf|].
  set (dict := records_dict (records_of st (Student.id student))).
  set (ls := lessons_of_group st (Student.group student)).
  destruct (edit_entries_tables student dict form ls false st) as [Hles [Hstu Hseq]].
  destruct (edit_entries_all student dict form ls
              (lessons_of_group_NoDup st _ (wf_lessons Hwf))
              false st (wf_table_ok st Hwf)
              (fun l _ => records_dict_agrees st (Student.id student) (Lesson.id l)))
    as [c [st' [Hrun [[Hids [Hkeys Hbound]] [_ Hframe]]]]].
  rewrite Hrun in *. cbn [snd] in *.
  constructor.
  - rewrite Hstu. apply (wf_students Hwf).
  - rewrite Hles. apply (wf_lessons Hwf).
  - exact Hids.
  - exact Hkeys.
  - intros a Ha. rewrite Hles.
    destruct (key_among a (Student.id student) ls) as [[l [Hl Hkey]]|Hnone].
    + unfold attendance_key in Hkey. inversion Hkey as [[Hlesson Hstudent]].
      rewrite Hlesson. apply in_map.
      now apply (lessons_of_group_In st (Student.group student) l).
    + apply (wf_lesson_fk Hwf). now apply Hframe.
  - intros l Hl. rewrite Hles in Hl. rewrite Hseq. now apply (wf_lesson_seq Hwf).
  - exact Hbound.
Qed.

Lemma add_schedule_wf (user : User.t) (method : http_method) (form : ScheduleForm.t)
    (st : Store) :
  wf_store st -> wf_store (snd (add_schedule user method form st)).
Proof.
  intros Hwf.
  destruct (add_schedule_stored user method form st)
    as [->|[group [subject [teacher [w [b0 [e0 [b [e [_ [_ [_ [_ [_ ->]]]]]]]]]]]]]];
    [exact Hwf|].
  cbn [snd]. destruct Hwf. constructor; assumption.
Qed.

(** Every view of the embedding keeps the integrity of the store. *)
Theorem views_keep_integrity (st : Store) :
  wf_store st ->
  (forall user method form, wf_store (snd (add_schedule user method form st)))
  /\ (forall user method sid, wf_store (snd (delete_schedule user method sid st)))
  /\ (forall user method form, wf_store (snd (add_lesson user method form st)))
  /\ (forall user method sid form,
         wf_store (snd (create_lesson_from_schedule user method sid form st)))
  /\ (forall user method,
         wf_store (snd (create_missing_attendance_records user method st)))
  /\ (forall user method student_id form,
         wf_store (snd (edit_attendance user method student_id form st))).
Proof.
  intros Hwf.
  split; [intros; now apply add_schedule_wf|].
  split; [intros; now apply delete_schedule_wf|].
  split; [intros; now apply add_lesson_wf|].
  split; [intros; now apply create_lesson_from_schedule_wf|].
  split; [intros; now apply create_missing_attendance_records_wf|].
  intros; now apply edit_attendance_wf.
Qed.

Lemma views_keep_integrity_witness :
  (forall user method form, wf_store (snd (add_schedule user method form school)))
  /\ (forall user method sid, wf_store (snd (delete_schedule user method sid school)))
  /\ (forall user method form, wf_store (snd (add_lesson user method form school)))
  /\ (forall user method sid form,
         wf_store (snd (create_lesson_from_schedule user method sid form school)))
  /\ (forall user method,
         wf_store (snd (create_missing_attendance_records user method school)))
  /\ (forall user method student_id form,
         wf_store (snd (edit_attendance user method student_id form school))).
Proof. exact (views_keep_integrity school school_wf). Defined.

(** * Further properties of the views *)

(** ** [add_schedule]: what a stored schedule satisfies *)

(** X1: a request to [add_schedule] that changes the store has appended one
    row to the schedule, active and with the next id, and the view has
    reported the [AttributeError] of its message.  The row holds the times
    read from the two posted strings, of which the first is below the
    second in the order of strings; its weekday is an integer of the
    column, its teacher teaches its subject and works with its group, and no
    active row of the same day for the same group or with the same teacher
    overlaps it. *)
Theorem add_schedule_stores_valid (user : User.t) (method : http_method)
    (form : ScheduleForm.t) (st : Store) :
  snd (add_schedule user method form st) <> st ->
  exists s start_time end_time,
    add_schedule user method form st
    = (Rejected (OperationFailed AttributeError),
       with_schedules st (schedules st ++ [s]) (schedule_seq st + 1))
    /\ Schedule.id s = schedule_seq st
    /\ Schedule.is_active s = true
    /\ ScheduleForm.start_time form = Some start_time
    /\ ScheduleForm.end_time form = Some end_time
    /\ str_ge (PostedTime.text start_time) (PostedTime.text end_time) = false
    /\ PostedTime.value start_time = Some (Schedule.start_time s)
    /\ PostedTime.value end_time = Some (Schedule.end_time s)
    /\ in_int64 (Schedule.weekday s) = true
    /\ (exists t, get_teacher st (Schedule.teacher s) = Some t
                  /\ In (Schedule.subject s) (Teacher.subjects t)
                  /\ works_with t (Schedule.group s) = true)
    /\ (forall r, In r (schedules st) ->
          Schedule.is_active r = true ->
          Schedule.weekday r = Schedule.weekday s ->
          Schedule.group r = Schedule.group s \/ Schedule.teacher r = Schedule.teacher s ->
          Schedule.end_time r <= Schedule.start_time s
          \/ Schedule.end_time s <= Schedule.start_time r).
Proof.
  intros Hchanged.
  destruct (add_schedule_stored user method form st)
    as [H|[group [subject [teacher [w [start_time [end_time [b [e H]]]]]]]]];
    [contradiction|].
  destruct H as [_ [C [Hc1 [Hc2 [_ Hrun]]]]].
  exists (new_row st form group subject teacher w b e), start_time, end_time.
  split; [exact Hrun|]. cbn.
  split; [reflexivity|]. split; [reflexivity|].
  split; [exact (ck_start C)|]. split; [exact (ck_end C)|].
  split; [exact (ck_order C)|].
  split; [exact (ck_start_value C)|]. split; [exact (ck_end_value C)|].
  split; [exact (ck_int64 C)|]. split.
  - exists teacher.
    destruct (get_object_or_404_ok _ _ _ (ck_teacher C)) as [t [_ Ht]].
    rewrite <- (proj2 (get_teacher_some st t teacher Ht)) in Ht.
    split; [exact Ht|]. split; [exact (ck_taught C) | exact (ck_works C)].
  - intros r Hr Hact Hday Hsame.
    assert (Hno : ~ (b < Schedule.end_time r /\ Schedule.start_time r < e)).
    { intros Hover. destruct Hsame as [Hsame|Hsame].
      - assert (Hin : In r (time_conflicts (active_of_group st (Group.id group) w) b e)).
        { apply time_conflicts_spec. rewrite active_of_group_spec. tauto. }
        rewrite Hc1 in Hin. contradiction.
      - assert (Hin : In r (time_conflicts (active_of_teacher st (Teacher.id teacher) w)
                              b e)).
        { apply time_conflicts_spec. rewrite active_of_teacher_spec. tauto. }
        rewrite Hc2 in Hin. contradiction. }
    lia.
Qed.

Lemma add_schedule_stores_valid_witness :
  exists s start_time end_time,
    add_schedule teacher_user POST (schedule_form 1 (hm 10 0) (hm 11 0)) new_school
    = (Rejected (OperationFailed AttributeError),
       with_schedules new_school (schedules new_school ++ [s])
                      (schedule_seq new_school + 1))
    /\ Schedule.id s = schedule_seq new_school
    /\ Schedule.is_active s = true
    /\ ScheduleForm.start_time (schedule_form 1 (hm 10 0) (hm 11 0)) = Some start_time
    /\ ScheduleForm.end_time (schedule_form 1 (hm 10 0) (hm 11 0)) = Some end_time
    /\ str_ge (PostedTime.text start_time) (PostedTime.text end_time) = false
    /\ PostedTime.value start_time = Some (Schedule.start_time s)
    /\ PostedTime.value end_time = Some (Schedule.end_time s)
    /\ in_int64 (Schedule.weekday s) = true
    /\ (exists t, get_teacher new_school (Schedule.teacher s) = Some t
                  /\ In (Schedule.subject s) (Teacher.subjects t)
                  /\ works_with t (Schedule.group s) = true)
    /\ (forall r, In r (schedules new_school) ->
          Schedule.is_active r = true ->
          Schedule.weekday r = Schedule.weekday s ->
          Schedule.group r = Schedule.group s \/ Schedule.teacher r = Schedule.teacher s ->
          Schedule.end_time r <= Schedule.start_time s
          \/ Schedule.end_time s <= Schedule.start_time r).
Proof.
  apply (add_schedule_stores_valid teacher_user POST (schedule_form 1 (hm 10 0) (hm 11 0))
           new_school).
  vm_compute. discriminate.
Defined.

(** The order of strings is not the order of times: a schedule posted from
    10:00 to 9:00 passes the check of the view and of [clean()], since the
    string "10:00" is below the string "9:00", and its row is stored with
    the start after the end. *)
Lemma add_schedule_stores_reversed_times :
  schedules
    (snd (add_schedule teacher_user POST
            (ScheduleForm.mk (Value 1) (Value 1) (Value 1) (Value 1)
               (Some (PostedTime.mk "10:00" (Some (hm 10 0))))
               (Some (PostedTime.mk "9:00" (Some (hm 9 0)))) "102")
            new_school))
  = [maths_monday; Schedule.mk 2 1 1 1 1 (hm 10 0) (hm 9 0) (Some "102"%string) true].
Proof. reflexivity. Qed.

(** X2: the form of a request that has stored a schedule, posted again by
    the same user, changes nothing.  It is refused for the time of the
    group when the stored row starts before it ends; a row that starts at
    or after its end overlaps nothing, and the second request fails on the
    unique key of the table instead. *)
Theorem add_schedule_twice (user : User.t) (form : ScheduleForm.t) (st : Store) :
  snd (add_schedule user POST form st) <> st ->
  exists s,
    schedules (snd (add_schedule user POST form st)) = schedules st ++ [s]
    /\ add_schedule user POST form (snd (add_schedule user POST form st))
       = (Rejected (if Schedule.start_time s <? Schedule.end_time s
                    then GroupTimeConflict
                    else OperationFailed IntegrityError),
          snd (add_schedule user POST form st)).
Proof.
  intros Hchanged.
  destruct (add_schedule_stored user POST form st)
    as [H|[group [subject [teacher [w [start_time [end_time [b [e H]]]]]]]]];
    [contradiction|].
  destruct H as [_ [C [Hc1 [Hc2 [Hkey Hrun]]]]].
  set (s := new_row st form group subject teacher w b e) in *.
  exists s. rewrite Hrun. cbn [snd]. split; [reflexivity|].
  set (st' := with_schedules st (schedules st ++ [s]) (schedule_seq st + 1)).
  assert (C' : Checked user form st' group subject teacher w start_time end_time b e).
  { destruct C. constructor; assumption. }
  rewrite (add_schedule_run user form st' group subject teacher w start_time end_time b e
             C').
  assert (Hgroup : time_conflicts (active_of_group st' (Group.id group) w) b e
                   = if b <? e then [s] else []).
  { unfold time_conflicts, active_of_group, st'. cbn [schedules with_schedules].
    rewrite !filter_app.
    change (filter _ (filter _ (filter _ (schedules st))))
      with (time_conflicts (active_of_group st (Group.id group) w) b e).
    rewrite Hc1. cbn [app]. unfold s, new_row.
    cbn [filter Schedule.group Schedule.teacher Schedule.weekday Schedule.is_active
         Schedule.end_time Schedule.start_time].
    rewrite !Z.eqb_refl. cbn [andb filter Schedule.end_time].
    destruct (b <? e) eqn:Hbe.
    - apply Z.ltb_lt in Hbe.
      replace (e <=? b) with false by (symmetry; apply Z.leb_gt; lia).
      cbn [negb filter Schedule.start_time]. rewrite Z.geb_leb.
      replace (e <=? b) with false by (symmetry; apply Z.leb_gt; lia). reflexivity.
    - apply Z.ltb_ge in Hbe.
      replace (e <=? b) with true by (symmetry; apply Z.leb_le; lia). reflexivity. }
  assert (Hteacher : time_conflicts (active_of_teacher st' (Teacher.id teacher) w) b e
                     = if b <? e then [s] else []).
  { unfold time_conflicts, active_of_teacher, st'. cbn [schedules with_schedules].
    rewrite !filter_app.
    change (filter _ (filter _ (filter _ (schedules st))))
      with (time_conflicts (active_of_teacher st (Teacher.id teacher) w) b e).
    rewrite Hc2. cbn [app]. unfold s, new_row.
    cbn [filter Schedule.group Schedule.teacher Schedule.weekday Schedule.is_active
         Schedule.end_time Schedule.start_time].
    rewrite !Z.eqb_refl. cbn [andb filter Schedule.end_time].
    destruct (b <? e) eqn:Hbe.
    - apply Z.ltb_lt in Hbe.
      replace (e <=? b) with false by (symmetry; apply Z.leb_gt; lia).
      cbn [negb filter Schedule.start_time]. rewrite Z.geb_leb.
      replace (e <=? b) with false by (symmetry; apply Z.leb_gt; lia). reflexivity.
    - apply Z.ltb_ge in Hbe.
      replace (e <=? b) with true by (symmetry; apply Z.leb_le; lia). reflexivity. }
  rewrite Hgroup, Hteacher.
  change (Schedule.start_time s) with b. change (Schedule.end_time s) with e.
  destruct (b <? e); [reflexivity|]. cbn [first].
  assert (Hdup : existsb (Schedule_same_key
                            (new_row st' form group subject teacher w b e))
                         (schedules st') = true).
  { apply existsb_exists. exists s. split.
    - unfold st'. cbn. apply in_or_app. right. now left.
    - unfold Schedule_same_key, new_row, s. cbn. now rewrite !Z.eqb_refl. }
  rewrite Hdup. reflexivity.
Qed.

Lemma add_schedule_twice_witness :
  exists s,
    schedules (snd (add_schedule teacher_user POST (schedule_form 1 (hm 10 0) (hm 11 0))
                      new_school))
    = schedules new_school ++ [s]
    /\ add_schedule teacher_user POST (schedule_form 1 (hm 10 0) (hm 11 0))
         (snd (add_schedule teacher_user POST (schedule_form 1 (hm 10 0) (hm 11 0))
                 new_school))
       = (Rejected (if Schedule.start_time s <? Schedule.end_time s
                    then GroupTimeConflict
                    else OperationFailed IntegrityError),
          snd (add_schedule teacher_user POST (schedule_form 1 (hm 10 0) (hm 11 0))
                 new_school)).
Proof.
  apply (add_schedule_twice teacher_user (schedule_form 1 (hm 10 0) (hm 11 0)) new_school).
  vm_compute. discriminate.
Defined.

(** The two cases, run: the range 10:00 to 11:00 posted twice is refused
    for the group the second time, and the range 10:00 to 9:00 posted twice
    fails on the unique key. *)
Lemma add_schedule_twice_examples :
  fst (add_schedule teacher_user POST (schedule_form 1 (hm 10 0) (hm 11 0))
         (snd (add_schedule teacher_user POST (schedule_form 1 (hm 10 0) (hm 11 0))
                 new_school)))
  = Rejected GroupTimeConflict
  /\ fst (add_schedule teacher_user POST
            (ScheduleForm.mk (Value 1) (Value 1) (Value 1) (Value 1)
               (Some (PostedTime.mk "10:00" (Some (hm 10 0))))
               (Some (PostedTime.mk "9:00" (Some (hm 9 0)))) "102")
            (snd (add_schedule teacher_user POST
                    (ScheduleForm.mk (Value 1) (Value 1) (Value 1) (Value 1)
                       (Some (PostedTime.mk "10:00" (Some (hm 10 0))))
                       (Some (PostedTime.mk "9:00" (Some (hm 9 0)))) "102")
                    new_school)))
     = Rejected (OperationFailed IntegrityError).
Proof. split; reflexivity. Qed.

(** X4: a request to [add_schedule] that passes every check and meets no
    conflict writes its row, whatever integer of the column its weekday is,
    and the view then reports the [AttributeError] of its message; unless a
    row of the table, active or not, has the group, the weekday and the
    start time of the new one: then the insertion fails with the integrity
    error, the view reports it and nothing is stored. *)
Theorem add_schedule_unique_key (user : User.t) (form : ScheduleForm.t) (st : Store)
    (group : Group.t) (subject : Subject.t) (teacher : Teacher.t) (w : Z)
    (start_time end_time : PostedTime.t) (b e : time) :
  Checked user form st group subject teacher w start_time end_time b e ->
  time_conflicts (active_of_group st (Group.id group) w) b e = [] ->
  time_conflicts (active_of_teacher st (Teacher.id teacher) w) b e = [] ->
  add_schedule user POST form st
  = if existsb (fun r => (Group.id group =? Schedule.group r)
                         && (w =? Schedule.weekday r)
                         && (b =? Schedule.start_time r)) (schedules st)
    then (Rejected (OperationFailed IntegrityError), st)
    else (Rejected (OperationFailed AttributeError),
          with_schedules st
            (schedules st ++
             [Schedule.mk (schedule_seq st) (Group.id group) (Subject.id subject)
                          (Teacher.id teacher) w b e
                          (Some (ScheduleForm.classroom form)) true])
            (schedule_seq st + 1)).
Proof.
  intros C Hc1 Hc2.
  rewrite (add_schedule_run user form st group subject teacher w start_time end_time b e
             C), Hc1, Hc2.
  reflexivity.
Qed.

Lemma inactive_slot_checked :
  Checked teacher_user (schedule_form 1 (hm 11 0) (hm 12 0)) school_with_inactive
          (Group.mk 1 "A" 1) (Subject.mk 1 "Mathematics") (Teacher.mk 1 10 1 [2] [1]) 0
          (posted (hm 11 0)) (posted (hm 12 0)) (hm 11 0) (hm 12 0).
Proof.
  constructor; try reflexivity.
  - right. exists (Teacher.mk 1 10 1 [2] [1]). split; reflexivity.
  - simpl. left. reflexivity.
Qed.

Lemma add_schedule_unique_key_witness :
  add_schedule teacher_user POST (schedule_form 1 (hm 11 0) (hm 12 0)) school_with_inactive
  = (Rejected (OperationFailed IntegrityError), school_with_inactive).
Proof.
  exact (add_schedule_unique_key teacher_user (schedule_form 1 (hm 11 0) (hm 12 0))
           school_with_inactive
           (Group.mk 1 "A" 1) (Subject.mk 1 "Mathematics") (Teacher.mk 1 10 1 [2] [1]) 0
           (posted (hm 11 0)) (posted (hm 12 0)) (hm 11 0) (hm 12 0)
           inactive_slot_checked eq_refl eq_refl).
Defined.

(** A schedule for a ninth day of the week is stored; one for a day that
    the column cannot hold is not. *)
Lemma add_schedule_ninth_day :
  add_schedule teacher_user POST ninth_day_form new_school
  = (Rejected (OperationFailed AttributeError),
     with_schedules new_school
       [maths_monday;
        Schedule.mk 2 1 1 1 9 (hm 9 0) (hm 10 0) (Some "102"%string) true] 3)
  /\ add_schedule teacher_user POST
       (ScheduleForm.mk (Value 1) (Value 1) (Value 1) (Value (2 ^ 63))
          (Some (posted (hm 9 0))) (Some (posted (hm 10 0))) "102") new_school
     = (Rejected (OperationFailed OverflowError), new_school).
Proof. split; reflexivity. Qed.

(** ** The timetable is never double-booked by the views *)

Lemma bulk_create_timetable (st st' : Store) (batch : list Attendance.t) :
  bulk_create st batch = Ok st' -> same_timetable st st'.
Proof.
  unfold bulk_create. destruct batch as [|a batch].
  - intros H. inversion H. now split.
  - destruct (batch_unique _ _); [|discriminate]. intros H. inversion H. now split.
Qed.

Lemma create_then_fan_out_timetable (st : Store) (l0 : Lesson.t)
    (group_of : Lesson.t -> Z) :
  same_timetable st
    (snd (match Lesson_create st l0 with
          | Raise e => (Rejected (OperationFailed e), st)
          | Ok (lesson, st1) => fan_out lesson (group_of lesson) st1
          end)).
Proof.
  destruct (Lesson_create st l0) as [[lesson st1]|e] eqn:Hcreate; [|now split].
  destruct (Lesson_create_ok st st1 l0 lesson Hcreate) as [_ [-> _]].
  unfold fan_out. destruct (bulk_create _ _) as [st'|e] eqn:Hbulk; [|now split].
  apply bulk_create_timetable in Hbulk. exact Hbulk.
Qed.

Lemma create_posted_then_fan_out_timetable (st : Store) (l0 : Lesson.t)
    (start_time end_time : option PostedTime.t) :
  same_timetable st
    (snd (match Lesson_create_posted st l0 start_time end_time with
          | Raise e => (Rejected (OperationFailed e), st)
          | Ok (lesson, st1) =>
              match start_time, end_time with
              | Some _, Some _ => (Rejected (OperationFailed AttributeError), st1)
              | _, _ => fan_out lesson (Lesson.group lesson) st1
              end
          end)).
Proof.
  apply (manual_path_keeps (same_timetable st)); [now split|].
  intros lesson st1 Hcreate.
  destruct (Lesson_create_posted_ok st st1 l0 lesson _ _ Hcreate) as [_ [-> _]].
  split; [now split|].
  unfold fan_out. destruct (bulk_create _ _) as [st'|e] eqn:Hbulk; [|now split].
  apply bulk_create_timetable in Hbulk. exact Hbulk.
Qed.

Lemma add_lesson_timetable (user : User.t) (method : http_method) (form : LessonForm.t)
    (st : Store) :
  same_timetable st (snd (add_lesson user method form st)).
Proof.
  unfold add_lesson.
  destruct (teacher_of st user) as [teacher|]; [|now split].
  destruct method; [now split|].
  destruct (LessonForm.date form) as [| |d]; [now split|now split|].
  destruct (is_from_schedule_type _).
  - unfold add_lesson_from_schedule.
    destruct (is_absent _); [now split|].
    destruct (get_object_or_404 _ _) as [schedule|e]; [|now split].
    destruct (negb (works_with _ _)); [now split|].
    destruct (negb (weekday d =? _)); [now split|].
    destruct (first _); [now split|].
    apply (create_then_fan_out_timetable st _ Lesson.group).
  - unfold add_lesson_manual.
    destruct (_ || _); [now split|].
    destruct (get_object_or_404 _ (LessonForm.subject form)); [|now split].
    destruct (get_object_or_404 _ (LessonForm.group form)); [|now split].
    destruct (negb (works_with _ _)); [now split|].
    destruct (first _); [now split|].
    apply (create_posted_then_fan_out_timetable st).
Qed.

Lemma create_lesson_from_schedule_timetable (user : User.t) (method : http_method)
    (sid : Z) (form : LessonForm.t) (st : Store) :
  same_timetable st (snd (create_lesson_from_schedule user method sid form st)).
Proof.
  unfold create_lesson_from_schedule.
  destruct (get_schedule st sid) as [schedule|]; [|now split].
  destruct (refused st user schedule); [now split|].
  destruct method; [now split|].
  destruct (LessonForm.date form) as [| |d]; [now split|now split|].
  destruct (negb (weekday d =? _)); [now split|].
  destruct (first _); [now split|].
  apply (create_then_fan_out_timetable st _ (fun _ => Schedule.group schedule)).
Qed.

Lemma create_missing_timetable (ls : list Lesson.t) (c : nat) (st : Store) :
  same_timetable st (snd (create_missing ls c st)).
Proof.
  revert c st. induction ls as [|l ls IH]; intros c st; [now split|].
  cbn [create_missing].
  destruct (default_records _ _) as [|a batch] eqn:Hbatch; [apply IH|].
  destruct (bulk_create st (a :: batch)) as [st'|e] eqn:Hbulk; [|now split].
  apply bulk_create_timetable in Hbulk. destruct Hbulk as [H1 H2].
  destruct (IH (c + List.length (a :: batch))%nat st') as [H3 H4].
  split; congruence.
Qed.

Lemma edit_entries_timetable (student : Student.t) (dict : Z -> option Attendance.t)
    (form : Z -> Entry.t) (ls : list Lesson.t) (c : bool) (st : Store) :
  same_timetable st (snd (edit_entries student dict form ls c st)).
Proof.
  revert c st. induction ls as [|l ls IH]; intros c st; [now split|].
  cbn [edit_entries].
  destruct (edit_entry student dict form l c st) as [[c1 st1]|e] eqn:Hstep; [|now split].
  assert (H1 : same_timetable st st1).
  { unfold edit_entry in Hstep. destruct (dict (Lesson.id l)) as [a0|].
    - destruct (_ || _); [|inversion Hstep; now split].
      unfold Attendance_save, bind in Hstep.
      destruct (Attendance_clean _) as [[]|[]]; try discriminate.
      + destruct (existsb _ _); [discriminate|]. inversion Hstep. now split.
      + inversion Hstep. now split.
    - unfold Attendance_create, bind in Hstep.
      destruct (Attendance_clean _) as [[]|[]]; try discriminate.
      + destruct (existsb _ _); [discriminate|]. inversion Hstep. now split.
      + inversion Hstep. now split. }
  destruct H1 as [H1 H2]. destruct (IH c1 st1) as [H3 H4]. split; congruence.
Qed.

Lemma timetable_ok_same (st st' : Store) :
  same_timetable st st' -> timetable_ok st -> timetable_ok st'.
Proof.
  intros [H1 H2] [Hid Hclash]. unfold timetable_ok. rewrite H1, H2. now split.
Qed.

(** X3: no view books a group or a teacher twice.  If no two different
    active rows of the schedule that share the day and the group or the
    teacher overlap, the same holds after any request to any of the six
    views. *)
Theorem views_keep_timetable (st : Store) :
  timetable_ok st ->
  (forall user method form, timetable_ok (snd (add_schedule user method form st)))
  /\ (forall user method sid, timetable_ok (snd (delete_schedule user method sid st)))
  /\ (forall user method form, timetable_ok (snd (add_lesson user method form st)))
  /\ (forall user method sid form,
         timetable_ok (snd (create_lesson_from_schedule user method sid form st)))
  /\ (forall user method,
         timetable_ok (snd (create_missing_attendance_records user method st)))
  /\ (forall user method student_id form,
         timetable_ok (snd (edit_attendance user method student_id form st))).
Proof.
  intros Hok. split; [|split; [|split; [|split; [|split]]]].
  - intros user method form.
    destruct (add_schedule_stored user method form st)
      as [->|[group [subject [teacher [w [start_time [end_time [b0 [e0 H]]]]]]]]];
      [exact Hok|].
    destruct H as [_ [_ [Hc1 [Hc2 [_ ->]]]]]. cbn [snd].
    set (s := new_row st form group subject teacher w b0 e0).
    assert (Hfree : forall r, In r (schedules st) ->
              Schedule.is_active r = true ->
              Schedule.weekday r = Schedule.weekday s ->
              Schedule.group r = Schedule.group s
              \/ Schedule.teacher r = Schedule.teacher s ->
              Schedule.end_time r <= Schedule.start_time s
              \/ Schedule.end_time s <= Schedule.start_time r).
    { intros r Hr Hact Hday Hsame. cbn in Hday, Hsame |- *.
      assert (Hno : ~ (b0 < Schedule.end_time r /\ Schedule.start_time r < e0)).
      { intros Hover. destruct Hsame as [Hsame|Hsame].
        - assert (Hin : In r (time_conflicts (active_of_group st (Group.id group) w)
                                b0 e0)).
          { apply time_conflicts_spec. rewrite active_of_group_spec. tauto. }
          rewrite Hc1 in Hin. contradiction.
        - assert (Hin : In r (time_conflicts
                                (active_of_teacher st (Teacher.id teacher) w) b0 e0)).
          { apply time_conflicts_spec. rewrite active_of_teacher_spec. tauto. }
          rewrite Hc2 in Hin. contradiction. }
      lia. }
    destruct Hok as [Hbound Hclash]. split; cbn [schedules schedule_seq with_schedules].
    + intros r Hr.
      apply in_app_or in Hr. destruct Hr as [Hr|[<-|[]]].
      * apply Hbound in Hr. lia.
      * cbn. lia.
    + intros a b Ha Hb Hab.
      destruct Hab as [Hne [Haa [Hba [Hday Hsame]]]].
      apply in_app_or in Ha. apply in_app_or in Hb.
      destruct Ha as [Ha|[<-|[]]], Hb as [Hb|[<-|[]]].
      * apply Hclash; try assumption. repeat split; assumption.
      * apply (Hfree a Ha Haa Hday Hsame).
      * assert (H' : Schedule.end_time b <= Schedule.start_time s
                     \/ Schedule.end_time s <= Schedule.start_time b).
        { apply (Hfree b Hb Hba); [congruence|]. destruct Hsame; [left|right]; congruence. }
        tauto.
      * contradiction.
  - intros user method sid. unfold delete_schedule.
    destruct (get_schedule st sid) as [s|]; [|exact Hok].
    destruct (negb _); [exact Hok|].
    destruct method; [exact Hok|].
    destruct Hok as [Hbound Hclash]. split; cbn.
    + intros r Hr. apply filter_In in Hr. now apply Hbound.
    + intros a b Ha Hb. apply filter_In in Ha, Hb. now apply Hclash.
  - intros. apply (timetable_ok_same st); [apply add_lesson_timetable | exact Hok].
  - intros. apply (timetable_ok_same st);
      [apply create_lesson_from_schedule_timetable | exact Hok].
  - intros user method. unfold create_missing_attendance_records.
    destruct (negb _); [exact Hok|]. destruct method; [exact Hok|].
    apply (timetable_ok_same st); [apply create_missing_timetable | exact Hok].
  - intros user method student_id form. unfold edit_attendance.
    destruct (get_student st student_id) as [student|]; [|exact Hok].
    destruct (negb _); [exact Hok|]. destruct method; [exact Hok|].
    apply (timetable_ok_same st); [apply edit_entries_timetable | exact Hok].
Qed.

Lemma new_school_timetable_ok : timetable_ok new_school.
Proof.
  split.
  - each_row.
  - simpl. intros a b [<-|[]] [<-|[]] [Hne _]. contradiction.
Qed.

Lemma views_keep_timetable_witness :
  (forall user method form, timetable_ok (snd (add_schedule user method form new_school)))
  /\ (forall user method sid,
         timetable_ok (snd (delete_schedule user method sid new_school)))
  /\ (forall user method form, timetable_ok (snd (add_lesson user method form new_school)))
  /\ (forall user method sid form,
         timetable_ok (snd (create_lesson_from_schedule user method sid form new_school)))
  /\ (forall user method,
         timetable_ok (snd (create_missing_attendance_records user method new_school)))
  /\ (forall user method student_id form,
         timetable_ok (snd (edit_attendance user method student_id form new_school))).
Proof. exact (views_keep_timetable new_school new_school_timetable_ok). Defined.

(** [Schedule.save] has no such check: the row of the Monday at 10:00 can be
    moved onto the row at 09:00. *)
Lemma Schedule_save_can_double_book :
  exists st',
    Schedule_save
      (snd (add_schedule teacher_user POST (schedule_form 1 (hm 10 0) (hm 11 0)) new_school))
      (Schedule.mk 2 1 1 1 0 (hm 9 30) (hm 10 30) (Some "102"%string) true)
    = Ok st'
    /\ ~ timetable_ok st'.
Proof.
  eexists. split; [reflexivity|].
  intros [_ Hclash].
  specialize (Hclash maths_monday
                (Schedule.mk 2 1 1 1 0 (hm 9 30) (hm 10 30) (Some "102"%string) true)).
  simpl in Hclash.
  assert (H : hm 10 0 <= hm 9 30 \/ hm 10 30 <= hm 9 0).
  { apply Hclash; [now left | right; now left |].
    unfold may_clash. simpl. repeat split; try lia; try reflexivity; now left. }
  unfold hm in H. lia.
Qed.

(** ** Who may write *)

(** X5: a user who has no teacher profile and is not a superuser cannot
    change the store through the views of the schedule and of the lessons:
    [add_schedule], [add_lesson] and [create_missing_attendance_records]
    answer that the permission is missing, [delete_schedule] and
    [create_lesson_from_schedule] answer so or that the schedule is not
    found; [edit_attendance] writes for such a user only if the user is a
    parent of the student or, having no parent profile, the student. *)
Theorem no_profile_no_write (user : User.t) (st : Store) :
  teacher_of st user = None ->
  User.is_superuser user = false ->
  (forall method form, add_schedule user method form st = (Rejected NoPermission, st))
  /\ (forall method form, add_lesson user method form st = (Rejected NoPermission, st))
  /\ (forall method,
         create_missing_attendance_records user method st = (Rejected NoPermission, st))
  /\ (forall method sid,
         delete_schedule user method sid st = (Rejected NoPermission, st)
         \/ delete_schedule user method sid st = (NotFound, st))
  /\ (forall method sid form,
         create_lesson_from_schedule user method sid form st = (Rejected NoPermission, st)
         \/ create_lesson_from_schedule user method sid form st = (NotFound, st))
  /\ (forall method student_id form,
         snd (edit_attendance user method student_id form st) <> st ->
         exists student,
           get_student st student_id = Some student
           /\ match parent_of st user with
              | Some parent => In (Student.id student) (Parent.children parent)
              | None => User.id user = Student.user student
              end).
Proof.
  intros Hteacher Hsuper.
  split; [|split; [|split; [|split; [|split]]]].
  - intros. unfold add_schedule. now rewrite Hteacher, Hsuper.
  - intros. unfold add_lesson. now rewrite Hteacher.
  - intros. unfold create_missing_attendance_records. now rewrite Hsuper.
  - intros. unfold delete_schedule.
    destruct (get_schedule st sid); [left|right; reflexivity].
    now rewrite Hteacher, Hsuper.
  - intros. unfold create_lesson_from_schedule, refused.
    destruct (get_schedule st sid); [left|right; reflexivity].
    now rewrite Hteacher, Hsuper.
  - intros method student_id form. unfold edit_attendance.
    destruct (get_student st student_id) as [student|];
      [|intros H; exfalso; apply H; reflexivity].
    unfold has_access. rewrite Hteacher, Hsuper.
    destruct (parent_of st user) as [parent|].
    + destruct (mem _ _) eqn:E; simpl; [|intros H; exfalso; apply H; reflexivity].
      intros _. exists student. split; [reflexivity|]. now apply mem_In.
    + simpl. destruct (User.id user =? Student.user student) eqn:E; simpl;
        [|intros H; exfalso; apply H; reflexivity].
      intros _. exists student. split; [reflexivity|]. now apply Z.eqb_eq.
Qed.

Lemma no_profile_no_write_witness :
  (forall method form, add_schedule parent_user method form school
                       = (Rejected NoPermission, school))
  /\ (forall method form, add_lesson parent_user method form school
                          = (Rejected NoPermission, school))
  /\ (forall method,
         create_missing_attendance_records parent_user method school
         = (Rejected NoPermission, school))
  /\ (forall method sid,
         delete_schedule parent_user method sid school = (Rejected NoPermission, school)
         \/ delete_schedule parent_user method sid school = (NotFound, school))
  /\ (forall method sid form,
         create_lesson_from_schedule parent_user method sid form school
         = (Rejected NoPermission, school)
         \/ create_lesson_from_schedule parent_user method sid form school
            = (NotFound, school))
  /\ (forall method student_id form,
         snd (edit_attendance parent_user method student_id form school) <> school ->
         exists student,
           get_student school student_id = Some student
           /\ match parent_of school parent_user with
              | Some parent => In (Student.id student) (Parent.children parent)
              | None => User.id parent_user = Student.user student
              end).
Proof.
  apply (no_profile_no_write parent_user school); reflexivity.
Defined.

(** ** The same lesson twice *)






(** ** Every stored record is valid *)

Lemma clean_with_id (i : Z) (a : Attendance.t) :
  Attendance_clean (Attendance_with_id i a) = Attendance_clean a.
Proof. reflexivity. Qed.

Lemma bulk_create_valid (st st' : Store) (batch : list Attendance.t) :
  records_valid st ->
  (forall a, In a batch -> Attendance_clean a = Ok tt) ->
  bulk_create st batch = Ok st' ->
  records_valid st'.
Proof.
  intros Hval Hbatch. unfold bulk_create. destruct batch as [|b batch].
  - intros H. inversion H. now subst.
  - destruct (batch_unique _ _); [|discriminate]. intros H. inversion H.
    intros a Ha. cbn [attendances with_attendances] in Ha.
    apply in_app_or in Ha. destruct Ha as [Ha|Ha].
    + now apply Hval.
    + change (In a (number_from (attendance_seq st) (b :: batch))) in Ha.
      apply number_from_In in Ha. destruct Ha as [b' [Hb' [-> _]]].
      rewrite clean_with_id. now apply Hbatch.
Qed.

Lemma default_records_clean (lesson_id : Z) (sts : list Student.t) (a : Attendance.t) :
  In a (default_records lesson_id sts) -> Attendance_clean a = Ok tt.
Proof.
  unfold default_records. intros Ha. apply in_map_iff in Ha.
  destruct Ha as [s [<- _]]. reflexivity.
Qed.

Lemma create_then_fan_out_valid (st : Store) (l0 : Lesson.t) (group_of : Lesson.t -> Z) :
  records_valid st ->
  records_valid (snd (match Lesson_create st l0 with
                      | Raise e => (Rejected (OperationFailed e), st)
                      | Ok (lesson, st1) => fan_out lesson (group_of lesson) st1
                      end)).
Proof.
  intros Hval. destruct (Lesson_create st l0) as [[lesson st1]|e] eqn:Hcreate; [|exact Hval].
  destruct (Lesson_create_ok st st1 l0 lesson Hcreate) as [_ [-> _]].
  unfold fan_out. destruct (bulk_create _ _) as [st'|e] eqn:Hbulk; [|exact Hval].
  cbn [snd].
  apply (bulk_create_valid (with_lessons st (lessons st ++ [lesson]) (lesson_seq st + 1))
           st' _ Hval (default_records_clean _ _) Hbulk).
Qed.

Lemma create_posted_then_fan_out_valid (st : Store) (l0 : Lesson.t)
    (start_time end_time : option PostedTime.t) :
  records_valid st ->
  records_valid (snd (match Lesson_create_posted st l0 start_time end_time with
                      | Raise e => (Rejected (OperationFailed e), st)
                      | Ok (lesson, st1) =>
                          match start_time, end_time with
                          | Some _, Some _ =>
                              (Rejected (OperationFailed AttributeError), st1)
                          | _, _ => fan_out lesson (Lesson.group lesson) st1
                          end
                      end)).
Proof.
  intros Hval. apply (manual_path_keeps records_valid); [exact Hval|].
  intros lesson st1 Hcreate.
  destruct (Lesson_create_posted_ok st st1 l0 lesson _ _ Hcreate) as [_ [-> _]].
  split; [exact Hval|].
  unfold fan_out. destruct (bulk_create _ _) as [st'|e] eqn:Hbulk; [|exact Hval].
  cbn [snd].
  apply (bulk_create_valid (with_lessons st (lessons st ++ [lesson]) (lesson_seq st + 1))
           st' _ Hval (default_records_clean _ _) Hbulk).
Qed.

Lemma create_missing_valid (ls : list Lesson.t) (c : nat) (st : Store) :
  records_valid st -> records_valid (snd (create_missing ls c st)).
Proof.
  revert c st. induction ls as [|l ls IH]; intros c st Hval; [exact Hval|].
  cbn [create_missing].
  destruct (default_records _ _) as [|a batch] eqn:Hbatch; [now apply IH|].
  destruct (bulk_create st (a :: batch)) as [st'|e] eqn:Hbulk; [|exact Hval].
  apply IH. apply (bulk_create_valid st st' (a :: batch) Hval); [|exact Hbulk].
  rewrite <- Hbatch. apply default_records_clean.
Qed.

Lemma edit_entry_valid (student : Student.t) (dict : Z -> option Attendance.t)
    (form : Z -> Entry.t) (l : Lesson.t) (c c' : bool) (st st' : Store) :
  records_valid st ->
  edit_entry student dict form l c st = Ok (c', st') ->
  records_valid st'.
Proof.
  intros Hval. unfold edit_entry. destruct (dict (Lesson.id l)) as [a0|].
  - destruct (_ || _); [|intros H; inversion H; now subst].
    unfold Attendance_save, bind. rewrite written_is_clean.
    destruct (existsb _ _); [discriminate|].
    intros H. inversion H. intros a Ha. cbn in Ha. apply in_map_iff in Ha.
    destruct Ha as [r [Hr Hin]]. destruct (Attendance.id r =? Attendance.id a0).
    + subst a. apply written_is_clean.
    + subst a. now apply Hval.
  - unfold Attendance_create, bind, new_Attendance. rewrite written_is_clean.
    destruct (existsb _ _); [discriminate|].
    intros H. inversion H. intros a Ha. cbn in Ha. apply in_app_or in Ha.
    destruct Ha as [Ha|[<-|[]]]; [now apply Hval|].
    rewrite clean_with_id. apply written_is_clean.
Qed.

Lemma edit_entries_valid (student : Student.t) (dict : Z -> option Attendance.t)
    (form : Z -> Entry.t) (ls : list Lesson.t) (c : bool) (st : Store) :
  records_valid st -> records_valid (snd (edit_entries student dict form ls c st)).
Proof.
  revert c st. induction ls as [|l ls IH]; intros c st Hval; [exact Hval|].
  cbn [edit_entries].
  destruct (edit_entry student dict form l c st) as [[c1 st1]|e] eqn:Hstep; [|exact Hval].
  apply IH. now apply (edit_entry_valid student dict form l c c1 st st1).
Qed.

(** X7: the views store only attendance records that [Attendance.clean]
    accepts: if every record of the store has no grade or a grade from 2 to
    5 and is late only if it attended, the same holds after any request to
    any of the six views, although the fan-out and the reconciler insert
    without calling [clean]. *)
Theorem views_keep_records_valid (st : Store) :
  records_valid st ->
  (forall user method form, records_valid (snd (add_schedule user method form st)))
  /\ (forall user method sid, records_valid (snd (delete_schedule user method sid st)))
  /\ (forall user method form, records_valid (snd (add_lesson user method form st)))
  /\ (forall user method sid form,
         records_valid (snd (create_lesson_from_schedule user method sid form st)))
  /\ (forall user method,
         records_valid (snd (create_missing_attendance_records user method st)))
  /\ (forall user method student_id form,
         records_valid (snd (edit_attendance user method student_id form st)))
  /\ (forall a, In a (attendances st) ->
        match Attendance.grade a with
        | Some g => 2 <= g <= 5
        | None => True
        end
        /\ (Attendance.late a = true -> Attendance.attended a = true)).
Proof.
  intros Hval. split; [|split; [|split; [|split; [|split; [|split]]]]].
  - intros user method form.
    destruct (add_schedule_stored user method form st)
      as [->|[group [subject [teacher [w [start_time [end_time [b0 [e0 H]]]]]]]]];
      [exact Hval|].
    destruct H as [_ [_ [_ [_ [_ ->]]]]]. cbn [snd].
    exact Hval.
  - intros user method sid. unfold delete_schedule.
    destruct (get_schedule st sid) as [s|]; [|exact Hval].
    destruct (negb _); [exact Hval|].
    destruct method; [exact Hval|].
    intros a Ha. cbn in Ha. apply filter_In in Ha. now apply Hval.
  - intros user method form. unfold add_lesson.
    destruct (teacher_of st user) as [teacher|]; [|exact Hval].
    destruct method; [exact Hval|].
    destruct (LessonForm.date form) as [| |d]; [exact Hval|exact Hval|].
    destruct (is_from_schedule_type _).
    + unfold add_lesson_from_schedule.
      destruct (is_absent _); [exact Hval|].
      destruct (get_object_or_404 _ _) as [schedule|e]; [|exact Hval].
      destruct (negb (works_with _ _)); [exact Hval|].
      destruct (negb (weekday d =? _)); [exact Hval|].
      destruct (first _); [exact Hval|].
      now apply (create_then_fan_out_valid st _ Lesson.group).
    + unfold add_lesson_manual.
      destruct (_ || _); [exact Hval|].
      destruct (get_object_or_404 _ (LessonForm.subject form)); [|exact Hval].
      destruct (get_object_or_404 _ (LessonForm.group form)); [|exact Hval].
      destruct (negb (works_with _ _)); [exact Hval|].
      destruct (first _); [exact Hval|].
      now apply (create_posted_then_fan_out_valid st).
  - intros user method sid form. unfold create_lesson_from_schedule.
    destruct (get_schedule st sid) as [schedule|]; [|exact Hval].
    destruct (refused st user schedule); [exact Hval|].
    destruct method; [exact Hval|].
    destruct (LessonForm.date form) as [| |d]; [exact Hval|exact Hval|].
    destruct (negb (weekday d =? _)); [exact Hval|].
    destruct (first _); [exact Hval|].
    now apply (create_then_fan_out_valid st _ (fun _ => Schedule.group schedule)).
  - intros user method. unfold create_missing_attendance_records.
    destruct (negb _); [exact Hval|]. destruct method; [exact Hval|].
    now apply create_missing_valid.
  - intros user method student_id form. unfold edit_attendance.
    destruct (get_student st student_id) as [student|]; [|exact Hval].
    destruct (negb _); [exact Hval|]. destruct method; [exact Hval|].
    now apply edit_entries_valid.
  - intros a Ha. apply Hval in Ha. apply Attendance_clean_ok in Ha.
    destruct Ha as [Hg Hl]. split; [exact Hg|].
    intros Hlate. destruct (Attendance.attended a); [reflexivity|].
    specialize (Hl eq_refl). congruence.
Qed.

Lemma school_records_valid : records_valid school.
Proof. intros a Ha. simpl in Ha. destruct Ha as [<-|[<-|[]]]; reflexivity. Qed.

Lemma views_keep_records_valid_witness :
  (forall user method form, records_valid (snd (add_schedule user method form school)))
  /\ (forall user method sid, records_valid (snd (delete_schedule user method sid school)))
  /\ (forall user method form, records_valid (snd (add_lesson user method form school)))
  /\ (forall user method sid form,
         records_valid (snd (create_lesson_from_schedule user method sid form school)))
  /\ (forall user method,
         records_valid (snd (create_missing_attendance_records user method school)))
  /\ (forall user method student_id form,
         records_valid (snd (edit_attendance user method student_id form school)))
  /\ (forall a, In a (attendances school) ->
        match Attendance.grade a with
        | Some g => 2 <= g <= 5
        | None => True
        end
        /\ (Attendance.late a = true -> Attendance.attended a = true)).
Proof. exact (views_keep_records_valid school school_records_valid). Defined.

(** ** The figures of the home page *)

Lemma filter_split_length {A : Type} (p : A -> bool) (l : list A) :
  (List.length (filter p l) + List.length (filter (fun x => negb (p x)) l))%nat
  = List.length l.
Proof.
  induction l as [|a l IH]; simpl; [reflexivity|].
  destruct (p a); simpl; lia.
Qed.

Lemma filter_length_le {A : Type} (p q : A -> bool) (l : list A) :
  (forall x, In x l -> p x = true -> q x = true) ->
  (List.length (filter p l) <= List.length (filter q l))%nat.
Proof.
  induction l as [|a l IH]; simpl; intros H; [lia|].
  assert (IH' : (List.length (filter p l) <= List.length (filter q l))%nat).
  { apply IH. intros x Hx. apply H. now right. }
  destruct (p a) eqn:Hp.
  - rewrite (H a (or_introl eq_refl) Hp). simpl. lia.
  - destruct (q a); simpl; lia.
Qed.

(** X8: the counts that the home page shows for a student add up: the
    lessons attended and the lessons missed are all the lessons, so the
    [missed] of a parent's view is the number of absences; and in a store
    whose records are valid the late lessons are among the attended ones. *)
Theorem home_counts_add_up (st : Store) (student : Z) :
  (Counts.attended (student_counts st student)
   + Counts.absent (student_counts st student))%nat
  = Counts.total (student_counts st student)
  /\ child_missed st student = Z.of_nat (Counts.absent (student_counts st student))
  /\ (records_valid st ->
      (Counts.late (student_counts st student)
       <= Counts.attended (student_counts st student))%nat).
Proof.
  unfold child_missed, student_counts. cbn [Counts.total Counts.attended Counts.late
                                             Counts.absent].
  pose proof (filter_split_length (fun a => Attendance.attended a) (records_of st student))
    as Hsum.
  split; [exact Hsum|]. split; [lia|].
  intros Hval. apply filter_length_le. intros a Ha Hlate.
  unfold records_of in Ha. apply filter_In in Ha. destruct Ha as [Ha _].
  apply Hval in Ha. apply Attendance_clean_ok in Ha. destruct Ha as [_ Hl].
  destruct (Attendance.attended a); [reflexivity|]. specialize (Hl eq_refl). congruence.
Qed.

Lemma home_counts_add_up_witness :
  (Counts.late (student_counts school 1) <= Counts.attended (student_counts school 1))%nat.
Proof.
  apply (home_counts_add_up school 1). exact school_records_valid.
Defined.

(** ** The report of the reconciler *)

Lemma shortfall_entry (st : Store) (ls : list Lesson.t) (e : Shortfall.t) :
  In e (lessons_without_full_attendance_of st ls) ->
  exists l, In l ls
    /\ List.length (students_of_group st (Lesson.group l))
       <> List.length (records_of_lesson st (Lesson.id l))
    /\ Shortfall.missing_count e
       = Z.of_nat (List.length (students_of_group st (Lesson.group l)))
         - Z.of_nat (List.length (records_of_lesson st (Lesson.id l))).
Proof.
  induction ls as [|l ls IH]; simpl; [contradiction|].
  destruct (Nat.eqb _ _) eqn:E; simpl.
  - intros H. destruct (IH H) as [l' [Hl' H']]. exists l'. split; [now right | exact H'].
  - intros [<-|H].
    + exists l. apply Nat.eqb_neq in E. simpl. auto.
    + destruct (IH H) as [l' [Hl' H']]. exists l'. split; [now right | exact H'].
Qed.

Lemma shortfall_none (st : Store) (ls : list Lesson.t) :
  (forall l, In l ls ->
     List.length (students_of_group st (Lesson.group l))
     = List.length (records_of_lesson st (Lesson.id l))) ->
  lessons_without_full_attendance_of st ls = [].
Proof.
  induction ls as [|l ls IH]; simpl; intros H; [reflexivity|].
  rewrite (H l (or_introl eq_refl)), Nat.eqb_refl. simpl.
  apply IH. intros l' Hl'. apply H. now right.
Qed.

Lemma missing_rows_nil (st : Store) (ls : list Lesson.t) (l : Lesson.t) :
  missing_rows st ls = [] -> In l ls -> students_without_attendance st l = [].
Proof.
  unfold missing_rows. induction ls as [|l' ls IH]; simpl; [contradiction|].
  intros H. apply app_eq_nil in H. destruct H as [H1 H2].
  intros [<-|Hl]; [|now apply IH].
  unfold default_records in H1. now apply map_eq_nil in H1.
Qed.

(** When no lesson lacks a record, each lesson has at least as many records
    as its group has students. *)
Lemma complete_lesson_counts (st : Store) (l : Lesson.t) :
  NoDup (map Student.id (students st)) ->
  students_without_attendance st l = [] ->
  incl (map Student.id (students_of_group st (Lesson.group l)))
       (map Attendance.student (records_of_lesson st (Lesson.id l)))
  /\ (List.length (students_of_group st (Lesson.group l))
      <= List.length (records_of_lesson st (Lesson.id l)))%nat.
Proof.
  intros Hnd Hnone.
  assert (Hincl : incl (map Student.id (students_of_group st (Lesson.group l)))
                       (map Attendance.student (records_of_lesson st (Lesson.id l)))).
  { intros i Hi. apply in_map_iff in Hi. destruct Hi as [s [<- Hs]].
    destruct (mem (Student.id s) (existing_attendance st l)) eqn:E.
    - apply mem_In in E. exact E.
    - exfalso. assert (Hin : In s (students_without_attendance st l)).
      { unfold students_without_attendance. apply filter_In. now rewrite E. }
      rewrite Hnone in Hin. contradiction. }
  split; [exact Hincl|].
  rewrite <- (length_map Student.id), <- (length_map Attendance.student).
  apply NoDup_incl_length; [|exact Hincl].
  unfold students_of_group. now apply filter_keeps_distinct.
Qed.

Lemma records_of_lesson_students (st : Store) (lesson_id : Z) :
  NoDup (map attendance_key (attendances st)) ->
  NoDup (map Attendance.student (records_of_lesson st lesson_id)).
Proof.
  intros Hkeys. unfold records_of_lesson.
  pose proof (filter_keeps_distinct attendance_key
                (fun a => Attendance.lesson a =? lesson_id) (attendances st) Hkeys) as Hf.
  assert (Hsame : forall a, In a (filter (fun a => Attendance.lesson a =? lesson_id)
                                         (attendances st)) ->
                            Attendance.lesson a = lesson_id).
  { intros a Ha. apply filter_In in Ha. now apply Z.eqb_eq. }
  induction (filter _ (attendances st)) as [|a rows IH]; [constructor|].
  simpl in Hf. inversion Hf as [|? ? Hnotin Hrest]; subst. simpl. constructor.
  - intros Hin. apply Hnotin. apply in_map_iff in Hin. destruct Hin as [b [Hb Hinb]].
    apply in_map_iff. exists b. split; [|exact Hinb].
    unfold attendance_key. rewrite Hb. f_equal.
    rewrite (Hsame a (or_introl eq_refl)). apply Hsame. now right.
  - apply IH; [exact Hrest|]. intros b Hb. apply Hsame. now right.
Qed.

(** X9: after a run of the reconciler, the report of lessons without full
    attendance lists no lesson that lacks a record: every lesson it lists
    has more records than its group has students (records of students who
    left the group); and if every record belongs to a student who is in the
    group of its lesson, the report is empty. *)
Theorem reconciler_report (user : User.t) (st : Store) :
  wf_store st ->
  User.is_superuser user = true ->
  (forall e,
      In e (lessons_without_full_attendance
              (snd (create_missing_attendance_records user POST st))) ->
      Shortfall.missing_count e < 0)
  /\ (no_strays st ->
      lessons_without_full_attendance
        (snd (create_missing_attendance_records user POST st)) = []).
Proof.
  intros Hwf Hsuper.
  pose proof (create_missing_attendance_records_wf user POST st Hwf) as Hwf'.
  unfold create_missing_attendance_records in *. rewrite Hsuper in *.
  simpl negb in *. cbv iota in *.
  rewrite (create_missing_closed (all_lessons st) 0%nat st
             (all_lessons_NoDup st (wf_lessons Hwf)) (wf_students Hwf)) in *.
  cbn [snd] in *.
  set (st' := add_rows st (missing_rows st (all_lessons st))) in *.
  assert (Hsame : all_lessons st' = all_lessons st) by reflexivity.
  assert (Hcomplete : forall l, In l (all_lessons st) ->
                        students_without_attendance st' l = []).
  { intros l Hl. apply (missing_rows_nil st' (all_lessons st)); [|exact Hl].
    apply missing_rows_after. }
  split.
  - intros e He. unfold lessons_without_full_attendance in He. rewrite Hsame in He.
    apply shortfall_entry in He. destruct He as [l [Hl [Hne ->]]].
    destruct (complete_lesson_counts st' l (wf_students Hwf') (Hcomplete l Hl)) as [_ Hle].
    lia.
  - intros Hstrays. unfold lessons_without_full_attendance. rewrite Hsame.
    apply shortfall_none. intros l Hl.
    destruct (complete_lesson_counts st' l (wf_students Hwf') (Hcomplete l Hl))
      as [Hincl Hle].
    apply all_lessons_In in Hl.
    apply Nat.le_antisymm; [exact Hle|].
    rewrite <- (length_map Student.id), <- (length_map Attendance.student).
    apply NoDup_incl_length;
      [apply records_of_lesson_students; apply (wf_unique Hwf')|].
    intros j Hj. apply in_map_iff in Hj. destruct Hj as [a [<- Ha]].
    unfold records_of_lesson in Ha. apply filter_In in Ha. destruct Ha as [Ha Hlesson].
    apply Z.eqb_eq in Hlesson.
    unfold st', add_rows in Ha. cbn [attendances with_attendances] in Ha.
    apply in_app_or in Ha. destruct Ha as [Ha|Ha].
    + exact (Hstrays a l Ha Hl Hlesson).
    + assert (Hkey : In (Lesson.id l, Attendance.student a)
                        (map attendance_key (missing_rows st (all_lessons st)))).
      { rewrite <- (number_from_key (attendance_seq st)). apply in_map_iff.
        exists a. split; [|exact Ha]. unfold attendance_key. now rewrite Hlesson. }
      apply missing_rows_key in Hkey.
      destruct Hkey as [l' [s [Hl' [Hs [Hid ->]]]]]. apply all_lessons_In in Hl'.
      assert (l' = l).
      { apply (NoDup_map_eq Lesson.id (lessons st)); auto. apply (wf_lessons Hwf). }
      subst l'. unfold students_without_attendance in Hs. apply filter_In in Hs.
      apply in_map. exact (proj1 Hs).
Qed.

Lemma school_after_join_no_strays : no_strays school_after_join.
Proof.
  intros a l Ha Hl Hid. simpl in Ha, Hl. destruct Hl as [<-|[]].
  destruct Ha as [<-|[<-|[]]]; simpl; tauto.
Qed.

Lemma reconciler_report_witness :
  lessons_without_full_attendance
    (snd (create_missing_attendance_records admin POST school_after_join)) = [].
Proof.
  apply (reconciler_report admin school_after_join school_after_join_wf eq_refl).
  exact school_after_join_no_strays.
Defined.

(** Before the run the report of that school lists the lesson of the Monday
    with one record missing; in the school that a student left, the run
    creates nothing and the lesson stays listed with one record too many. *)
Lemma reconciler_report_examples :
  map Shortfall.missing_count (lessons_without_full_attendance school_after_join) = [1]
  /\ map Shortfall.missing_count
         (lessons_without_full_attendance
            (snd (create_missing_attendance_records admin POST school_after_move)))
     = [-1].
Proof. split; reflexivity. Qed.

(** ** [edit_attendance]: what it leaves alone, and posting twice *)

(** X10: [edit_attendance] for a student touches only the records of that
    student for the lessons of the student's group: every other record is in
    the table afterwards exactly if it was there before, and the lessons,
    students and schedule are as they were. *)
Theorem edit_attendance_frame (user : User.t) (method : http_method) (student_id : Z)
    (student : Student.t) (form : Z -> Entry.t) (st : Store) :
  wf_store st ->
  get_student st student_id = Some student ->
  (forall a,
      Attendance.student a <> Student.id student
      \/ (forall l, In l (lessons st) -> Lesson.group l = Student.group student ->
                    Attendance.lesson a <> Lesson.id l) ->
      (In a (attendances (snd (edit_attendance user method student_id form st)))
       <-> In a (attendances st)))
  /\ lessons (snd (edit_attendance user method student_id form st)) = lessons st
  /\ students (snd (edit_attendance user method student_id form st)) = students st
  /\ schedules (snd (edit_attendance user method student_id form st)) = schedules st.
Proof.
  intros Hwf Hget. unfold edit_attendance. rewrite Hget.
  destruct (negb (has_access st user student)); [cbn; tauto|].
  destruct method; [cbn; tauto|].
  set (dict := records_dict (records_of st (Student.id student))).
  set (ls := lessons_of_group st (Student.group student)).
  destruct (edit_entries_tables student dict form ls false st) as [Hles [Hstu _]].
  destruct (edit_entries_timetable student dict form ls false st) as [Hsch _].
  destruct (edit_entries_all student dict form ls
              (lessons_of_group_NoDup st _ (wf_lessons Hwf))
              false st (wf_table_ok st Hwf)
              (fun l _ => records_dict_agrees st (Student.id student) (Lesson.id l)))
    as [c [st' [Hrun [_ [_ Hframe]]]]].
  rewrite Hrun in *. cbn [snd] in *.
  split; [|auto].
  intros a Ha. apply Hframe. intros l Hl Hkey.
  apply (lessons_of_group_In st (Student.group student) l) in Hl. destruct Hl as [Hl Hg].
  unfold attendance_key in Hkey. inversion Hkey as [[Hlesson Hstudent]].
  destruct Ha as [Ha|Ha]; [contradiction|].
  exact (Ha l Hl Hg Hlesson).
Qed.

Lemma edit_attendance_frame_witness :
  (forall a,
      Attendance.student a <> 1
      \/ (forall l, In l (lessons school) -> Lesson.group l = 1 ->
                    Attendance.lesson a <> Lesson.id l) ->
      (In a (attendances
               (snd (edit_attendance teacher_user POST 1
                       (every_lesson false false Absent) school)))
       <-> In a (attendances school)))
  /\ lessons (snd (edit_attendance teacher_user POST 1
                     (every_lesson false false Absent) school)) = lessons school
  /\ students (snd (edit_attendance teacher_user POST 1
                      (every_lesson false false Absent) school)) = students school
  /\ schedules (snd (edit_attendance teacher_user POST 1
                       (every_lesson false false Absent) school)) = schedules school.
Proof.
  exact (edit_attendance_frame teacher_user POST 1 (Student.mk 1 21 1)
           (every_lesson false false Absent) school school_wf eq_refl).
Defined.

Lemma eqb_opt_refl (a : option Z) : eqb_opt a a = true.
Proof. destruct a; simpl; [apply Z.eqb_refl | reflexivity]. Qed.

(** A loop over lessons whose records hold the posted values already
    writes nothing. *)
Lemma edit_entries_nothing (student : Student.t) (dict : Z -> option Attendance.t)
    (form : Z -> Entry.t) (ls : list Lesson.t) (c : bool) (st : Store) :
  (forall l, In l ls ->
     exists a0, dict (Lesson.id l) = Some a0
                /\ values a0 = written (form (Lesson.id l))) ->
  edit_entries student dict form ls c st = (AttendanceUpdated c, st).
Proof.
  induction ls as [|l ls IH]; intros H; [reflexivity|].
  cbn [edit_entries]. unfold edit_entry.
  destruct (H l (or_introl eq_refl)) as [a0 [Hdict Hval]]. rewrite Hdict.
  unfold values, written in Hval.
  assert (Ha : Attendance.attended a0 = Entry.attended (form (Lesson.id l)))
    by congruence.
  assert (Hl : Attendance.late a0
               = Entry.attended (form (Lesson.id l)) && Entry.late (form (Lesson.id l)))
    by congruence.
  assert (Hg : Attendance.grade a0 = posted_grade (Entry.grade (form (Lesson.id l))))
    by congruence.
  cbv zeta. rewrite late_normalised, Ha, Hl, Hg, eqb_opt_refl, !eqb_reflx. simpl.
  apply IH. intros l' Hl'. apply H. now right.
Qed.

Lemma edit_entries_people (student : Student.t) (dict : Z -> option Attendance.t)
    (form : Z -> Entry.t) (ls : list Lesson.t) (c : bool) (st : Store) :
  teachers (snd (edit_entries student dict form ls c st)) = teachers st
  /\ parents (snd (edit_entries student dict form ls c st)) = parents st.
Proof.
  revert c st. induction ls as [|l ls IH]; intros c st; [now split|].
  cbn [edit_entries].
  destruct (edit_entry student dict form l c st) as [[c1 st1]|e] eqn:Hstep; [|now split].
  assert (H1 : teachers st1 = teachers st /\ parents st1 = parents st).
  { unfold edit_entry in Hstep. destruct (dict (Lesson.id l)) as [a0|].
    - destruct (_ || _); [|inversion Hstep; now split].
      unfold Attendance_save, bind in Hstep.
      destruct (Attendance_clean _) as [[]|[]]; try discriminate.
      + destruct (existsb _ _); [discriminate|]. inversion Hstep. now split.
      + inversion Hstep. now split.
    - unfold Attendance_create, bind in Hstep.
      destruct (Attendance_clean _) as [[]|[]]; try discriminate.
      + destruct (existsb _ _); [discriminate|]. inversion Hstep. now split.
      + inversion Hstep. now split. }
  destruct H1 as [H1 H2]. destruct (IH c1 st1) as [H3 H4]. split; congruence.
Qed.

(** X11: posting the same attendance form twice writes nothing the second
    time: the view answers that there are no changes and the store is the
    one the first request left. *)
Theorem edit_attendance_twice (user : User.t) (student_id : Z) (student : Student.t)
    (form : Z -> Entry.t) (st : Store) :
  wf_store st ->
  get_student st student_id = Some student ->
  has_access st user student = true ->
  edit_attendance user POST student_id form
    (snd (edit_attendance user POST student_id form st))
  = (AttendanceUpdated false, snd (edit_attendance user POST student_id form st)).
Proof.
  intros Hwf Hget Haccess.
  destruct (edit_attendance_writes user student_id student form st Hwf Hget Haccess)
    as [c [st' [Hrun Hrows]]].
  destruct (edit_attendance_frame user POST student_id student form st Hwf Hget)
    as [_ [Hles [Hstu _]]].
  rewrite Hrun in *. cbn [snd] in *.
  assert (Hget' : get_student st' student_id = Some student).
  { unfold get_student. rewrite Hstu. exact Hget. }
  assert (Haccess' : has_access st' user student = true).
  { pose proof (edit_entries_people student
                  (records_dict (records_of st (Student.id student))) form
                  (lessons_of_group st (Student.group student)) false st) as [Ht Hp].
    unfold edit_attendance in Hrun. rewrite Hget, Haccess in Hrun. simpl in Hrun.
    rewrite Hrun in Ht, Hp. cbn [snd] in Ht, Hp.
    revert Haccess. unfold has_access, teacher_of, parent_of. now rewrite Ht, Hp. }
  unfold edit_attendance. rewrite Hget', Haccess'. simpl negb. cbv iota.
  apply edit_entries_nothing. intros l Hl.
  apply lessons_of_group_In in Hl. destruct Hl as [Hl Hg]. rewrite Hles in Hl.
  destruct (Hrows l Hl Hg) as [a [Ha [Hkey [Hval Huniq]]]].
  pose proof (records_dict_agrees st' (Student.id student) (Lesson.id l)) as Hagree.
  unfold agrees in Hagree.
  destruct (records_dict (records_of st' (Student.id student)) (Lesson.id l)) as [a0|].
  - destruct Hagree as [Ha0 Hkey0]. exists a0. split; [reflexivity|].
    rewrite (Huniq a0 Ha0); [exact Hval | congruence].
  - exfalso. exact (Hagree a Ha Hkey).
Qed.

Lemma edit_attendance_twice_witness :
  edit_attendance teacher_user POST 1 (every_lesson true false (Value 5))
    (snd (edit_attendance teacher_user POST 1 (every_lesson true false (Value 5)) school))
  = (AttendanceUpdated false,
     snd (edit_attendance teacher_user POST 1 (every_lesson true false (Value 5)) school)).
Proof.
  apply (edit_attendance_twice teacher_user 1 (Student.mk 1 21 1)
           (every_lesson true false (Value 5)) school school_wf); reflexivity.
Defined.

(** ** One profile for a user *)

Lemma existsb_filter_length {A : Type} (p : A -> bool) (l : list A) :
  existsb p l = false <-> List.length (filter p l) = 0%nat.
Proof.
  induction l as [|a l IH]; simpl; [tauto|].
  destruct (p a); simpl; [split; discriminate | exact IH].
Qed.

Lemma filter_app_one_length {A : Type} (p : A -> bool) (l : list A) (x : A) :
  List.length (filter p (l ++ [x]))
  = (List.length (filter p l) + if p x then 1 else 0)%nat.
Proof.
  rewrite filter_app, length_app. simpl. now destruct (p x).
Qed.

(** X12: a profile is created only for a user who has no profile of any
    kind, and then the user has exactly one; so if no user of the store has
    more than one profile, none has after a [Student], [Teacher] or [Parent]
    is created. *)
Theorem profile_created_alone (st st' : Store) (pk : Z) :
  (forall s, Student_create st pk s = Ok st' ->
     profiles st (Student.user s) = 0%nat /\ profiles st' (Student.user s) = 1%nat
     /\ (one_profile st -> one_profile st'))
  /\ (forall t, Teacher_create st pk t = Ok st' ->
        profiles st (Teacher.user t) = 0%nat /\ profiles st' (Teacher.user t) = 1%nat
        /\ (one_profile st -> one_profile st'))
  /\ (forall p, Parent_create st pk p = Ok st' ->
        profiles st (Parent.user p) = 0%nat /\ profiles st' (Parent.user p) = 1%nat
        /\ (one_profile st -> one_profile st')).
Proof.
  split; [|split].
  - intros s. unfold Student_create, Student_clean, bind.
    destruct (has_teacher st _) eqn:Ht; [discriminate|].
    destruct (has_parent st _) eqn:Hp; [discriminate|].
    destruct (has_student st _) eqn:Hs; [discriminate|].
    intros H. inversion H. subst st'. clear H.
    apply existsb_filter_length in Ht, Hp, Hs.
    assert (H0 : profiles st (Student.user s) = 0%nat) by (unfold profiles; lia).
    assert (Hstep : forall u, profiles (with_students st
                                 (students st ++
                                  [Student.mk pk (Student.user s) (Student.group s)])) u
                              = (profiles st u
                                 + if Z.eqb (Student.user s) u then 1 else 0)%nat).
    { intros u. unfold profiles. cbn [students teachers parents with_students].
      rewrite filter_app_one_length. cbn [Student.user]. lia. }
    split; [exact H0|]. split.
    + rewrite Hstep, H0, Z.eqb_refl. reflexivity.
    + intros Hone u. rewrite Hstep. destruct (Student.user s =? u) eqn:E.
      * apply Z.eqb_eq in E. subst u. lia.
      * specialize (Hone u). lia.
  - intros t. unfold Teacher_create, Teacher_clean, bind.
    destruct (has_student st _) eqn:Hs; [discriminate|].
    destruct (has_parent st _) eqn:Hp; [discriminate|].
    destruct (has_teacher st _) eqn:Ht; [discriminate|].
    intros H. inversion H. subst st'. clear H.
    apply existsb_filter_length in Ht, Hp, Hs.
    assert (H0 : profiles st (Teacher.user t) = 0%nat) by (unfold profiles; lia).
    assert (Hstep : forall u, profiles (with_teachers st
                                 (teachers st ++
                                  [Teacher.mk pk (Teacher.user t) (Teacher.main_group t)
                                     (Teacher.additional_groups t) (Teacher.subjects t)])) u
                              = (profiles st u
                                 + if Z.eqb (Teacher.user t) u then 1 else 0)%nat).
    { intros u. unfold profiles. cbn [students teachers parents with_teachers].
      rewrite filter_app_one_length. cbn [Teacher.user]. lia. }
    split; [exact H0|]. split.
    + rewrite Hstep, H0, Z.eqb_refl. reflexivity.
    + intros Hone u. rewrite Hstep. destruct (Teacher.user t =? u) eqn:E.
      * apply Z.eqb_eq in E. subst u. lia.
      * specialize (Hone u). lia.
  - intros p. unfold Parent_create, Parent_clean, bind.
    destruct (has_student st _) eqn:Hs; [discriminate|].
    destruct (has_teacher st _) eqn:Ht; [discriminate|].
    destruct (has_parent st _) eqn:Hp; [discriminate|].
    intros H. inversion H. subst st'. clear H.
    apply existsb_filter_length in Ht, Hp, Hs.
    assert (H0 : profiles st (Parent.user p) = 0%nat) by (unfold profiles; lia).
    assert (Hstep : forall u, profiles (with_parents st
                                 (parents st ++
                                  [Parent.mk pk (Parent.user p) (Parent.children p)])) u
                              = (profiles st u
                                 + if Z.eqb (Parent.user p) u then 1 else 0)%nat).
    { intros u. unfold profiles. cbn [students teachers parents with_parents].
      rewrite filter_app_one_length. cbn [Parent.user]. lia. }
    split; [exact H0|]. split.
    + rewrite Hstep, H0, Z.eqb_refl. reflexivity.
    + intros Hone u. rewrite Hstep. destruct (Parent.user p =? u) eqn:E.
      * apply Z.eqb_eq in E. subst u. lia.
      * specialize (Hone u). lia.
Qed.

Lemma profile_created_alone_witness :
  profiles school 40 = 0%nat
  /\ profiles (with_students school (students school ++ [Student.mk 4 40 2])) 40 = 1%nat
  /\ (one_profile school ->
      one_profile (with_students school (students school ++ [Student.mk 4 40 2]))).
Proof.
  apply (proj1 (profile_created_alone school
                  (with_students school (students school ++ [Student.mk 4 40 2])) 4)
               (Student.mk 0 40 2)).
  reflexivity.
Defined.

(** A teacher of the small school cannot be made a student or a parent. *)
Lemma teacher_cannot_become_student :
  Student_create school 4 (Student.mk 0 10 2)
  = Raise (ValidationError "the user is a teacher already")
  /\ Parent_create school 2 (Parent.mk 0 10 [])
     = Raise (ValidationError "the user is a teacher already").
Proof. split; reflexivity. Qed.

(** ** The page of the schedule *)

Lemma WEEKDAYS_spec (w : Z) : In w WEEKDAYS <-> 0 <= w <= 6.
Proof. unfold WEEKDAYS. simpl. lia. Qed.

Lemma WEEKDAYS_NoDup : NoDup WEEKDAYS.
Proof. unfold WEEKDAYS. nodup_concrete. Qed.

Lemma insert_by_slot_perm (s : Schedule.t) (sorted : list Schedule.t) :
  Permutation (insert_by_slot s sorted) (s :: sorted).
Proof.
  induction sorted as [|x rest IH]; simpl; [reflexivity|].
  destruct (slot_leb s x); [reflexivity|].
  rewrite IH. apply perm_swap.
Qed.

Lemma order_by_slot_perm (ss : list Schedule.t) : Permutation (order_by_slot ss) ss.
Proof.
  induction ss as [|s ss IH]; simpl; [reflexivity|].
  rewrite insert_by_slot_perm. now constructor.
Qed.

Lemma slot_leb_total (a b : Schedule.t) : slot_leb a b = false -> slot_leb b a = true.
Proof.
  unfold slot_leb. rewrite orb_false_iff, andb_false_iff, orb_true_iff, andb_true_iff.
  rewrite !Z.ltb_ge, !Z.ltb_lt, !Z.eqb_neq, !Z.eqb_eq, !Z.leb_gt, !Z.leb_le. lia.
Qed.

Lemma slot_leb_trans (a b c : Schedule.t) :
  slot_leb a b = true -> slot_leb b c = true -> slot_leb a c = true.
Proof.
  unfold slot_leb. rewrite !orb_true_iff, !andb_true_iff.
  rewrite !Z.ltb_lt, !Z.eqb_eq, !Z.leb_le. lia.
Qed.

Lemma insert_by_slot_sorted (s : Schedule.t) (sorted : list Schedule.t) :
  StronglySorted (fun a b => slot_leb a b = true) sorted ->
  StronglySorted (fun a b => slot_leb a b = true) (insert_by_slot s sorted).
Proof.
  induction sorted as [|x rest IH]; simpl; intros Hs.
  - constructor; constructor.
  - inversion Hs as [|? ? Hrest Hall]; subst.
    destruct (slot_leb s x) eqn:E.
    + constructor; [exact Hs|]. constructor; [exact E|].
      apply Forall_forall. intros y Hy. rewrite Forall_forall in Hall.
      apply (slot_leb_trans s x y E). now apply Hall.
    + constructor; [now apply IH|].
      apply Forall_forall. intros y Hy.
      apply (Permutation_in _ (insert_by_slot_perm s rest)) in Hy.
      destruct Hy as [<-|Hy]; [now apply slot_leb_total|].
      rewrite Forall_forall in Hall. now apply Hall.
Qed.

Lemma order_by_slot_sorted (ss : list Schedule.t) :
  StronglySorted (fun a b => slot_leb a b = true) (order_by_slot ss).
Proof.
  induction ss as [|s ss IH]; simpl; [constructor|]. now apply insert_by_slot_sorted.
Qed.

Lemma on_day_sorted (d : Z) (ss : list Schedule.t) :
  StronglySorted (fun a b => slot_leb a b = true) ss ->
  StronglySorted (fun a b => Schedule.start_time a <= Schedule.start_time b) (on_day d ss).
Proof.
  unfold on_day. induction ss as [|s ss IH]; simpl; intros Hs; [constructor|].
  inversion Hs as [|? ? Hrest Hall]; subst.
  destruct (Schedule.weekday s =? d) eqn:E; [|now apply IH].
  constructor; [now apply IH|].
  apply Forall_forall. intros y Hy. apply filter_In in Hy. destruct Hy as [Hy Hd].
  rewrite Forall_forall in Hall. specialize (Hall y Hy).
  apply Z.eqb_eq in E, Hd. unfold slot_leb in Hall.
  rewrite orb_true_iff, andb_true_iff, Z.ltb_lt, Z.eqb_eq, Z.leb_le in Hall. lia.
Qed.

Lemma on_day_perm (d : Z) (l l' : list Schedule.t) :
  Permutation l l' -> Permutation (on_day d l) (on_day d l').
Proof.
  unfold on_day. induction 1 as [|x l l' _ IH|x y l|l l' l'' _ IH1 _ IH2]; simpl.
  - constructor.
  - destruct (Schedule.weekday x =? d); [now constructor | exact IH].
  - destruct (Schedule.weekday x =? d), (Schedule.weekday y =? d);
      try reflexivity. apply perm_swap.
  - now rewrite IH1.
Qed.

Lemma append_day_hit (ds : list Z) (p : list Schedule.t) (x : Schedule.t) :
  NoDup ds ->
  In (Schedule.weekday x) ds ->
  append_day (Schedule.weekday x) x (map (fun d => (d, on_day d p)) ds)
  = Some (map (fun d => (d, on_day d (p ++ [x]))) ds).
Proof.
  induction ds as [|d ds IH]; simpl; intros Hnd Hin; [contradiction|].
  inversion Hnd as [|? ? Hnotin Hrest]; subst.
  assert (Hstep : forall d', on_day d' (p ++ [x])
                             = on_day d' p
                               ++ if Schedule.weekday x =? d' then [x] else []).
  { intros d'. unfold on_day. rewrite filter_app. simpl.
    now destruct (Schedule.weekday x =? d'). }
  destruct (d =? Schedule.weekday x) eqn:E.
  - apply Z.eqb_eq in E. subst d. rewrite Hstep, Z.eqb_refl. do 2 f_equal.
    apply map_ext_in. intros d' Hd'. rewrite Hstep.
    destruct (Schedule.weekday x =? d') eqn:E'.
    + apply Z.eqb_eq in E'. subst d'. contradiction.
    + now rewrite app_nil_r.
  - destruct Hin as [Hin|Hin]; [apply Z.eqb_neq in E; congruence|].
    rewrite (IH Hrest Hin). rewrite (Hstep d).
    replace (Schedule.weekday x =? d) with false
      by (symmetry; apply Z.eqb_neq; apply Z.eqb_neq in E; congruence).
    now rewrite app_nil_r.
Qed.

Lemma append_day_miss (k : Z) (x : Schedule.t) (by_day : list (Z * list Schedule.t)) :
  ~ In k (map fst by_day) -> append_day k x by_day = None.
Proof.
  induction by_day as [|[d day] rest IH]; simpl; intros Hk; [reflexivity|].
  destruct (d =? k) eqn:E.
  - apply Z.eqb_eq in E. exfalso. apply Hk. now left.
  - rewrite IH; [reflexivity|]. intros H. apply Hk. now right.
Qed.

Lemma group_by_day_spec (ds : list Z) (ss p : list Schedule.t) :
  NoDup ds ->
  match group_by_day ss (map (fun d => (d, on_day d p)) ds) with
  | inr by_day =>
      (forall s, In s ss -> In (Schedule.weekday s) ds)
      /\ by_day = map (fun d => (d, on_day d (p ++ ss))) ds
  | inl w => ~ In w ds /\ exists s, In s ss /\ Schedule.weekday s = w
  end.
Proof.
  intros Hnd. revert p. induction ss as [|s ss IH]; intros p.
  - simpl. split; [contradiction|]. now rewrite app_nil_r.
  - cbn [group_by_day].
    destruct (in_dec Z.eq_dec (Schedule.weekday s) ds) as [Hin|Hout].
    + rewrite (append_day_hit ds p s Hnd Hin). specialize (IH (p ++ [s])).
      destruct (group_by_day ss _) as [w|by_day].
      * destruct IH as [Hw [s' [Hs' Heq]]]. split; [exact Hw|].
        exists s'. split; [now right | exact Heq].
      * destruct IH as [Hall ->]. split.
        -- intros s' [<-|Hs']; [exact Hin | now apply Hall].
        -- now rewrite <- app_assoc.
    + rewrite append_day_miss.
      * split; [exact Hout|]. exists s. split; [now left | reflexivity].
      * rewrite map_map. simpl. now rewrite map_id.
Qed.

(** X13: when every schedule that a user may see is on a day from 0 to 6,
    the page of the schedule has one list for each of the seven days; the
    list of a day holds the visible schedules of that day, each once, in the
    order of their start times, and the total is the number of visible
    schedules. *)
Theorem schedule_view_groups (st : Store) (user : User.t) :
  (forall s, In s (snd (visible_schedules st user)) -> 0 <= Schedule.weekday s <= 6) ->
  exists by_day,
    schedule_view st user
    = Page (fst (visible_schedules st user)) by_day
           (List.length (snd (visible_schedules st user)))
    /\ map fst by_day = WEEKDAYS
    /\ forall d day, In (d, day) by_day ->
         Permutation day (on_day d (snd (visible_schedules st user)))
         /\ StronglySorted
              (fun a b => Schedule.start_time a <= Schedule.start_time b) day.
Proof.
  intros Hdays. unfold schedule_view.
  destruct (visible_schedules st user) as [role vis]. cbn [fst snd] in *.
  pose proof (group_by_day_spec WEEKDAYS (order_by_slot vis) [] WEEKDAYS_NoDup) as Hspec.
  change (map (fun d => (d, on_day d [])) WEEKDAYS)
    with (map (fun d : Z => (d, @nil Schedule.t)) WEEKDAYS) in Hspec.
  destruct (group_by_day (order_by_slot vis) _) as [w|by_day].
  - exfalso. destruct Hspec as [Hw [s [Hs Heq]]]. apply Hw. apply WEEKDAYS_spec.
    rewrite <- Heq. apply Hdays. now apply (Permutation_in _ (order_by_slot_perm vis)).
  - destruct Hspec as [_ ->]. simpl app. eexists. split; [reflexivity|]. split.
    + rewrite map_map. cbn [fst]. apply map_id.
    + intros d day Hin. apply in_map_iff in Hin. destruct Hin as [d' [Heq _]].
      inversion Heq. subst d' day. split.
      * apply on_day_perm. apply order_by_slot_perm.
      * apply on_day_sorted. apply order_by_slot_sorted.
Qed.

(** X14: when a schedule that the user may see is on a day below 0 or above
    6, the page of the schedule is not built: the view raises [KeyError] for
    such a day.  [add_schedule] stores such a schedule, since nothing checks
    the weekday that is posted. *)
Theorem schedule_view_key_error (st : Store) (user : User.t) :
  (exists s, In s (snd (visible_schedules st user))
             /\ (Schedule.weekday s < 0 \/ 6 < Schedule.weekday s)) ->
  exists w, schedule_view st user = KeyError w
            /\ (w < 0 \/ 6 < w)
            /\ exists s, In s (snd (visible_schedules st user))
                         /\ Schedule.weekday s = w.
Proof.
  intros [s [Hs Hout]]. unfold schedule_view.
  destruct (visible_schedules st user) as [role vis]. cbn [fst snd] in *.
  pose proof (group_by_day_spec WEEKDAYS (order_by_slot vis) [] WEEKDAYS_NoDup) as Hspec.
  change (map (fun d => (d, on_day d [])) WEEKDAYS)
    with (map (fun d : Z => (d, @nil Schedule.t)) WEEKDAYS) in Hspec.
  destruct (group_by_day (order_by_slot vis) _) as [w|by_day].
  - destruct Hspec as [Hw [s' [Hs' Heq]]]. exists w. split; [reflexivity|].
    rewrite WEEKDAYS_spec in Hw. split; [lia|].
    exists s'. split; [|exact Heq].
    now apply (Permutation_in _ (order_by_slot_perm vis)).
  - exfalso. destruct Hspec as [Hall _].
    assert (Hin : In (Schedule.weekday s) WEEKDAYS).
    { apply Hall. now apply (Permutation_in _ (Permutation_sym (order_by_slot_perm vis))). }
    apply WEEKDAYS_spec in Hin. lia.
Qed.

Lemma schedule_view_groups_witness :
  exists by_day,
    schedule_view new_school teacher_user
    = Page (fst (visible_schedules new_school teacher_user)) by_day
           (List.length (snd (visible_schedules new_school teacher_user)))
    /\ map fst by_day = WEEKDAYS
    /\ forall d day, In (d, day) by_day ->
         Permutation day (on_day d (snd (visible_schedules new_school teacher_user)))
         /\ StronglySorted
              (fun a b => Schedule.start_time a <= Schedule.start_time b) day.
Proof.
  apply (schedule_view_groups new_school teacher_user).
  intros s Hs. simpl in Hs. destruct Hs as [<-|[]]. simpl. lia.
Defined.

Lemma schedule_view_key_error_witness :
  exists w,
    schedule_view (snd (add_schedule teacher_user POST ninth_day_form new_school))
                  teacher_user = KeyError w
    /\ (w < 0 \/ 6 < w)
    /\ exists s,
         In s (snd (visible_schedules
                      (snd (add_schedule teacher_user POST ninth_day_form new_school))
                      teacher_user))
         /\ Schedule.weekday s = w.
Proof.
  apply (schedule_view_key_error
           (snd (add_schedule teacher_user POST ninth_day_form new_school)) teacher_user).
  exists (Schedule.mk 2 1 1 1 9 (hm 9 0) (hm 10 0) (Some "102"%string) true).
  split; [simpl; right; left; reflexivity | simpl; lia].
Defined.

(** ** Lessons and the rows of the schedule they are linked to *)

Lemma get_schedule_id (st : Store) (i : Z) (s : Schedule.t) :
  get_schedule st i = Some s -> Schedule.id s = i.
Proof.
  unfold get_schedule. intros H. apply find_some in H. destruct H as [_ H].
  now apply Z.eqb_eq in H.
Qed.

Lemma get_schedule_after_add (st st' : Store) (i : Z) (s new : Schedule.t) :
  schedules st' = schedules st ++ [new] ->
  get_schedule st i = Some s -> get_schedule st' i = Some s.
Proof.
  unfold get_schedule. intros ->. induction (schedules st) as [|r rows IH]; simpl.
  - discriminate.
  - destruct (Schedule.id r =? i); [auto | exact IH].
Qed.

Lemma get_schedule_after_delete (rows : list Schedule.t) (i j : Z) :
  i <> j ->
  find (fun s => Schedule.id s =? i)
       (filter (fun s' => negb (Schedule.id s' =? j)) rows)
  = find (fun s => Schedule.id s =? i) rows.
Proof.
  intros Hij. induction rows as [|r rows IH]; simpl; [reflexivity|].
  destruct (Schedule.id r =? j) eqn:Ej; simpl.
  - apply Z.eqb_eq in Ej. rewrite IH.
    replace (Schedule.id r =? i) with false; [reflexivity|].
    symmetry. apply Z.eqb_neq. congruence.
  - destruct (Schedule.id r =? i); [reflexivity | exact IH].
Qed.

Lemma follows_same (st st' : Store) (l : Lesson.t) :
  schedules st' = schedules st -> follows_schedule st l -> follows_schedule st' l.
Proof.
  unfold follows_schedule, get_schedule. now intros ->.
Qed.

Lemma lessons_follow_same (st st' : Store) :
  schedules st' = schedules st -> lessons st' = lessons st ->
  lessons_follow st -> lessons_follow st'.
Proof.
  intros Hs Hl H l Hin. rewrite Hl in Hin. apply (follows_same st st' l Hs). now apply H.
Qed.

Lemma create_then_fan_out_follows (st : Store) (l0 : Lesson.t)
    (group_of : Lesson.t -> Z) :
  lessons_follow st ->
  (forall sid, Lesson.schedule l0 = Some sid ->
     exists s, get_schedule st sid = Some s
               /\ Lesson.is_from_schedule l0 = true
               /\ weekday (Lesson.date l0) = Schedule.weekday s) ->
  lessons_follow
    (snd (match Lesson_create st l0 with
          | Raise e => (Rejected (OperationFailed e), st)
          | Ok (lesson, st1) => fan_out lesson (group_of lesson) st1
          end)).
Proof.
  intros Hfollow Hnew.
  destruct (Lesson_create st l0) as [[lesson st1]|e] eqn:Hcreate; [|exact Hfollow].
  destruct (Lesson_create_ok st st1 l0 lesson Hcreate) as [_ [Hst1 [l1 [Hcopy Hl]]]].
  destruct (fan_out lesson (group_of lesson) st1) as [resp st'] eqn:Hfan.
  destruct (fan_out_tables _ _ _ _ _ Hfan) as [Hlessons Hschedules].
  cbn [snd]. subst st1. cbn in Hlessons, Hschedules.
  intros l Hin. rewrite Hlessons in Hin. apply in_app_or in Hin.
  destruct Hin as [Hin|[<-|[]]].
  - apply (follows_same st st' l Hschedules). now apply Hfollow.
  - apply (follows_same st st' lesson Hschedules).
    unfold Lesson_copy_schedule in Hcopy. unfold follows_schedule. subst lesson.
    destruct (Lesson.schedule l0) as [sid|] eqn:Hsid.
    + destruct (Hnew sid eq_refl) as [s [Hs [Hflag Hday]]]. rewrite Hs, Hflag in Hcopy.
      inversion Hcopy. subst l1. cbn. rewrite Hsid, Hs.
      repeat split; assumption.
    + inversion Hcopy. subst l1. cbn. rewrite Hsid. exact I.
Qed.

Lemma create_posted_then_fan_out_follows (st : Store) (l0 : Lesson.t)
    (start_time end_time : option PostedTime.t) :
  lessons_follow st ->
  Lesson.schedule l0 = None ->
  lessons_follow
    (snd (match Lesson_create_posted st l0 start_time end_time with
          | Raise e => (Rejected (OperationFailed e), st)
          | Ok (lesson, st1) =>
              match start_time, end_time with
              | Some _, Some _ => (Rejected (OperationFailed AttributeError), st1)
              | _, _ => fan_out lesson (Lesson.group lesson) st1
              end
          end)).
Proof.
  intros Hfollow Hnone. apply (manual_path_keeps lessons_follow); [exact Hfollow|].
  intros lesson st1 Hcreate.
  destruct (Lesson_create_posted_ok st st1 l0 lesson _ _ Hcreate)
    as [_ [Hst1 [b [e [_ [_ [Hl _]]]]]]].
  assert (Hstep : lessons_follow st1).
  { subst st1. intros l Hin. cbn in Hin. apply in_app_or in Hin.
    destruct Hin as [Hin|[<-|[]]].
    - apply (follows_same st _ l eq_refl). now apply Hfollow.
    - unfold follows_schedule. subst lesson. cbn. rewrite Hnone. exact I. }
  split; [exact Hstep|].
  destruct (fan_out lesson (Lesson.group lesson) st1) as [resp st'] eqn:Hfan.
  destruct (fan_out_tables _ _ _ _ _ Hfan) as [Hlessons Hschedules].
  cbn [snd]. now apply (lessons_follow_same st1 st').
Qed.

Lemma create_missing_lessons (ls : list Lesson.t) (c : nat) (st : Store) :
  lessons (snd (create_missing ls c st)) = lessons st.
Proof.
  revert c st. induction ls as [|l ls IH]; intros c st; [reflexivity|].
  cbn [create_missing].
  destruct (default_records _ _) as [|a batch]; [apply IH|].
  destruct (bulk_create st (a :: batch)) as [st'|e] eqn:Hbulk; [|reflexivity].
  rewrite IH. unfold bulk_create in Hbulk.
  destruct (batch_unique _ _); [|discriminate]. now inversion Hbulk.
Qed.

(** X15: the six views keep each linked lesson in step with its schedule.
    If every lesson that is linked to a schedule is flagged as generated,
    has the subject, group, teacher and times of that schedule and is held
    on its weekday, the same holds after any request to any of the views. *)
Theorem views_keep_lessons_in_step (st : Store) :
  lessons_follow st ->
  (forall user method form, lessons_follow (snd (add_schedule user method form st)))
  /\ (forall user method sid, lessons_follow (snd (delete_schedule user method sid st)))
  /\ (forall user method form, lessons_follow (snd (add_lesson user method form st)))
  /\ (forall user method sid form,
         lessons_follow (snd (create_lesson_from_schedule user method sid form st)))
  /\ (forall user method,
         lessons_follow (snd (create_missing_attendance_records user method st)))
  /\ (forall user method student_id form,
         lessons_follow (snd (edit_attendance user method student_id form st))).
Proof.
  intros Hok. split; [|split; [|split; [|split; [|split]]]].
  - intros user method form.
    destruct (add_schedule_stored user method form st)
      as [->|[group [subject [teacher [w [start_time [end_time [b0 [e0 H]]]]]]]]];
      [exact Hok|].
    destruct H as [_ [_ [_ [_ [_ ->]]]]]. cbn [snd].
    intros l Hl. cbn in Hl. specialize (Hok l Hl).
    unfold follows_schedule in *. destruct (Lesson.schedule l) as [sid|]; [|exact I].
    destruct (get_schedule st sid) as [r|] eqn:Hr; [|contradiction].
    rewrite (get_schedule_after_add st _ sid r
               (new_row st form group subject teacher w b0 e0)); [exact Hok | | exact Hr].
    reflexivity.
  - intros user method sid. unfold delete_schedule.
    destruct (get_schedule st sid) as [s|] eqn:Hs; [|exact Hok].
    destruct (negb _); [exact Hok|].
    destruct method; [exact Hok|].
    cbn [snd]. intros l Hl. unfold Schedule_delete in Hl. cbn in Hl.
    apply filter_In in Hl. destruct Hl as [Hl Href]. specialize (Hok l Hl).
    unfold follows_schedule, get_schedule, Schedule_delete in *. cbn [schedules].
    unfold references_schedule in Href.
    destruct (Lesson.schedule l) as [sid'|]; [|exact I].
    rewrite get_schedule_after_delete; [exact Hok|].
    intros Heq. subst sid'. simpl in Href. rewrite Z.eqb_refl in Href. discriminate.
  - intros user method form. unfold add_lesson.
    destruct (teacher_of st user) as [teacher|]; [|exact Hok].
    destruct method; [exact Hok|].
    destruct (LessonForm.date form) as [| |d]; [exact Hok|exact Hok|].
    destruct (is_from_schedule_type _).
    + unfold add_lesson_from_schedule.
      destruct (is_absent _); [exact Hok|].
      destruct (get_object_or_404 _ _) as [schedule|e] eqn:Hget; [|exact Hok].
      destruct (negb (works_with _ _)); [exact Hok|].
      destruct (weekday d =? Schedule.weekday schedule) eqn:Hday; [|exact Hok].
      cbn [negb]. destruct (first _); [exact Hok|].
      apply (create_then_fan_out_follows st _ Lesson.group Hok).
      intros sid Hsid. cbn in Hsid. inversion Hsid. subst sid.
      apply get_object_or_404_ok in Hget. destruct Hget as [i [_ Hi]].
      rewrite (get_schedule_id st i schedule Hi). exists schedule.
      split; [exact Hi|]. split; [reflexivity|]. now apply Z.eqb_eq in Hday.
    + unfold add_lesson_manual.
      destruct (_ || _); [exact Hok|].
      destruct (get_object_or_404 _ (LessonForm.subject form)); [|exact Hok].
      destruct (get_object_or_404 _ (LessonForm.group form)); [|exact Hok].
      destruct (negb (works_with _ _)); [exact Hok|].
      destruct (first _); [exact Hok|].
      apply (create_posted_then_fan_out_follows st _ _ _ Hok). reflexivity.
  - intros user method sid form. unfold create_lesson_from_schedule.
    destruct (get_schedule st sid) as [schedule|] eqn:Hget; [|exact Hok].
    destruct (refused st user schedule); [exact Hok|].
    destruct method; [exact Hok|].
    destruct (LessonForm.date form) as [| |d]; [exact Hok|exact Hok|].
    destruct (weekday d =? Schedule.weekday schedule) eqn:Hday; [|exact Hok].
    cbn [negb]. destruct (first _); [exact Hok|].
    apply (create_then_fan_out_follows st _ (fun _ => Schedule.group schedule) Hok).
    intros sid' Hsid. cbn in Hsid. inversion Hsid. subst sid'.
    rewrite (get_schedule_id st sid schedule Hget). exists schedule.
    split; [exact Hget|]. split; [reflexivity|]. now apply Z.eqb_eq in Hday.
  - intros user method. unfold create_missing_attendance_records.
    destruct (negb _); [exact Hok|]. destruct method; [exact Hok|].
    apply (lessons_follow_same st); [| apply create_missing_lessons | exact Hok].
    apply create_missing_timetable.
  - intros user method student_id form. unfold edit_attendance.
    destruct (get_student st student_id) as [student|]; [|exact Hok].
    destruct (negb _); [exact Hok|]. destruct method; [exact Hok|].
    apply (lessons_follow_same st); [| apply edit_entries_tables | exact Hok].
    apply edit_entries_timetable.
Qed.

Lemma school_lessons_follow : lessons_follow school.
Proof.
  intros l [<-|[]]. unfold follows_schedule. cbn. repeat split.
Qed.

Lemma views_keep_lessons_in_step_witness :
  (forall user method form, lessons_follow (snd (add_schedule user method form school)))
  /\ (forall user method sid, lessons_follow (snd (delete_schedule user method sid school)))
  /\ (forall user method form, lessons_follow (snd (add_lesson user method form school)))
  /\ (forall user method sid form,
         lessons_follow (snd (create_lesson_from_schedule user method sid form school)))
  /\ (forall user method,
         lessons_follow (snd (create_missing_attendance_records user method school)))
  /\ (forall user method student_id form,
         lessons_follow (snd (edit_attendance user method student_id form school))).
Proof. exact (views_keep_lessons_in_step school school_lessons_follow). Defined.

(** ** No two lessons in one slot *)

Lemma sql_eqb_sym (a b : option Z) : sql_eqb a b = sql_eqb b a.
Proof. destruct a, b; simpl; try reflexivity. apply Z.eqb_sym. Qed.

Lemma same_slot_sym (a b : Lesson.t) : same_slot a b = same_slot b a.
Proof.
  unfold same_slot, Lesson_same_key.
  rewrite (Z.eqb_sym (Lesson.subject a)), (Z.eqb_sym (Lesson.date a)),
          (Z.eqb_sym (Lesson.group a)), (sql_eqb_sym (Lesson.start_time a)),
          (sql_eqb_sym (Lesson.schedule a)).
  reflexivity.
Qed.

Lemma Lesson_create_fresh (st st1 : Store) (l0 l : Lesson.t) :
  Lesson_create st l0 = Ok (l, st1) ->
  Lesson.schedule l = Lesson.schedule l0
  /\ Lesson.date l = Lesson.date l0
  /\ forall r, In r (lessons st) -> Lesson_same_key l r = false.
Proof.
  unfold Lesson_create, bind.
  destruct (Lesson_copy_schedule st l0) as [l1|] eqn:Hcopy; [|discriminate].
  destruct (Lesson_clean l1); [|discriminate].
  destruct (existsb _ _) eqn:Hex; [discriminate|].
  intros H. inversion H. subst. cbn.
  assert (Hsame : Lesson.schedule l1 = Lesson.schedule l0
                  /\ Lesson.date l1 = Lesson.date l0).
  { unfold Lesson_copy_schedule in Hcopy.
    destruct (Lesson.schedule l0) as [sid|] eqn:Hsid.
    - destruct (get_schedule st sid); [|discriminate].
      destruct (Lesson.is_from_schedule l0); inversion Hcopy; subst; cbn; auto.
    - inversion Hcopy; subst; auto. }
  destruct Hsame as [H1 H2]. split; [exact H1|]. split; [exact H2|].
  intros r Hr. destruct (Lesson_same_key _ r) eqn:E; [|reflexivity].
  assert (Hone : existsb (Lesson_same_key l1) (lessons st) = true).
  { apply existsb_exists. exists r. split; [exact Hr | exact E]. }
  congruence.
Qed.

Lemma create_then_fan_out_distinct (st : Store) (l0 : Lesson.t)
    (group_of : Lesson.t -> Z) :
  lessons_distinct st ->
  (forall r, In r (lessons st) ->
     sql_eqb (Lesson.schedule l0) (Lesson.schedule r)
     && (Lesson.date l0 =? Lesson.date r) = false) ->
  lessons_distinct
    (snd (match Lesson_create st l0 with
          | Raise e => (Rejected (OperationFailed e), st)
          | Ok (lesson, st1) => fan_out lesson (group_of lesson) st1
          end)).
Proof.
  intros Hok Hfree.
  destruct (Lesson_create st l0) as [[lesson st1]|e] eqn:Hcreate; [|exact Hok].
  destruct (Lesson_create_ok st st1 l0 lesson Hcreate) as [_ [Hst1 _]].
  destruct (Lesson_create_fresh st st1 l0 lesson Hcreate) as [Hsched [Hdate Hkey]].
  destruct (fan_out lesson (group_of lesson) st1) as [resp st'] eqn:Hfan.
  destruct (fan_out_tables _ _ _ _ _ Hfan) as [Hlessons _].
  cbn [snd]. subst st1. cbn in Hlessons.
  assert (Hnew : forall r, In r (lessons st) -> same_slot lesson r = false).
  { intros r Hr. unfold same_slot. rewrite (Hkey r Hr), Hsched, Hdate. now apply Hfree. }
  intros a b Ha Hb Hne. rewrite Hlessons in Ha, Hb.
  apply in_app_or in Ha. apply in_app_or in Hb.
  destruct Ha as [Ha|[<-|[]]], Hb as [Hb|[<-|[]]].
  - now apply Hok.
  - rewrite same_slot_sym. now apply Hnew.
  - now apply Hnew.
  - contradiction.
Qed.

Lemma lessons_distinct_same (st st' : Store) :
  lessons st' = lessons st -> lessons_distinct st -> lessons_distinct st'.
Proof.
  unfold lessons_distinct. now intros ->.
Qed.

Lemma create_posted_then_fan_out_distinct (st : Store) (l0 : Lesson.t)
    (start_time end_time : option PostedTime.t) :
  lessons_distinct st ->
  Lesson.schedule l0 = None ->
  lessons_distinct
    (snd (match Lesson_create_posted st l0 start_time end_time with
          | Raise e => (Rejected (OperationFailed e), st)
          | Ok (lesson, st1) =>
              match start_time, end_time with
              | Some _, Some _ => (Rejected (OperationFailed AttributeError), st1)
              | _, _ => fan_out lesson (Lesson.group lesson) st1
              end
          end)).
Proof.
  intros Hok Hnone. apply (manual_path_keeps lessons_distinct); [exact Hok|].
  intros lesson st1 Hcreate.
  destruct (Lesson_create_posted_ok st st1 l0 lesson _ _ Hcreate)
    as [_ [Hst1 [b [e [_ [_ [Hl Hkey]]]]]]].
  assert (Hnew : forall r, In r (lessons st) -> same_slot lesson r = false).
  { intros r Hr. unfold same_slot. subst lesson.
    assert (Hfree : Lesson_same_key (Lesson_with_times l0 b e) r = false).
    { destruct (Lesson_same_key _ r) eqn:E; [|reflexivity].
      assert (Hone : existsb (Lesson_same_key (Lesson_with_times l0 b e)) (lessons st)
                     = true).
      { apply existsb_exists. exists r. split; [exact Hr | exact E]. }
      congruence. }
    change (Lesson_same_key (Lesson_with_id (lesson_seq st) (Lesson_with_times l0 b e)) r)
      with (Lesson_same_key (Lesson_with_times l0 b e) r).
    rewrite Hfree. cbn. rewrite Hnone. reflexivity. }
  assert (Hstep : lessons_distinct st1).
  { subst st1. intros x y Hx Hy Hne. cbn in Hx, Hy.
    apply in_app_or in Hx. apply in_app_or in Hy.
    destruct Hx as [Hx|[<-|[]]], Hy as [Hy|[<-|[]]].
    - now apply Hok.
    - rewrite same_slot_sym. now apply Hnew.
    - now apply Hnew.
    - contradiction. }
  split; [exact Hstep|].
  destruct (fan_out lesson (Lesson.group lesson) st1) as [resp st'] eqn:Hfan.
  destruct (fan_out_tables _ _ _ _ _ Hfan) as [Hlessons _].
  cbn [snd]. now apply (lessons_distinct_same st1 st').
Qed.

Lemma no_lesson_of_schedule (st : Store) (schedule : Schedule.t) (d : date)
    (classroom notes : string) :
  first (lessons_of_schedule st (Schedule.id schedule) d) = None ->
  forall r, In r (lessons st) ->
    sql_eqb (Lesson.schedule (lesson_of_schedule schedule d classroom notes))
            (Lesson.schedule r)
    && (Lesson.date (lesson_of_schedule schedule d classroom notes) =? Lesson.date r)
    = false.
Proof.
  intros Hnone r Hr. apply first_none_empty in Hnone.
  change (sql_eqb (Some (Schedule.id schedule)) (Lesson.schedule r)
          && (d =? Lesson.date r) = false).
  destruct (sql_eqb (Some (Schedule.id schedule)) (Lesson.schedule r)
            && (d =? Lesson.date r)) eqn:E; [|reflexivity].
  assert (Hin : In r (lessons_of_schedule st (Schedule.id schedule) d)).
  { unfold lessons_of_schedule. apply filter_In. split; [exact Hr|].
    now rewrite sql_eqb_sym, Z.eqb_sym. }
  rewrite Hnone in Hin. contradiction.
Qed.

(** X16: the six views never put two lessons into one slot.  If no two rows
    of the lessons share subject, date, group and a start time that is set,
    and no two rows are linked to the same schedule on the same date, the
    same holds after any request to any of the views. *)
Theorem views_keep_lessons_distinct (st : Store) :
  lessons_distinct st ->
  (forall user method form, lessons_distinct (snd (add_schedule user method form st)))
  /\ (forall user method sid, lessons_distinct (snd (delete_schedule user method sid st)))
  /\ (forall user method form, lessons_distinct (snd (add_lesson user method form st)))
  /\ (forall user method sid form,
         lessons_distinct (snd (create_lesson_from_schedule user method sid form st)))
  /\ (forall user method,
         lessons_distinct (snd (create_missing_attendance_records user method st)))
  /\ (forall user method student_id form,
         lessons_distinct (snd (edit_attendance user method student_id form st))).
Proof.
  intros Hok. split; [|split; [|split; [|split; [|split]]]].
  - intros user method form.
    destruct (add_schedule_stored user method form st)
      as [->|[group [subject [teacher [w [start_time [end_time [b0 [e0 H]]]]]]]]];
      [exact Hok|].
    destruct H as [_ [_ [_ [_ [_ ->]]]]]. cbn [snd].
    exact Hok.
  - intros user method sid. unfold delete_schedule.
    destruct (get_schedule st sid) as [s|]; [|exact Hok].
    destruct (negb _); [exact Hok|].
    destruct method; [exact Hok|].
    cbn [snd]. intros a b Ha Hb. unfold Schedule_delete in Ha, Hb. cbn in Ha, Hb.
    apply filter_In in Ha, Hb. now apply Hok.
  - intros user method form. unfold add_lesson.
    destruct (teacher_of st user) as [teacher|]; [|exact Hok].
    destruct method; [exact Hok|].
    destruct (LessonForm.date form) as [| |d]; [exact Hok|exact Hok|].
    destruct (is_from_schedule_type _).
    + unfold add_lesson_from_schedule.
      destruct (is_absent _); [exact Hok|].
      destruct (get_object_or_404 _ _) as [schedule|e]; [|exact Hok].
      destruct (negb (works_with _ _)); [exact Hok|].
      destruct (negb (weekday d =? _)); [exact Hok|].
      destruct (first _) eqn:Hfirst; [exact Hok|].
      apply (create_then_fan_out_distinct st _ Lesson.group Hok).
      now apply no_lesson_of_schedule.
    + unfold add_lesson_manual.
      destruct (_ || _); [exact Hok|].
      destruct (get_object_or_404 _ (LessonForm.subject form)); [|exact Hok].
      destruct (get_object_or_404 _ (LessonForm.group form)); [|exact Hok].
      destruct (negb (works_with _ _)); [exact Hok|].
      destruct (first _); [exact Hok|].
      apply (create_posted_then_fan_out_distinct st _ _ _ Hok). reflexivity.
  - intros user method sid form. unfold create_lesson_from_schedule.
    destruct (get_schedule st sid) as [schedule|]; [|exact Hok].
    destruct (refused st user schedule); [exact Hok|].
    destruct method; [exact Hok|].
    destruct (LessonForm.date form) as [| |d]; [exact Hok|exact Hok|].
    destruct (negb (weekday d =? _)); [exact Hok|].
    destruct (first _) eqn:Hfirst; [exact Hok|].
    apply (create_then_fan_out_distinct st _ (fun _ => Schedule.group schedule) Hok).
    now apply no_lesson_of_schedule.
  - intros user method. unfold create_missing_attendance_records.
    destruct (negb _); [exact Hok|]. destruct method; [exact Hok|].
    apply (lessons_distinct_same st); [apply create_missing_lessons | exact Hok].
  - intros user method student_id form. unfold edit_attendance.
    destruct (get_student st student_id) as [student|]; [|exact Hok].
    destruct (negb _); [exact Hok|]. destruct method; [exact Hok|].
    apply (lessons_distinct_same st); [apply edit_entries_tables | exact Hok].
Qed.

Lemma school_lessons_distinct : lessons_distinct school.
Proof.
  intros a b [<-|[]] [<-|[]] Hne. contradiction.
Qed.

Lemma views_keep_lessons_distinct_witness :
  (forall user method form, lessons_distinct (snd (add_schedule user method form school)))
  /\ (forall user method sid,
         lessons_distinct (snd (delete_schedule user method sid school)))
  /\ (forall user method form, lessons_distinct (snd (add_lesson user method form school)))
  /\ (forall user method sid form,
         lessons_distinct (snd (create_lesson_from_schedule user method sid form school)))
  /\ (forall user method,
         lessons_distinct (snd (create_missing_attendance_records user method school)))
  /\ (forall user method student_id form,
         lessons_distinct (snd (edit_attendance user method student_id form school))).
Proof. exact (views_keep_lessons_distinct school school_lessons_distinct). Defined.
